(** * The Office audit system: the fraud and conspiracy detectors

    A shallow embedding of [src/utils/document_loader.py] (the loaders of
    the transactions, the emails and the policy, and the chunks of text
    for retrieval), of [src/agents/standalone_fraud_agent.py] (the five
    rule checks, the deduplication pass, the report and the analysis that
    runs them), of [src/agents/contextual_fraud_agent.py] (the three
    strategies, their judgments, the report and the analysis) and of
    [src/agents/conspiracy_agent.py] (the filter, the judgment of one
    email with its second attempt, the scan, the report and the analysis).

    Modelling conventions.
    - A Python [str] is a [string] holding its UTF-8 bytes.  Substring
      search and lexicographic comparison on the bytes agree with Python's
      on code points, so both are defined here; the builtins whose result
      depends on Unicode tables ([lower], [split], [title], [strip], ...)
      are the fields of the class [PyStr], with an ASCII instance to run
      the model on concrete tables.
    - A pandas float is an exact rational [Q].  The rules compare amounts
      with the constants 300 and 500, which is exact on floats, and the
      ratio of two word counts with 0.6, where the float comparison agrees
      with the exact one for any word set of fewer than 2^50 words; the sum
      of two amounts is the exact sum.
    - A table is the list of its rows; [iterrows] gives each row its index
      label, which the code reads but never uses.  An empty CSV cell, NaN
      in pandas, is [None] for the description and the category; the id
      and the employee of a row are text, so the results hold of tables
      whose id and employee cells are all filled.
    - A parsed JSON number is a rational, NaN or an infinity; the order
      that [sorted] gives to keys with a NaN among them is left to the
      class [PyJson], which only says that it rearranges the list.
    - A raised exception is the [Raise] branch of [result]; loops that
      mutate an accumulator are monadic left folds over it.
    - The text-completion service is a function of the number of calls
      made so far, and the computations that call it thread that number. *)

From Stdlib Require Import ZArith QArith Qround Ascii String Sorted.
From stdpp Require Import base decidable option list strings pretty gmap sets.

Local Open Scope string_scope.
Local Open Scope list_scope.

(** ** Exceptions *)

Inductive exn : Type :=
  | FileNotFoundError (msg : string)
  | ValueError (msg : string)
  | AttributeError (msg : string)
  | JSONDecodeError (msg : string)
  | OtherException (msg : string).

Inductive result (A : Type) : Type :=
  | Ok (a : A)
  | Raise (e : exn).
Arguments Ok {A} a.
Arguments Raise {A} e.

Global Instance result_ret : MRet result := fun _ a => Ok a.
Global Instance result_bind : MBind result := fun _ _ f m =>
  match m with
  | Ok a => f a
  | Raise e => Raise e
  end.

(** [for x in l: acc = body(acc, x)] where the body may raise. *)
Fixpoint foldM {A B : Type} (body : A -> B -> result A) (acc : A) (l : list B)
  : result A :=
  match l with
  | [] => Ok acc
  | x :: l' => acc' ← body acc x; foldM body acc' l'
  end.

(** ** Python's string builtins *)

Class PyStr : Type := {
  py_lower : string -> string;              (* str.lower() *)
  py_split : string -> list string;         (* str.split(), on whitespace *)
  py_title : string -> string;              (* str.title() *)
  py_strip : string -> string;              (* str.strip() *)
  py_replace : string -> string -> string -> string;  (* s.replace(old, new) *)
  py_format_f : nat -> Q -> string;         (* f"{x:.nf}" *)
  py_str_int : Z -> string;                 (* str(n) of an int *)
}.

(** [k in s] on strings: [k] occurs in [s] as a contiguous substring. *)
Fixpoint str_in (k s : string) : bool :=
  String.prefix k s ||
  match s with
  | EmptyString => false
  | String _ s' => str_in k s'
  end.

(** The double quote, which the f-strings of the source embed. *)
Definition dquote : string := String (ascii_of_nat 34) EmptyString.

(** ** Data model *)

(** One row of the loaded table.  [descricao] and [categoria] are [None]
    where pandas holds NaN (an empty CSV cell); [categoria] is also [None]
    in every row when the column is absent.  The id and the employee are
    text: a table with an empty id or employee cell is outside this model
    (on a text id and a NaN, [sorted([id1, id2])] of the smurfing rule
    raises [TypeError]). *)
Record Row : Type := mkRow {
  id_transacao : string;
  funcionario : string;
  data : Z;
  valor : Q;
  descricao : option string;
  categoria : option string;
}.

Record DataFrame : Type := mkDataFrame {
  columns : list string;
  rows : list Row;
}.

(** The [transaction] entry of a smurfing violation. *)
Record SmurfPair : Type := mkSmurfPair {
  id_1 : string;
  id_2 : string;
  pair_funcionario : string;
  pair_data : Z;
  valor_total : Q;
  valor_1 : Q;
  valor_2 : Q;
  descricao_1 : string;
  descricao_2 : string;
  similaridade : string;
}.

(** [fraud['transaction']]: [row.to_dict()] or the dict of a pair. *)
Inductive TxDict : Type :=
  | TxRow (row : Row)
  | TxPair (p : SmurfPair).

Record Violation : Type := mkViolation {
  transaction : TxDict;
  violation_type : string;
  severity : Z;
  rule : string;
  reason : string;
  evidence : string;
}.

(** [row['descricao'].lower()]: NaN is a float and has no such method. *)
Definition descricao_lower `{PyStr} (row : Row) : result string :=
  match descricao row with
  | Some s => Ok (py_lower s)
  | None => Raise (AttributeError "'float' object has no attribute 'lower'")
  end.

(** [f"{row['descricao']}"]. *)
Definition str_descricao (row : Row) : string :=
  match descricao row with
  | Some s => s
  | None => "nan"
  end.

(** ** Rule 1: prohibited items *)

Definition prohibited_keywords : list string :=
  [ "mágica"; "magic"; "karaokê"; "karaoke"; "algema"; "handcuff";
    "corrente"; "chain"; "fumaça"; "smoke"; "pombo"; "pigeon";
    "stripper"; "baralho marcado"; "discoteca"; "disco";
    "arma"; "weapon"; "gun"; "airsoft"; "espada"; "sword"; "katana";
    "ninja"; "nunchaku"; "spray de pimenta"; "pepper spray";
    "camuflagem"; "camouflage"; "armadilha"; "trap";
    "vela artesanal"; "candle"; "startup"; "rede social"; "social network";
    "beterraba"; "beet"; "binóculo"; "binocular"; "vigilância"; "surveillance";
    "walkie talkie"; "walkie-talkie" ].

(** [for keyword in keywords: if keyword in text: ...; break]: the keyword
    the inner loop stops at. *)
Fixpoint first_match (keywords : list string) (text : string) : option string :=
  match keywords with
  | [] => None
  | keyword :: rest =>
      if str_in keyword text then Some keyword else first_match rest text
  end.

Definition prohibited_violation (row : Row) (keyword : string) : Violation :=
  {| transaction := TxRow row;
     violation_type := "ITEM_PROIBIDO";
     severity := 9;
     rule := "Seção 3 - Lista Negra de Itens";
     reason := "Compra de item proibido detectada: " +:+ dquote +:+ keyword +:+ dquote;
     evidence := "Descrição: " +:+ str_descricao row |}.

Definition prohibited_step `{PyStr} (violations : list Violation) (row : Row)
  : result (list Violation) :=
  description_lower ← descricao_lower row;
  match first_match prohibited_keywords description_lower with
  | Some keyword => Ok (violations ++ [prohibited_violation row keyword])
  | None => Ok violations
  end.

Definition _check_prohibited_items `{PyStr} (df : DataFrame) : result (list Violation) :=
  foldM prohibited_step [] (rows df).

(** ** Rule 2: amounts above the approval limit *)

(** [x > y] on floats. *)
Definition Qgtb (x y : Q) : bool := negb (Qle_bool x y).

Definition high_value_threshold : Q := 500.

Definition unauthorized_violation `{PyStr} (row : Row) : Violation :=
  {| transaction := TxRow row;
     violation_type := "VALOR_NAO_AUTORIZADO";
     severity := 7;
     rule := "Seção 1.3 - Grandes Despesas";
     reason := "Valor acima de $500.0 sem evidência de Purchase Order";
     evidence := "Valor: $" +:+ py_format_f 2 (valor row) |}.

Definition unauthorized_step `{PyStr} (violations : list Violation) (row : Row)
  : result (list Violation) :=
  if Qgtb (valor row) high_value_threshold then
    description_lower ← descricao_lower row;
    if negb (str_in "po" description_lower)
       && negb (str_in "purchase order" description_lower)
       && negb (str_in "p.o." description_lower)
    then Ok (violations ++ [unauthorized_violation row])
    else Ok violations
  else Ok violations.

Definition _check_unauthorized_amounts `{PyStr} (df : DataFrame)
  : result (list Violation) :=
  foldM unauthorized_step [] (rows df).

(** ** Rule 3: smurfing *)

(** [set(text.lower().split())]. *)
Definition word_set `{PyStr} (lowered : string) : gset string :=
  list_to_set (py_split lowered).

(** [tuple(sorted([a, b]))]: Python's sort is stable, so the two swap only
    when [b < a]. *)
Definition sorted_pair (a b : string) : string * string :=
  if String.ltb b a then (b, a) else (a, b).

(** [Series.unique()]: the distinct values in order of first appearance. *)
Definition unique {A : Type} `{EqDecision A} (l : list A) : list A :=
  fold_left (fun seen x => if decide (x ∈ seen) then seen else seen ++ [x]) l [].

(** The order of [df.sort_values(['funcionario', 'data', 'descricao'])]:
    lexicographic on the three columns, NaN descriptions last. *)
Definition nan_last_compare (a b : option string) : comparison :=
  match a, b with
  | Some x, Some y => String.compare x y
  | Some _, None => Lt
  | None, Some _ => Gt
  | None, None => Eq
  end.

Definition sort_key_compare (a b : Row) : comparison :=
  match String.compare (funcionario a) (funcionario b) with
  | Eq =>
      match Z.compare (data a) (data b) with
      | Eq => nan_last_compare (descricao a) (descricao b)
      | c => c
      end
  | c => c
  end.

(** A table as [iterrows()] yields it: each row with its index label. *)
Definition iterrows (rs : list Row) : list (nat * Row) :=
  imap (fun idx row => (idx, row)) rs.

(** A stable insertion sort, as Python's [sorted] and pandas' multi-column
    [sort_values] are: elements that compare equal keep their order. *)
Fixpoint stable_insert {A : Type} (leb : A -> A -> bool) (x : A) (l : list A)
  : list A :=
  match l with
  | [] => [x]
  | y :: l' => if leb x y then x :: l else y :: stable_insert leb x l'
  end.

Definition stable_sort {A : Type} (leb : A -> A -> bool) (l : list A) : list A :=
  foldr (stable_insert leb) [] l.

Definition sort_key_leb (x y : nat * Row) : bool :=
  match sort_key_compare x.2 y.2 with
  | Gt => false
  | _ => true
  end.

Definition sort_values (l : list (nat * Row)) : list (nat * Row) :=
  stable_sort sort_key_leb l.

(** [for i in range(len(l)): for j in range(i + 1, len(l)): body(l[i], l[j])]. *)
Fixpoint pair_loop {A S : Type} (body : S -> A -> A -> result S) (st : S)
    (l : list A) : result S :=
  match l with
  | [] => Ok st
  | x :: tl =>
      st' ← foldM (fun s y => body s x y) st tl;
      pair_loop body st' tl
  end.

Definition similarity_of (w1 w2 : gset string) : Q :=
  inject_Z (Z.of_nat (size (w1 ∩ w2))) / inject_Z (Z.of_nat (size (w1 ∪ w2))).

Definition smurfing_violation `{PyStr} (fname : string) (day : Z)
    (row1 row2 : Row) (similarity total : Q) : Violation :=
  {| transaction := TxPair
       {| id_1 := id_transacao row1;
          id_2 := id_transacao row2;
          pair_funcionario := fname;
          pair_data := day;
          valor_total := total;
          valor_1 := valor row1;
          valor_2 := valor row2;
          descricao_1 := str_descricao row1;
          descricao_2 := str_descricao row2;
          similaridade := py_format_f 1 (similarity * 100) +:+ "%" |};
     violation_type := "SMURFING";
     severity := 10;
     rule := "Seção 1.3 - Proibição de Smurfing";
     reason := "Possível estruturação: duas compras similares ("
               +:+ py_format_f 0 (similarity * 100)
               +:+ "% similar) no mesmo dia totalizando $"
               +:+ py_format_f 2 total;
     evidence := "TX1: " +:+ id_transacao row1 +:+ " ($"
                 +:+ py_format_f 2 (valor row1) +:+ ") + TX2: "
                 +:+ id_transacao row2 +:+ " ($"
                 +:+ py_format_f 2 (valor row2) +:+ ")" |}.

(** The state the nested loops update: [violations] and [detected_pairs]. *)
Definition smurf_state : Type := list Violation * gset (string * string).

(** The body of the innermost loop, for the pair [(row1, row2)]. *)
Definition smurfing_body `{PyStr} (fname : string) (day : Z) (st : smurf_state)
    (x1 x2 : nat * Row) : result smurf_state :=
  let row1 := x1.2 in
  let row2 := x2.2 in
  let pair_key := sorted_pair (id_transacao row1) (id_transacao row2) in
  if decide (pair_key ∈ st.2) then Ok st
  else
    lowered1 ← descricao_lower row1;
    let desc1_words := word_set lowered1 in
    lowered2 ← descricao_lower row2;
    let desc2_words := word_set lowered2 in
    if bool_decide (desc1_words = ∅) || bool_decide (desc2_words = ∅) then Ok st
    else
      let similarity := similarity_of desc1_words desc2_words in
      if Qgtb similarity 0.6
         && (Qle_bool 300 (valor row1) && Qle_bool (valor row1) 500)
         && (Qle_bool 300 (valor row2) && Qle_bool (valor row2) 500)
      then
        let total := (valor row1 + valor row2)%Q in
        if Qgtb total 500
        then Ok (st.1 ++ [smurfing_violation fname day row1 row2 similarity total],
                 {[ pair_key ]} ∪ st.2)
        else Ok st
      else Ok st.

Definition smurfing_day `{PyStr} (fname : string) (func_df : list (nat * Row))
    (st : smurf_state) (day : Z) : result smurf_state :=
  let day_transactions := filter (fun x => data x.2 = day) func_df in
  pair_loop (smurfing_body fname day) st day_transactions.

Definition smurfing_employee `{PyStr} (df_sorted : list (nat * Row))
    (st : smurf_state) (fname : string) : result smurf_state :=
  let func_df := filter (fun x => funcionario x.2 = fname) df_sorted in
  foldM (smurfing_day fname func_df) st (unique ((fun x => data x.2) <$> func_df)).

Definition _check_smurfing `{PyStr} (df : DataFrame) : result (list Violation) :=
  let df_sorted := sort_values (iterrows (rows df)) in
  st ← foldM (smurfing_employee df_sorted) ([], ∅)
        (unique (funcionario <$> rows df));
  Ok st.1.

(** ** Rule 4: restricted locations *)

Definition restricted_locations : list string := [ "hooters"; "hooter" ].

Definition restricted_violation `{PyStr} (row : Row) (location : string) : Violation :=
  {| transaction := TxRow row;
     violation_type := "LOCAL_RESTRITO";
     severity := 6;
     rule := "Seção 2.1 - Locais Restritos";
     reason := "Refeição em local restrito: " +:+ py_title location
               +:+ " (banido da lista de reembolso)";
     evidence := "Descrição: " +:+ str_descricao row |}.

Definition restricted_step `{PyStr} (violations : list Violation) (row : Row)
  : result (list Violation) :=
  description_lower ← descricao_lower row;
  match first_match restricted_locations description_lower with
  | Some location => Ok (violations ++ [restricted_violation row location])
  | None => Ok violations
  end.

Definition _check_restricted_locations `{PyStr} (df : DataFrame)
  : result (list Violation) :=
  foldM restricted_step [] (rows df).

(** ** Rule 5: suspicious categories *)

Definition suspicious_violation `{PyStr} (row : Row) : Violation :=
  {| transaction := TxRow row;
     violation_type := "CATEGORIA_SUSPEITA";
     severity := 7;
     rule := "Seção 3.2 - Armamento e Defesa";
     reason := "Despesa categorizada como " +:+ dquote +:+ "Segurança" +:+ dquote
               +:+ " (possível armamento)";
     evidence := "Descrição: " +:+ str_descricao row +:+ ", Valor: $"
                 +:+ py_format_f 2 (valor row) |}.

(** Nothing in this check can raise: a NaN category compares unequal to
    the sentinel and a NaN description formats as [nan]. *)
Definition _check_suspicious_categories `{PyStr} (df : DataFrame) : list Violation :=
  if decide ("categoria" ∈ columns df) then
    let security_df := filter (fun row => categoria row = Some "Segurança") (rows df) in
    fold_left (fun violations row => violations ++ [suspicious_violation row])
      security_df []
  else [].

(** ** Deduplication *)

(** [tx.get('id_transacao', tx.get('id_1', str(hash(str(tx)))))]: a row
    dict has the first key and a pair dict the second, so the hash default
    is never the result. *)
Definition tx_id (tx : TxDict) : string :=
  match tx with
  | TxRow row => id_transacao row
  | TxPair p => id_1 p
  end.

(** A Python dict keeps its keys in insertion order, and assigning to a
    key that is present keeps the key's place. *)
Fixpoint dict_get {V : Type} (d : list (string * V)) (k : string) : option V :=
  match d with
  | [] => None
  | (k', v) :: d' => if decide (k' = k) then Some v else dict_get d' k
  end.

Fixpoint dict_set {V : Type} (d : list (string * V)) (k : string) (v : V)
  : list (string * V) :=
  match d with
  | [] => [(k, v)]
  | (k', v') :: d' =>
      if decide (k' = k) then (k, v) :: d' else (k', v') :: dict_set d' k v
  end.

Definition dedup_step (fraud_dict : list (string * Violation)) (fraud : Violation)
  : list (string * Violation) :=
  let key := tx_id (transaction fraud) in
  match dict_get fraud_dict key with
  | None => dict_set fraud_dict key fraud
  | Some kept =>
      if (severity fraud >? severity kept)%Z
      then dict_set fraud_dict key fraud
      else fraud_dict
  end.

Definition _deduplicate_frauds (frauds : list Violation) : list Violation :=
  (fold_left dedup_step frauds []).*2.

(** ** The report *)

Definition nl : string := String (ascii_of_nat 10) EmptyString.

(** ["\n".join(lines)]. *)
Definition join_lines (lines : list string) : string := String.concat nl lines.

(** [s * n]. *)
Fixpoint str_repeat (s : string) (n : nat) : string :=
  match n with
  | O => ""
  | S n' => s +:+ str_repeat s n'
  end.

Definition str_len `{PyStr} {A : Type} (l : list A) : string :=
  py_str_int (Z.of_nat (length l)).

(** [sorted(l, key=key)]. *)
Definition sorted_by {A : Type} (key : A -> Z) (l : list A) : list A :=
  stable_sort (fun x y => (key x <=? key y)%Z) l.

(** [by_type[vtype].append(fraud)], creating the entry when it is new. *)
Definition by_type_step (by_type : list (string * list Violation)) (fraud : Violation)
  : list (string * list Violation) :=
  let vtype := violation_type fraud in
  match dict_get by_type vtype with
  | None => dict_set by_type vtype [fraud]
  | Some items => dict_set by_type vtype (items ++ [fraud])
  end.

Definition report_banner : list string :=
  [ "╔══════════════════════════════════════════════════════════════════════╗";
    "║         RELATÓRIO DE AUDITORIA - FRAUDES STANDALONE                  ║";
    "╚══════════════════════════════════════════════════════════════════════╝" ].

Definition report_entry `{PyStr} (report : string) (entry : nat * Violation) : string :=
  let i := entry.1 in
  let fraud := entry.2 in
  let report := report +:+ "[" +:+ py_str_int (Z.of_nat i) +:+ "] "
                +:+ violation_type fraud +:+ " - Severidade: "
                +:+ py_str_int (severity fraud) +:+ "/10" +:+ nl in
  let report := report +:+ "    Regra: " +:+ rule fraud +:+ nl in
  let report := report +:+ "    Razão: " +:+ reason fraud +:+ nl in
  let report := report +:+ "    " +:+ evidence fraud +:+ nl in
  let report :=
    match transaction fraud with
    | TxRow row =>
        report +:+ "    ID: " +:+ id_transacao row +:+ " | Funcionário: "
        +:+ funcionario row +:+ nl
    | TxPair p =>
        report +:+ "    IDs: " +:+ id_1 p +:+ " + " +:+ id_2 p
        +:+ " | Funcionário: " +:+ pair_funcionario p +:+ nl
        +:+ "    Similaridade: " +:+ similaridade p +:+ nl
    end in
  report +:+ nl.

Definition _generate_report `{PyStr} (frauds : list Violation) (total : nat) : string :=
  match frauds with
  | [] =>
      join_lines
        ([ "" ] ++ report_banner ++
         [ ""; "STATUS: ✓ NENHUMA VIOLAÇÃO DETECTADA"; "";
           "Todas as transações estão em conformidade com a política de compliance.";
           ""; "Recomendação: Nenhuma ação necessária."; "" ])
  | _ =>
      let by_type := fold_left by_type_step frauds [] in
      let high_severity := filter (fun f => (8 <= severity f)%Z) frauds in
      let report :=
        join_lines
          ([ "" ] ++ report_banner ++
           [ ""; "⚠️  VIOLAÇÕES DETECTADAS"; ""; "ESTATÍSTICAS:";
             "- Total de transações analisadas: " +:+ py_str_int (Z.of_nat total);
             "- Violações encontradas: " +:+ str_len frauds;
             "- Alta severidade (≥8): " +:+ str_len high_severity;
             ""; "VIOLAÇÕES POR TIPO:"; "" ]) in
      let report :=
        fold_left
          (fun report item =>
             report +:+ "  • " +:+ item.1 +:+ ": " +:+ str_len item.2
             +:+ " caso(s)" +:+ nl)
          (sorted_by (fun item => (- Z.of_nat (length item.2))%Z) by_type)
          report in
      let report := report +:+ nl +:+ str_repeat "─" 70 +:+ nl in
      let report := report +:+ "TOP 10 VIOLAÇÕES MAIS SEVERAS:" +:+ nl in
      let report := report +:+ str_repeat "─" 70 +:+ nl +:+ nl in
      let sorted_frauds := sorted_by (fun f => (- severity f)%Z) frauds in
      let report :=
        fold_left report_entry
          (imap (fun i fraud => (S i, fraud)) (take 10 sorted_frauds)) report in
      report +:+
      join_lines
        [ ""; str_repeat "─" 70; "CONCLUSÃO:";
          "⚠️  " +:+ str_len frauds +:+ " violação(ões) de compliance detectada(s)";
          "⚠️  Ação recomendada: Revisão com RH e possível ação disciplinar";
          ""; "Relatório gerado pelo Sistema de Auditoria Dunder Mifflin"; "" ]
  end.

(** ** The transaction loader *)

(** A cell as [pd.read_csv] leaves it: text, a number, or NaN. *)
Inductive Cell : Type :=
  | CellStr (s : string)
  | CellNum (q : Q)
  | CellNaN.

(** One row of the frame [pd.read_csv] returns.  The field of a column
    the file does not have is never read.  The id and the employee cells
    are text, as in [Row]. *)
Record RawRow : Type := mkRawRow {
  raw_id_transacao : string;
  raw_funcionario : string;
  raw_data : Cell;
  raw_valor : Cell;
  raw_descricao : option string;
  raw_categoria : option string;
}.

Record RawFrame : Type := mkRawFrame {
  raw_columns : list string;
  raw_rows : list RawRow;
}.

(** The two pandas conversions, on a whole column, with [errors='coerce']:
    an entry that does not parse becomes NaN / NaT, here [None]. *)
Class Pandas : Type := {
  to_numeric : list Cell -> list (option Q);
  to_datetime : list Cell -> list (option Z);
  to_numeric_length : forall col, length (to_numeric col) = length col;
  to_datetime_length : forall col, length (to_datetime col) = length col;
}.

Definition required_columns : list string :=
  [ "id_transacao"; "funcionario"; "data"; "valor"; "descricao" ].

(** [f"{names}"] for a list of strings. *)
Definition repr_list (names : list string) : string :=
  "[" +:+ String.concat ", " ((fun s => "'" +:+ s +:+ "'") <$> names) +:+ "]".

(** The frame after the two column assignments: amount and date coerced. *)
Definition coerce_columns `{Pandas} (rs : list RawRow)
  : list (RawRow * (option Q * option Z)) :=
  zip rs (zip (to_numeric (raw_valor <$> rs)) (to_datetime (raw_data <$> rs))).

(** [dropna(subset=['valor', 'data'])] on one row. *)
Definition dropna_row (x : RawRow * (option Q * option Z)) : option Row :=
  match x.2.1, x.2.2 with
  | Some amount, Some day =>
      Some {| id_transacao := raw_id_transacao x.1;
              funcionario := raw_funcionario x.1;
              data := day;
              valor := amount;
              descricao := raw_descricao x.1;
              categoria := raw_categoria x.1 |}
  | _, _ => None
  end.

(** [fs] is the file system seen through [pd.read_csv]: the frame read
    from a path, when the path exists. *)
Definition load_transactions `{Pandas} (fs : string -> option RawFrame)
    (filepath : string) : result DataFrame :=
  match fs filepath with
  | None => Raise (FileNotFoundError ("Arquivo não encontrado: " +:+ filepath))
  | Some raw =>
      let missing_columns :=
        filter (fun col => col ∉ raw_columns raw) required_columns in
      match missing_columns with
      | _ :: _ =>
          Raise (ValueError ("Colunas faltando no CSV: " +:+ repr_list missing_columns))
      | [] =>
          Ok {| columns := raw_columns raw;
                rows := omap dropna_row (coerce_columns (raw_rows raw)) |}
      end
  end.

(** ** The analysis *)

Record Analysis : Type := mkAnalysis {
  total_transactions : nat;
  fraudulent_transactions : list Violation;
  total_frauds : nat;
  report : string;
}.

(** [transactions_path] stands for [config.TRANSACTIONS_PATH]. *)
Definition analyze_transactions `{PyStr} `{Pandas} (fs : string -> option RawFrame)
    (transactions_path : string) : result Analysis :=
  df ← load_transactions fs transactions_path;
  let fraudulent_transactions := [] in
  prohibited_items ← _check_prohibited_items df;
  let fraudulent_transactions := fraudulent_transactions ++ prohibited_items in
  unauthorized_amounts ← _check_unauthorized_amounts df;
  let fraudulent_transactions := fraudulent_transactions ++ unauthorized_amounts in
  smurfing_cases ← _check_smurfing df;
  let fraudulent_transactions := fraudulent_transactions ++ smurfing_cases in
  restricted ← _check_restricted_locations df;
  let fraudulent_transactions := fraudulent_transactions ++ restricted in
  let suspicious_categories := _check_suspicious_categories df in
  let fraudulent_transactions := fraudulent_transactions ++ suspicious_categories in
  let unique_frauds := _deduplicate_frauds fraudulent_transactions in
  let report := _generate_report unique_frauds (length (rows df)) in
  Ok {| total_transactions := length (rows df);
        fraudulent_transactions := unique_frauds;
        total_frauds := length unique_frauds;
        report := report |}.

(** ** The coordinated-fraud path of the contextual detector *)

#[local] Set Warnings "-register-all".

(** What [json.loads] returns; [JNull] is Python's [None].  Besides the
    finite numbers the parser accepts the literals [NaN], [Infinity] and
    [-Infinity], which it returns as floats. *)
Inductive json : Type :=
  | JNull
  | JBool (b : bool)
  | JNum (q : Q)
  | JStr (s : string)
  | JList (items : list json)
  | JDict (entries : list (string * json))
  | JNaN
  | JInfinity (negative : bool).

(** The collaborators of this path that live outside the repository:
    the JSON parser, the regular-expression column filter
    [Series.str.contains(pat, case=False, na=False)], which raises on a
    pattern that does not compile, and the text of a timestamp. *)
Class External : Type := {
  json_loads : string -> result json;
  str_contains : string -> list string -> result (list bool);
  str_timestamp : Z -> string;
}.

(** The text-completion service: what the call number [n] answers to a
    system and a user prompt.  The client may raise, and the message
    content may be [None]. *)
Definition Llm : Type := nat -> string -> string -> result (option string).

(** Computations that call the service: the number of calls made so far
    is threaded through, and survives an exception. *)
Definition Calls (A : Type) : Type := nat -> result A * nat.

Global Instance calls_ret : MRet Calls := fun _ a n => (Ok a, n).
Global Instance calls_bind : MBind Calls := fun _ _ f m n =>
  match m n with
  | (Ok a, n') => f a n'
  | (Raise e, n') => (Raise e, n')
  end.

Definition lift {A : Type} (r : result A) : Calls A := fun n => (r, n).

(** [try: m  except Exception as e: handler(e)]. *)
Definition try_except {A : Type} (m : Calls A) (handler : exn -> Calls A) : Calls A :=
  fun n =>
    match m n with
    | (Ok a, n') => (Ok a, n')
    | (Raise e, n') => handler e n'
    end.

(** [self.llm.generate(...)]. *)
Definition generate (llm : Llm) (system_prompt user_prompt : string)
  : Calls (option string) :=
  fun n => (llm n system_prompt user_prompt, S n).

Fixpoint foldC {A B : Type} (body : A -> B -> Calls A) (acc : A) (l : list B)
  : Calls A :=
  match l with
  | [] => mret acc
  | x :: l' => acc' ← body acc x; foldC body acc' l'
  end.

Record Email : Type := mkEmail {
  remetente : string;
  destinatario : string;
  assunto : string;
  email_data : string;
  mensagem : string;
}.

Record ContextualFraud : Type := mkContextualFraud {
  cf_email : Email;
  cf_analysis : json;
  cf_violation_type : string;
  cf_severity : json;
  cf_evidence : json;
  cf_reason : json;
}.

(** [s.split(sep)] for a one-character separator. *)
Fixpoint split_char (sep : ascii) (s : string) : list string :=
  match s with
  | EmptyString => [ "" ]
  | String c s' =>
      if Ascii.eqb c sep then "" :: split_char sep s'
      else
        match split_char sep s' with
        | [] => [ String c "" ]
        | piece :: pieces => String c piece :: pieces
        end
  end.

(** [l[1:-1]]. *)
Definition drop_ends {A : Type} (l : list A) : list A := removelast (tail l).

Definition quoted (s : string) : string := dquote +:+ s +:+ dquote.

Definition format_email_for_analysis `{PyStr} (email : Email) : string :=
  py_strip
    (join_lines
       [ ""; "De: " +:+ remetente email; "Para: " +:+ destinatario email;
         "Assunto: " +:+ assunto email; "Data: " +:+ email_data email; "";
         mensagem email; "" ]).

Definition coordination_system_prompt : string :=
  join_lines
    [ "Você é um auditor especializado em detectar fraudes corporativas.";
      "Analise o email e transações para identificar se há coordenação fraudulenta.";
      "";
      "SINAIS DE FRAUDE COORDENADA:";
      "- Múltiplas pessoas dividindo compras para evitar limites";
      "- Combinação para criar justificativas falsas";
      "- Acordo para não reportar certas informações";
      "- Divisão de responsabilidade para dificultar auditoria";
      "";
      "IMPORTANTE: Responda APENAS com JSON válido (sem markdown).";
      "";
      "Formato da resposta:";
      "{";
      "  " +:+ quoted "is_fraud" +:+ ": true/false,";
      "  " +:+ quoted "severity" +:+ ": 0-10,";
      "  " +:+ quoted "reason" +:+ ": " +:+ quoted "explicação breve" +:+ ",";
      "  " +:+ quoted "evidence" +:+ ": " +:+ quoted "evidência específica do email" +:+ ",";
      "  " +:+ quoted "participants" +:+ ": [" +:+ quoted "nome1" +:+ ", "
           +:+ quoted "nome2" +:+ "]";
      "}" ].

(** The names of the participants whose address has an [@]. *)
Definition participant_names `{PyStr} (participants : list string) : list string :=
  fold_left
    (fun names p =>
       if str_in "@" p
       then names ++ [ py_title (py_replace (hd "" (split_char "@" p)) "." " ") ]
       else names)
    participants [].

(** [df[mask].head(10)]. *)
Definition relevant_rows `{External} (names : list string) (df : DataFrame)
  : result (list Row) :=
  match names with
  | [] => Ok []
  | _ =>
      mask ← str_contains (String.concat "|" names) (funcionario <$> rows df);
      Ok (take 10 (fst <$> filter (fun x => x.2 = true) (zip (rows df) mask)))
  end.

Definition transaction_line `{PyStr} `{External} (text : string) (tx : Row) : string :=
  text +:+ "- " +:+ funcionario tx +:+ ": $" +:+ py_format_f 2 (valor tx)
  +:+ " - " +:+ str_descricao tx +:+ " (" +:+ str_timestamp (data tx) +:+ ")" +:+ nl.

(** Everything [_analyze_email_for_fraud_coordination] does before its
    [try] block: the two prompts it sends. *)
Definition coordination_prompts `{PyStr} `{External} (email : Email) (df : DataFrame)
  : result (string * string) :=
  let participants := [ remetente email; destinatario email ] in
  let names := participant_names participants in
  relevant_transactions ← relevant_rows names df;
  let email_formatted := format_email_for_analysis email in
  let transactions_text :=
    match relevant_transactions with
    | [] => ""
    | _ =>
        fold_left transaction_line relevant_transactions
          (nl +:+ nl +:+ "TRANSAÇÕES RELACIONADAS:" +:+ nl)
    end in
  let user_prompt :=
    join_lines
      [ "EMAIL:"; email_formatted; transactions_text; "";
        "Analise se este email indica fraude coordenada." ] in
  Ok (coordination_system_prompt, user_prompt).

(** The cleaning of the answer before it is parsed. *)
Definition clean_response `{PyStr} (response : string) : string :=
  let cleaned := py_strip response in
  if String.prefix "```" cleaned then
    let lines := split_char (ascii_of_nat 10) cleaned in
    let cleaned :=
      if decide (2 < length lines) then join_lines (drop_ends lines) else cleaned in
    py_strip (py_replace (py_replace cleaned "```json" "") "```" "")
  else cleaned.

(** [response.strip()] when the message content is [None]. *)
Definition content_text (response : option string) : result string :=
  match response with
  | Some text => Ok text
  | None => Raise (AttributeError "'NoneType' object has no attribute 'strip'")
  end.

Definition _analyze_email_for_fraud_coordination `{PyStr} `{External} (llm : Llm)
    (email : Email) (df : DataFrame) : Calls json :=
  prompts ← lift (coordination_prompts email df);
  try_except
    (response ← generate llm prompts.1 prompts.2;
     text ← lift (content_text response);
     analysis ← lift (json_loads (clean_response text));
     mret analysis)
    (fun e =>
       match e with
       | JSONDecodeError _ => mret JNull
       | _ => mret JNull
       end).

(** Python's truth value of a parsed JSON value. *)
Definition truthy (v : json) : bool :=
  match v with
  | JNull => false
  | JBool b => b
  | JNum q => negb (Qeq_bool q 0)
  | JStr s => negb (String.eqb s "")
  | JList items => match items with [] => false | _ => true end
  | JDict entries => match entries with [] => false | _ => true end
  | JNaN => true
  | JInfinity _ => true
  end.

(** [analysis.get(key, default)]: only a dict has the method. *)
Definition json_get (analysis : json) (key : string) (fallback : json) : result json :=
  match analysis with
  | JDict entries => Ok (default fallback (dict_get entries key))
  | _ => Raise (AttributeError "object has no attribute 'get'")
  end.

Definition suspicious_keywords : list string :=
  [ "compra"; "purchase"; "aprovação"; "approval"; "autorização"; "authorization";
    "$"; "valor"; "amount"; "despesa"; "expense"; "reembolso"; "reimbursement";
    "dividir"; "split"; "juntos"; "together"; "combinar"; "combine" ].

(** [any(keyword in mensagem_lower for keyword in suspicious_keywords)]. *)
Definition is_suspicious `{PyStr} (email : Email) : bool :=
  let mensagem_lower := py_lower (mensagem email) in
  existsb (fun keyword => str_in keyword mensagem_lower) suspicious_keywords.

(** The part of the loop body that is inside [try]. *)
Definition coordinated_attempt `{PyStr} `{External} (llm : Llm) (df : DataFrame)
    (frauds : list ContextualFraud) (email : Email) : Calls (list ContextualFraud) :=
  analysis ← _analyze_email_for_fraud_coordination llm email df;
  if truthy analysis then
    is_fraud ← lift (json_get analysis "is_fraud" (JBool false));
    if truthy is_fraud then
      severity ← lift (json_get analysis "severity" (JNum 5));
      evidence ← lift (json_get analysis "evidence" (JStr ""));
      reason ← lift (json_get analysis "reason" (JStr ""));
      mret (frauds ++
            [ {| cf_email := email;
                 cf_analysis := analysis;
                 cf_violation_type := "FRAUDE_COORDENADA";
                 cf_severity := severity;
                 cf_evidence := evidence;
                 cf_reason := reason |} ])
    else mret frauds
  else mret frauds.

(** The loop body: [try: ...  except Exception: continue]. *)
Definition coordinated_step `{PyStr} `{External} (llm : Llm) (df : DataFrame)
    (frauds : list ContextualFraud) (email : Email) : Calls (list ContextualFraud) :=
  try_except (coordinated_attempt llm df frauds email) (fun _ => mret frauds).

Definition _detect_coordinated_fraud `{PyStr} `{External} (llm : Llm)
    (emails : list Email) (df : DataFrame) : Calls (list ContextualFraud) :=
  let suspicious_emails := List.filter is_suspicious emails in
  let suspicious_emails := take 20 suspicious_emails in
  foldC (coordinated_step llm df) [] suspicious_emails.

(** ** The sibling path: the conspiracy detector's judgment of one email

    [_analyze_single_email] of [src/agents/conspiracy_agent.py] asks the
    same service for a JSON judgment, and asks again when the answer does
    not parse or lacks a required key. *)

Definition conspiracy_system_prompt : string :=
  join_lines
    [ "Você é um investigador de comportamento corporativo especializado em detectar conspiração e hostilidade.";
      "";
      "MISSÃO: Detectar se Michael Scott está conspirando contra Toby Flenderson (representante de RH).";
      "";
      "PADRÕES DE CONSPIRAÇÃO:";
      "1. Comentários depreciativos sobre Toby";
      "2. Minar a autoridade de Toby";
      "3. Piadas ou sarcasmo dirigido a Toby";
      "4. Ignorar procedimentos de RH de Toby";
      "5. Coordenação com outros contra Toby";
      "6. Fazer Toby parecer incompetente";
      "7. Hostilidade velada ou explícita";
      "";
      "ESCALA DE SEVERIDADE:";
      "- 0-3: Normal (sem conspiração)";
      "- 4-6: Leve (piadas, ignorar menor)";
      "- 7-8: Moderado (desrespeito claro)";
      "- 9-10: Alto (conspiração ativa, hostilidade explícita)";
      "";
      "FORMATO DE RESPOSTA (JSON estrito):";
      "{";
      "    " +:+ quoted "is_suspicious" +:+ ": true,";
      "    " +:+ quoted "severity" +:+ ": 8,";
      "    " +:+ quoted "reasoning" +:+ ": " +:+ quoted "explicação concisa e direta" +:+ ",";
      "    " +:+ quoted "evidence_quotes" +:+ ": [" +:+ quoted "citação 1" +:+ ", "
             +:+ quoted "citação 2" +:+ "]";
      "}";
      "";
      "IMPORTANTE: Responda APENAS com JSON válido, sem texto adicional." ].

Definition conspiracy_user_prompt `{PyStr} (email : Email) : string :=
  join_lines
    [ "Analise este email e retorne JSON:"; ""; format_email_for_analysis email; "";
      "JSON:" ].

Definition conspiracy_clean `{PyStr} (response_text : string) : string :=
  let cleaned_response := py_strip response_text in
  if String.prefix "```" cleaned_response
  then join_lines (drop_ends (split_char (ascii_of_nat 10) cleaned_response))
  else cleaned_response.

(** [key in analysis]: a key of a dict, an element of a list, a substring
    of a string; any other value is not a container. *)
Definition json_contains (analysis : json) (key : string) : result bool :=
  match analysis with
  | JDict entries => Ok (bool_decide (key ∈ entries.*1))
  | JList items =>
      Ok (existsb (fun item => match item with
                               | JStr s => String.eqb s key
                               | _ => false
                               end) items)
  | JStr s => Ok (str_in key s)
  | _ => Raise (OtherException "TypeError: argument is not iterable")
  end.

(** [all(key in analysis for key in keys)]. *)
Fixpoint has_all_keys (analysis : json) (keys : list string) : result bool :=
  match keys with
  | [] => Ok true
  | key :: rest =>
      present ← json_contains analysis key;
      if present : bool then has_all_keys analysis rest else Ok false
  end.

Definition conspiracy_required_keys : list string :=
  [ "is_suspicious"; "severity"; "reasoning" ].

Definition conspiracy_fallback : json :=
  JDict [ ("is_suspicious", JBool false);
          ("severity", JNum 0);
          ("reasoning", JStr "Erro ao processar análise - resposta inválida do LLM");
          ("evidence_quotes", JList []) ].

(** The body of one [try]: the judgment when it is well formed. *)
Definition conspiracy_attempt `{PyStr} `{External} (llm : Llm) (email : Email)
  : Calls (option json) :=
  response_text ← generate llm conspiracy_system_prompt (conspiracy_user_prompt email);
  text ← lift (content_text response_text);
  analysis ← lift (json_loads (conspiracy_clean text));
  complete ← lift (has_all_keys analysis conspiracy_required_keys);
  mret (if complete : bool then Some analysis else None).

(** [for attempt in range(attempts)]: an attempt that raises or lacks a
    key goes on to the next one; after the last, the fallback. *)
Fixpoint conspiracy_attempts `{PyStr} `{External} (llm : Llm) (email : Email)
    (attempts : nat) : Calls json :=
  match attempts with
  | O => mret conspiracy_fallback
  | S remaining =>
      outcome ← try_except (conspiracy_attempt llm email) (fun _ => mret None);
      match outcome with
      | Some analysis => mret analysis
      | None => conspiracy_attempts llm email remaining
      end
  end.

Definition max_retries : nat := 2.

Definition _analyze_single_email `{PyStr} `{External} (llm : Llm) (email : Email)
  : Calls json :=
  conspiracy_attempts llm email max_retries.

(** ** The other two strategies of the contextual detector *)

(** [_analyze_justification] and [_analyze_information_hiding]: one call
    inside a [try] whose handler catches every exception. *)
Definition analyze_with_prompts `{PyStr} `{External} (llm : Llm)
    (system_prompt user_prompt : string) : Calls json :=
  try_except
    (response ← generate llm system_prompt user_prompt;
     text ← lift (content_text response);
     lift (json_loads (clean_response text)))
    (fun _ => mret JNull).

Definition justification_system_prompt : string :=
  join_lines
    [ "Você é um auditor analisando justificativas de despesas.";
      "Identifique se a justificativa é falsa, exagerada ou enganosa.";
      "";
      "SINAIS DE JUSTIFICATIVA FALSA:";
      "- Alegação de " +:+ quoted "cliente" +:+ " sem especificar quem";
      "- " +:+ quoted "Emergência" +:+ " sem detalhes concretos";
      "- Justificativas vagas ou genéricas";
      "- Contradições com a descrição da compra";
      "";
      "IMPORTANTE: Responda APENAS com JSON válido.";
      "";
      "Formato:";
      "{";
      "  " +:+ quoted "is_false" +:+ ": true/false,";
      "  " +:+ quoted "severity" +:+ ": 0-10,";
      "  " +:+ quoted "reason" +:+ ": " +:+ quoted "por que é falsa" +:+ ",";
      "  " +:+ quoted "evidence" +:+ ": " +:+ quoted "trecho específico do email";
      "}" ].

Definition _analyze_justification `{PyStr} `{External} (llm : Llm) (email : Email)
    (df : DataFrame) : Calls json :=
  let email_formatted := format_email_for_analysis email in
  let user_prompt :=
    join_lines
      [ "EMAIL:"; email_formatted; "";
        "Analise se a justificativa é falsa ou enganosa." ] in
  analyze_with_prompts llm justification_system_prompt user_prompt.

Definition hiding_system_prompt : string :=
  join_lines
    [ "Você é um auditor investigando ocultação de informações.";
      "Identifique se o email tenta esconder informações relevantes.";
      "";
      "SINAIS DE OCULTAÇÃO:";
      "- Pedidos de sigilo inadequados";
      "- " +:+ quoted "Não mencione isso para..." ;
      "- Combinação para omitir fatos";
      "- Destruição ou não registro de informações";
      "";
      "IMPORTANTE: Responda APENAS com JSON válido.";
      "";
      "Formato:";
      "{";
      "  " +:+ quoted "is_hiding" +:+ ": true/false,";
      "  " +:+ quoted "severity" +:+ ": 0-10,";
      "  " +:+ quoted "reason" +:+ ": " +:+ quoted "o que está sendo ocultado" +:+ ",";
      "  " +:+ quoted "evidence" +:+ ": " +:+ quoted "trecho do email";
      "}" ].

Definition _analyze_information_hiding `{PyStr} `{External} (llm : Llm) (email : Email)
    (df : DataFrame) : Calls json :=
  let email_formatted := format_email_for_analysis email in
  let user_prompt :=
    join_lines
      [ "EMAIL:"; email_formatted; "";
        "Analise se há tentativa de ocultar informações." ] in
  analyze_with_prompts llm hiding_system_prompt user_prompt.

(** The body of the [try] in the loops of the two strategies: the
    judgment of the email, tested on the entry [flag], recorded under
    [vtype] with [fallback_severity] when it names none. *)
Definition judgment_attempt (analyze : Email -> DataFrame -> Calls json)
    (flag vtype : string) (fallback_severity : Q) (df : DataFrame)
    (frauds : list ContextualFraud) (email : Email) : Calls (list ContextualFraud) :=
  analysis ← analyze email df;
  if truthy analysis then
    flagged ← lift (json_get analysis flag (JBool false));
    if truthy flagged then
      severity ← lift (json_get analysis "severity" (JNum fallback_severity));
      evidence ← lift (json_get analysis "evidence" (JStr ""));
      reason ← lift (json_get analysis "reason" (JStr ""));
      mret (frauds ++
            [ {| cf_email := email;
                 cf_analysis := analysis;
                 cf_violation_type := vtype;
                 cf_severity := severity;
                 cf_evidence := evidence;
                 cf_reason := reason |} ])
    else mret frauds
  else mret frauds.

Definition judgment_step (analyze : Email -> DataFrame -> Calls json)
    (flag vtype : string) (fallback_severity : Q) (df : DataFrame)
    (frauds : list ContextualFraud) (email : Email) : Calls (list ContextualFraud) :=
  try_except (judgment_attempt analyze flag vtype fallback_severity df frauds email)
    (fun _ => mret frauds).

(** [any(keyword in mensagem_lower for keyword in keywords)]. *)
Definition mentions_any `{PyStr} (keywords : list string) (email : Email) : bool :=
  let mensagem_lower := py_lower (mensagem email) in
  existsb (fun keyword => str_in keyword mensagem_lower) keywords.

Definition justification_keywords : list string :=
  [ "cliente"; "client"; "reunião"; "meeting"; "necessário"; "necessary";
    "emergência"; "emergency"; "urgente"; "urgent"; "projeto"; "project" ].

Definition _detect_false_justifications `{PyStr} `{External} (llm : Llm)
    (emails : list Email) (df : DataFrame) : Calls (list ContextualFraud) :=
  let justification_emails := List.filter (mentions_any justification_keywords) emails in
  let justification_emails := take 20 justification_emails in
  foldC (judgment_step (_analyze_justification llm) "is_false" "JUSTIFICATIVA_FALSA" 6 df)
    [] justification_emails.

Definition hiding_keywords : list string :=
  [ "não mencione"; "don't mention"; "segredo"; "secret"; "confidencial"; "confidential";
    "entre nós"; "between us"; "só você"; "just you"; "discreto"; "discreet" ].

Definition _detect_hidden_information `{PyStr} `{External} (llm : Llm)
    (emails : list Email) (df : DataFrame) : Calls (list ContextualFraud) :=
  let hiding_emails := List.filter (mentions_any hiding_keywords) emails in
  foldC (judgment_step (_analyze_information_hiding llm) "is_hiding"
           "OCULTACAO_INFORMACAO" 8 df)
    [] hiding_emails.

(** ** The report of the contextual detector *)

(** A Python number: a finite one, an infinity or NaN. *)
Inductive pynum : Type :=
  | Finite (q : Q)
  | Infinite (negative : bool)
  | NotANumber.

Definition is_nan (x : pynum) : bool :=
  match x with
  | NotANumber => true
  | _ => false
  end.

(** [-x]. *)
Definition num_neg (x : pynum) : pynum :=
  match x with
  | Finite q => Finite (- q)
  | Infinite negative => Infinite (negb negative)
  | NotANumber => NotANumber
  end.

(** [x <= y]: no comparison with NaN holds. *)
Definition num_leb (x y : pynum) : bool :=
  match x, y with
  | NotANumber, _ | _, NotANumber => false
  | Finite a, Finite b => Qle_bool a b
  | Infinite true, _ => true
  | _, Infinite false => true
  | Infinite false, _ => false
  | _, Infinite true => false
  end.

(** [x < y]. *)
Definition num_ltb (x y : pynum) : bool :=
  negb (is_nan x) && negb (is_nan y) && negb (num_leb y x).

(** What Python does with the values [json.loads] returns, beyond this
    model: [f"{value}"] of a value that is not a string, and the order
    that [sorted] gives a list when one of its keys is NaN.  No comparison
    with NaN holds, so that order depends on the sorting algorithm; all
    that is assumed of it is that it rearranges the list. *)
Class PyJson : Type := {
  json_format : json -> string;
  sorted_with_nan : ∀ {A : Type}, list (pynum * A) -> list (pynum * A);
  sorted_with_nan_perm :
    ∀ (A : Type) (l : list (pynum * A)), sorted_with_nan l ≡ₚ l;
}.

Definition format_value `{PyJson} (value : json) : string :=
  match value with
  | JStr s => s
  | _ => json_format value
  end.

(** The number a value stands for in a comparison or under a minus sign;
    a [bool] is an [int] in Python.  Any other value raises [TypeError]. *)
Definition json_number (value : json) : result pynum :=
  match value with
  | JNum q => Ok (Finite q)
  | JBool b => Ok (Finite (if b then 1 else 0))
  | JNaN => Ok NotANumber
  | JInfinity negative => Ok (Infinite negative)
  | _ => Raise (OtherException "TypeError: unsupported operand type")
  end.

(** A byte that continues a UTF-8 character. *)
Definition is_continuation (c : ascii) : bool :=
  let n := nat_of_ascii c in (128 <=? n)%nat && (n <? 192)%nat.

(** [s[:n]]: the first [n] characters of the text. *)
Fixpoint take_chars (n : nat) (s : string) : string :=
  match s with
  | EmptyString => EmptyString
  | String c s' =>
      if is_continuation c then String c (take_chars n s')
      else
        match n with
        | O => EmptyString
        | S k => String c (take_chars k s')
        end
  end.

(** [value[:n]]: strings and lists can be sliced. *)
Definition json_slice (n : nat) (value : json) : result json :=
  match value with
  | JStr s => Ok (JStr (take_chars n s))
  | JList items => Ok (JList (take n items))
  | _ => Raise (OtherException "TypeError: object is not subscriptable")
  end.

(** [m] over a list, stopping at the first exception. *)
Fixpoint mapM {A B : Type} (f : A -> result B) (l : list A) : result (list B) :=
  match l with
  | [] => Ok []
  | x :: l' => y ← f x; ys ← mapM f l'; Ok (y :: ys)
  end.

(** [[f for f in frauds if f['severity'] >= 8]]. *)
Definition high_severity_step (kept : list ContextualFraud) (f : ContextualFraud)
  : result (list ContextualFraud) :=
  severity ← json_number (cf_severity f);
  Ok (if num_leb (Finite 8) severity then kept ++ [f] else kept).

(** [sorted(frauds, key=lambda x: -x['severity'])]: the keys are computed
    first, each once; the sort is stable where the keys can be compared. *)
Definition sorted_by_severity `{PyJson} (frauds : list ContextualFraud)
  : result (list ContextualFraud) :=
  keys ← mapM (fun f => x ← json_number (cf_severity f); Ok (num_neg x)) frauds;
  let keyed := zip keys frauds in
  Ok (if existsb is_nan keys then sorted_with_nan keyed
      else stable_sort (fun x y => num_leb x.1 y.1) keyed).*2.

Definition group_step {A : Type} (vtype : A -> string)
    (by_type : list (string * list A)) (fraud : A) : list (string * list A) :=
  match dict_get by_type (vtype fraud) with
  | None => dict_set by_type (vtype fraud) [fraud]
  | Some items => dict_set by_type (vtype fraud) (items ++ [fraud])
  end.

Definition contextual_banner : list string :=
  [ "╔══════════════════════════════════════════════════════════════════════╗";
    "║         RELATÓRIO DE AUDITORIA - FRAUDES CONTEXTUAIS                 ║";
    "╚══════════════════════════════════════════════════════════════════════╝" ].

Definition contextual_entry `{PyStr} `{PyJson} (report : string)
    (entry : nat * ContextualFraud) : result string :=
  let i := entry.1 in
  let fraud := entry.2 in
  let email := cf_email fraud in
  let report := report +:+ "[" +:+ py_str_int (Z.of_nat i) +:+ "] "
                +:+ cf_violation_type fraud +:+ " - Severidade: "
                +:+ format_value (cf_severity fraud) +:+ "/10" +:+ nl in
  let report := report +:+ "    De: " +:+ remetente email +:+ nl in
  let report := report +:+ "    Para: " +:+ destinatario email +:+ nl in
  let report := report +:+ "    Assunto: " +:+ assunto email +:+ nl in
  let report := report +:+ "    Razão: " +:+ format_value (cf_reason fraud) +:+ nl in
  excerpt ← json_slice 100 (cf_evidence fraud);
  let report := report +:+ "    Evidência: " +:+ format_value excerpt +:+ "..." +:+ nl in
  Ok (report +:+ nl).

(** The methods of [ContextualFraudDetector] whose names the standalone
    detector also uses. *)
Module Contextual.

Definition _generate_report `{PyStr} `{PyJson} (frauds : list ContextualFraud)
    (total_emails total_transactions : nat) : result string :=
  match frauds with
  | [] =>
      Ok (join_lines
            ([ "" ] ++ contextual_banner ++
             [ ""; "STATUS: ✓ NENHUMA FRAUDE CONTEXTUAL DETECTADA"; "";
               "Análise: " +:+ py_str_int (Z.of_nat total_emails) +:+ " emails e "
                 +:+ py_str_int (Z.of_nat total_transactions) +:+ " transações";
               "Resultado: Nenhum padrão de fraude coordenada identificado";
               ""; "Recomendação: Nenhuma ação necessária."; "" ]))
  | _ =>
      let by_type := fold_left (group_step cf_violation_type) frauds [] in
      high_severity ← foldM high_severity_step [] frauds;
      let report :=
        join_lines
          ([ "" ] ++ contextual_banner ++
           [ ""; "⚠️  FRAUDES CONTEXTUAIS DETECTADAS"; ""; "ESTATÍSTICAS:";
             "- Emails analisados: " +:+ py_str_int (Z.of_nat total_emails);
             "- Transações analisadas: " +:+ py_str_int (Z.of_nat total_transactions);
             "- Fraudes contextuais encontradas: " +:+ str_len frauds;
             "- Alta severidade (≥8): " +:+ str_len high_severity;
             ""; "VIOLAÇÕES POR TIPO:"; "" ]) in
      let report :=
        fold_left
          (fun report item =>
             report +:+ "  • " +:+ item.1 +:+ ": " +:+ str_len item.2
             +:+ " caso(s)" +:+ nl)
          (sorted_by (fun item => (- Z.of_nat (length item.2))%Z) by_type)
          report in
      let report := report +:+ nl +:+ str_repeat "─" 70 +:+ nl in
      let report := report +:+ "TOP 10 CASOS MAIS SEVEROS:" +:+ nl in
      let report := report +:+ str_repeat "─" 70 +:+ nl +:+ nl in
      sorted_frauds ← sorted_by_severity frauds;
      report ← foldM contextual_entry report
                 (imap (fun i fraud => (S i, fraud)) (take 10 sorted_frauds));
      Ok (report +:+
          join_lines
            [ ""; str_repeat "─" 70; "CONCLUSÃO:";
              "⚠️  " +:+ str_len frauds +:+ " fraude(s) contextual(is) detectada(s)";
              "⚠️  Ação recomendada: Investigação aprofundada e possível ação legal";
              "";
              "Este tipo de fraude é particularmente grave pois envolve:";
              "- Coordenação entre múltiplas pessoas";
              "- Tentativa deliberada de enganar a empresa";
              "- Violação de confiança e ética profissional";
              "";
              "Relatório gerado pelo Sistema de Auditoria Dunder Mifflin"; "" ])
  end.

End Contextual.

(** ** The email loader *)

(** The state of the loop of [load_emails]. *)
Record EmailParser : Type := mkEmailParser {
  ep_current : Email;            (* current_email *)
  ep_in_message : bool;          (* in_message *)
  ep_message_lines : list string;(* message_lines *)
  ep_emails : list Email;        (* emails *)
}.

Definition empty_email : Email :=
  {| remetente := ""; destinatario := ""; assunto := ""; email_data := "";
     mensagem := "" |}.

(** The truth value of a string. *)
Definition nonempty (s : string) : bool := negb (String.eqb s "").

(** [line.split(':', 1)[1]] for a line that has a colon. *)
Fixpoint after_colon (s : string) : string :=
  match s with
  | EmptyString => EmptyString
  | String c s' => if Ascii.eqb c ":" then s' else after_colon s'
  end.

Definition starts_with_any (prefixes : list string) (s : string) : bool :=
  existsb (fun p => String.prefix p s) prefixes.

(** [current_email['mensagem'] = '\n'.join(message_lines).strip()], then
    the copy that is appended.  The copy also holds the aliases [de] and
    [para], equal to [remetente] and [destinatario]. *)
Definition finished_email `{PyStr} (st : EmailParser) : Email :=
  let current := ep_current st in
  {| remetente := remetente current;
     destinatario := destinatario current;
     assunto := assunto current;
     email_data := email_data current;
     mensagem := py_strip (join_lines (ep_message_lines st)) |}.

Definition parse_email_line `{PyStr} (st : EmailParser) (line : string) : EmailParser :=
  let line_stripped := py_strip line in
  let current := ep_current st in
  let field := py_strip (after_colon line_stripped) in
  if starts_with_any [ "---"; "===" ] line_stripped then
    if nonempty (remetente current) || nonempty (mensagem current) then
      {| ep_current := empty_email;
         ep_in_message := false;
         ep_message_lines := [];
         ep_emails := ep_emails st ++ [ finished_email st ] |}
    else st
  else if starts_with_any [ "De:"; "From:" ] line_stripped then
    {| ep_current := {| remetente := field;
                        destinatario := destinatario current;
                        assunto := assunto current;
                        email_data := email_data current;
                        mensagem := mensagem current |};
       ep_in_message := false;
       ep_message_lines := ep_message_lines st;
       ep_emails := ep_emails st |}
  else if starts_with_any [ "Para:"; "To:" ] line_stripped then
    {| ep_current := {| remetente := remetente current;
                        destinatario := field;
                        assunto := assunto current;
                        email_data := email_data current;
                        mensagem := mensagem current |};
       ep_in_message := false;
       ep_message_lines := ep_message_lines st;
       ep_emails := ep_emails st |}
  else if starts_with_any [ "Assunto:"; "Subject:" ] line_stripped then
    {| ep_current := {| remetente := remetente current;
                        destinatario := destinatario current;
                        assunto := field;
                        email_data := email_data current;
                        mensagem := mensagem current |};
       ep_in_message := false;
       ep_message_lines := ep_message_lines st;
       ep_emails := ep_emails st |}
  else if starts_with_any [ "Data:"; "Date:" ] line_stripped then
    {| ep_current := {| remetente := remetente current;
                        destinatario := destinatario current;
                        assunto := assunto current;
                        email_data := field;
                        mensagem := mensagem current |};
       ep_in_message := false;
       ep_message_lines := ep_message_lines st;
       ep_emails := ep_emails st |}
  else if starts_with_any [ "Mensagem:"; "Message:" ] line_stripped then
    {| ep_current := current;
       ep_in_message := true;
       ep_message_lines :=
         if nonempty field then ep_message_lines st ++ [ field ]
         else ep_message_lines st;
       ep_emails := ep_emails st |}
  else if String.eqb line_stripped "" then
    if nonempty (remetente current) && negb (ep_in_message st) then
      {| ep_current := current;
         ep_in_message := true;
         ep_message_lines := ep_message_lines st;
         ep_emails := ep_emails st |}
    else st
  else
    if ep_in_message st
       || (nonempty (remetente current) && negb (nonempty (mensagem current)))
    then
      {| ep_current := current;
         ep_in_message := true;
         ep_message_lines := ep_message_lines st ++ [ line ];
         ep_emails := ep_emails st |}
    else st.

(** [files] is the file system seen through [open(...).read()]. *)
Definition load_emails `{PyStr} (files : string -> option string) (filepath : string)
  : result (list Email) :=
  match files filepath with
  | None => Raise (FileNotFoundError ("Arquivo não encontrado: " +:+ filepath))
  | Some content =>
      let lines := split_char (ascii_of_nat 10) content in
      let st :=
        fold_left parse_email_line lines
          {| ep_current := empty_email; ep_in_message := false;
             ep_message_lines := []; ep_emails := [] |} in
      let emails :=
        if nonempty (remetente (ep_current st))
           || match ep_message_lines st with [] => false | _ => true end
        then ep_emails st ++ [ finished_email st ]
        else ep_emails st in
      Ok (List.filter (fun e => nonempty (py_strip (mensagem e))) emails)
  end.

(** [load_compliance_policy]. *)
Definition load_compliance_policy (files : string -> option string) (filepath : string)
  : result string :=
  match files filepath with
  | None => Raise (FileNotFoundError ("Arquivo não encontrado: " +:+ filepath))
  | Some content => Ok content
  end.

(** ** The contextual analysis *)

Record ContextualAnalysis : Type := mkContextualAnalysis {
  ca_total_emails : nat;
  ca_total_transactions : nat;
  contextual_frauds : list ContextualFraud;
  ca_total_frauds : nat;
  ca_report : string;
}.

(** [emails_path] and [transactions_path] stand for [config.EMAILS_PATH]
    and [config.TRANSACTIONS_PATH]. *)
Definition analyze_contextual_frauds `{PyStr} `{Pandas} `{External} `{PyJson}
    (llm : Llm) (files : string -> option string) (fs : string -> option RawFrame)
    (emails_path transactions_path : string) : Calls ContextualAnalysis :=
  emails ← lift (load_emails files emails_path);
  df ← lift (load_transactions fs transactions_path);
  let frauds := [] in
  coordinated ← _detect_coordinated_fraud llm emails df;
  let frauds := frauds ++ coordinated in
  false_justifications ← _detect_false_justifications llm emails df;
  let frauds := frauds ++ false_justifications in
  hidden_info ← _detect_hidden_information llm emails df;
  let frauds := frauds ++ hidden_info in
  report ← lift (Contextual._generate_report frauds (length emails) (length (rows df)));
  mret {| ca_total_emails := length emails;
          ca_total_transactions := length (rows df);
          contextual_frauds := frauds;
          ca_total_frauds := length frauds;
          ca_report := report |}.

(** ** The conspiracy detector as a whole

    [analyze_emails], [_filter_relevant_emails] and [_generate_final_report]
    of [src/agents/conspiracy_agent.py]. *)

Definition michael_address : string := "michael.scott@dundermifflin.com".

(** The body of the loop of [_filter_relevant_emails]; [email['de']] and
    [email['para']] are the aliases of the sender and the recipient. *)
Definition relevant_step `{PyStr} (relevant : list Email) (email : Email) : list Email :=
  if str_in michael_address (py_lower (remetente email))
     || str_in michael_address (py_lower (destinatario email))
  then relevant ++ [ email ]
  else
    let text_to_check := py_lower (assunto email +:+ " " +:+ mensagem email) in
    if str_in "toby" text_to_check || str_in "flenderson" text_to_check
    then relevant ++ [ email ]
    else relevant.

Definition _filter_relevant_emails `{PyStr} (emails : list Email) : list Email :=
  fold_left relevant_step emails [].

(** [value[key]] for a string key: a dict gives the entry or raises
    [KeyError]; a list or a string wants an integer; nothing else can be
    subscripted. *)
Definition json_item (value : json) (key : string) : result json :=
  match value with
  | JDict entries =>
      match dict_get entries key with
      | Some v => Ok v
      | None => Raise (OtherException ("KeyError: " +:+ key))
      end
  | JList _ | JStr _ =>
      Raise (OtherException "TypeError: indices must be integers")
  | _ => Raise (OtherException "TypeError: object is not subscriptable")
  end.

Record SuspiciousEmail : Type := mkSuspiciousEmail {
  se_email : Email;
  se_analysis : json;
}.

(** The body of the loop of [analyze_emails]; it is not inside a [try]. *)
Definition suspicious_step `{PyStr} `{External} (llm : Llm)
    (suspicious_emails : list SuspiciousEmail) (email : Email)
  : Calls (list SuspiciousEmail) :=
  analysis ← _analyze_single_email llm email;
  flag ← lift (json_item analysis "is_suspicious");
  mret (if truthy flag
        then suspicious_emails ++ [ {| se_email := email; se_analysis := analysis |} ]
        else suspicious_emails).

(** [e['analysis']['severity']] as a number to compare. *)
Definition severity_of (item : SuspiciousEmail) : result pynum :=
  severity ← json_item (se_analysis item) "severity";
  json_number severity.

(** [[e for e in l if test(e)]] for a test that can raise. *)
Fixpoint filterM {A : Type} (test : A -> result bool) (l : list A) : result (list A) :=
  match l with
  | [] => Ok []
  | x :: l' =>
      keep ← test x;
      kept ← filterM test l';
      Ok (if keep : bool then x :: kept else kept)
  end.

Definition is_high (item : SuspiciousEmail) : result bool :=
  severity ← severity_of item; Ok (num_leb (Finite 7) severity).

Definition is_medium (item : SuspiciousEmail) : result bool :=
  severity ← severity_of item;
  Ok (num_leb (Finite 4) severity && num_ltb severity (Finite 7)).

Definition is_low (item : SuspiciousEmail) : result bool :=
  severity ← severity_of item; Ok (num_ltb severity (Finite 4)).

(** The three lists [high_severity], [medium_severity], [low_severity]. *)
Definition severity_bands (suspicious_emails : list SuspiciousEmail)
  : result (list SuspiciousEmail * list SuspiciousEmail * list SuspiciousEmail) :=
  high_severity ← filterM is_high suspicious_emails;
  medium_severity ← filterM is_medium suspicious_emails;
  low_severity ← filterM is_low suspicious_emails;
  Ok (high_severity, medium_severity, low_severity).

(** The characters of a text, each with its continuation bytes. *)
Definition continues (s : string) : bool :=
  match s with
  | String c _ => is_continuation c
  | EmptyString => false
  end.

Fixpoint code_points (s : string) : list string :=
  match s with
  | EmptyString => []
  | String c s' =>
      match code_points s' with
      | p :: ps =>
          if continues s' then String c p :: ps else String c "" :: p :: ps
      | [] => [ String c "" ]
      end
  end.

(** [', '.join(value)]: the items of a list must be strings; a string is
    joined character by character, a dict by its keys. *)
Definition join_quotes (value : json) : result string :=
  match value with
  | JList items =>
      parts ← mapM (fun item =>
                      match item with
                      | JStr s => Ok s
                      | _ => Raise (OtherException
                                      "TypeError: sequence item: expected str instance")
                      end) items;
      Ok (String.concat ", " parts)
  | JStr s => Ok (String.concat ", " (code_points s))
  | JDict entries => Ok (String.concat ", " entries.*1)
  | _ => Raise (OtherException "TypeError: can only join an iterable")
  end.

Definition conspiracy_banner : list string :=
  [ "╔══════════════════════════════════════════════════════════════════════╗";
    "║              RELATÓRIO DE INVESTIGAÇÃO - CONSPIRAÇÃO                 ║";
    "╚══════════════════════════════════════════════════════════════════════╝" ].

(** One entry of the loop over [high_severity[:5]]. *)
Definition conspiracy_entry `{PyStr} `{PyJson} (report : string) (item : SuspiciousEmail)
  : result string :=
  let email := se_email item in
  let analysis := se_analysis item in
  let report := report +:+ nl +:+ "De: " +:+ remetente email +:+ nl in
  let report := report +:+ "Para: " +:+ destinatario email +:+ nl in
  let report := report +:+ "Data: " +:+ email_data email +:+ nl in
  let report := report +:+ "Assunto: " +:+ assunto email +:+ nl in
  severity ← json_item analysis "severity";
  let report := report +:+ "Severidade: " +:+ format_value severity +:+ "/10" +:+ nl in
  reasoning ← json_item analysis "reasoning";
  let report := report +:+ "Análise: " +:+ format_value reasoning +:+ nl in
  quotes ← json_get analysis "evidence_quotes" JNull;
  report ←
    (if truthy quotes then
       quotes ← json_item analysis "evidence_quotes";
       first_two ← json_slice 2 quotes;
       joined ← join_quotes first_two;
       Ok (report +:+ "Evidências: " +:+ joined +:+ nl)
     else Ok report);
  Ok (report +:+ str_repeat "─" 70 +:+ nl).

Definition _generate_final_report `{PyStr} `{PyJson}
    (suspicious_emails : list SuspiciousEmail) (total_emails : nat) : result string :=
  match suspicious_emails with
  | [] =>
      Ok (join_lines
            ([ "" ] ++ conspiracy_banner ++
             [ ""; "STATUS: ✓ NENHUMA CONSPIRAÇÃO DETECTADA"; "";
               "Após análise detalhada de todos os emails corporativos, não foram";
               "encontradas evidências de conspiração contra Toby Flenderson.";
               ""; "Recomendação: Nenhuma ação necessária."; "" ]))
  | _ =>
      bands ← severity_bands suspicious_emails;
      let high_severity := bands.1.1 in
      let medium_severity := bands.1.2 in
      let low_severity := bands.2 in
      let report :=
        join_lines
          ([ "" ] ++ conspiracy_banner ++
           [ ""; "⚠️  CONSPIRAÇÃO DETECTADA"; ""; "ESTATÍSTICAS:";
             "- Total de emails analisados: " +:+ py_str_int (Z.of_nat total_emails);
             "- Emails suspeitos encontrados: " +:+ str_len suspicious_emails;
             "- Alta severidade (7-10): " +:+ str_len high_severity;
             "- Média severidade (4-6): " +:+ str_len medium_severity;
             "- Baixa severidade (1-3): " +:+ str_len low_severity;
             ""; "" ]) in
      report ←
        match high_severity with
        | [] => Ok report
        | _ =>
            let report := report +:+ nl +:+ "🚨 EVIDÊNCIAS DE ALTA SEVERIDADE:" +:+ nl in
            let report := report +:+ str_repeat "─" 70 +:+ nl in
            foldM conspiracy_entry report (take 5 high_severity)
        end;
      let alarmed := match high_severity with [] => false | _ => true end in
      Ok (report +:+
          join_lines
            [ ""; "CONCLUSÃO:";
              if alarmed then "⚠️  AÇÃO RECOMENDADA: " else "";
              if alarmed
              then "Evidências sugerem comportamento conspiratório de Michael Scott."
              else "Comportamento suspeito detectado.";
              if alarmed then "Recomenda-se intervenção de RH corporativo." else "";
              ""; "Relatório gerado pelo Sistema de Auditoria Dunder Mifflin"; "" ])
  end.

Record ConspiracyAnalysis : Type := mkConspiracyAnalysis {
  cs_total_emails : nat;
  cs_relevant_emails : nat;
  cs_suspicious_emails : list SuspiciousEmail;
  cs_report : string;
}.

(** [emails_path] stands for [config.EMAILS_PATH]. *)
Definition analyze_emails `{PyStr} `{External} `{PyJson} (llm : Llm)
    (files : string -> option string) (emails_path : string)
  : Calls ConspiracyAnalysis :=
  emails ← lift (load_emails files emails_path);
  let relevant_emails := _filter_relevant_emails emails in
  suspicious_emails ← foldC (suspicious_step llm) [] relevant_emails;
  report ← lift (_generate_final_report suspicious_emails (length emails));
  mret {| cs_total_emails := length emails;
          cs_relevant_emails := length relevant_emails;
          cs_suspicious_emails := suspicious_emails;
          cs_report := report |}.

(** ** Chunks of text for retrieval

    [split_text_for_rag] of [src/utils/document_loader.py]. *)

(** [s.split(sep)] for a separator that is not empty: [skip] counts the
    characters of a separator just found that are still to be passed. *)
Fixpoint split_from (sep : string) (skip : nat) (s : string) : string * list string :=
  match s with
  | EmptyString => (EmptyString, [])
  | String c s' =>
      match skip with
      | S k => split_from sep k s'
      | O =>
          if String.prefix sep s then
            let rest := split_from sep (String.length sep - 1) s' in
            (EmptyString, rest.1 :: rest.2)
          else
            let rest := split_from sep 0 s' in
            (String c rest.1, rest.2)
      end
  end.

Definition split_str (sep s : string) : list string :=
  let pieces := split_from sep 0 s in
  pieces.1 :: pieces.2.

(** [len(s)]: the number of characters. *)
Definition py_len (s : string) : Z := Z.of_nat (length (code_points s)).

(** [s.endswith('.')]. *)
Fixpoint ends_with_dot (s : string) : bool :=
  match s with
  | EmptyString => false
  | String c EmptyString => Ascii.eqb c "."
  | String _ s' => ends_with_dot s'
  end.

(** The truth value of a list. *)
Definition has_items {A : Type} (l : list A) : bool :=
  match l with
  | [] => false
  | _ => true
  end.

(** The state of the loops of [split_text_for_rag]. *)
Record Splitter : Type := mkSplitter {
  sp_chunks : list string;         (* chunks *)
  sp_current_chunk : list string;  (* current_chunk *)
  sp_current_size : Z;             (* current_size *)
}.

(** [l[-1]], read only where [l] is known not to be empty. *)
Definition last_piece (l : list string) : string := default "" (last l).

(** The body of the loop over the sentences of a long paragraph. *)
Definition sentence_step `{PyStr} (chunk_size chunk_overlap : Z) (st : Splitter)
    (sentence : string) : Splitter :=
  let sentence := py_strip sentence in
  if negb (nonempty sentence) then st
  else
    let sentence := if ends_with_dot sentence then sentence else sentence +:+ "." in
    let sentence_size := py_len sentence in
    let current_chunk := sp_current_chunk st in
    if (chunk_size <? sp_current_size st + sentence_size)%Z && has_items current_chunk
    then
      let chunks := sp_chunks st ++ [ String.concat " " current_chunk ] in
      if (0 <? chunk_overlap)%Z && has_items current_chunk then
        let overlap_text :=
          if (2 <=? length current_chunk)%nat
          then String.concat " " (drop (length current_chunk - 2) current_chunk)
          else last_piece current_chunk in
        {| sp_chunks := chunks;
           sp_current_chunk := [ overlap_text; sentence ];
           sp_current_size := (py_len overlap_text + sentence_size)%Z |}
      else
        {| sp_chunks := chunks;
           sp_current_chunk := [ sentence ];
           sp_current_size := sentence_size |}
    else
      {| sp_chunks := sp_chunks st;
         sp_current_chunk := current_chunk ++ [ sentence ];
         sp_current_size := (sp_current_size st + sentence_size)%Z |}.

(** The body of the loop over the paragraphs. *)
Definition paragraph_step `{PyStr} (chunk_size chunk_overlap : Z) (st : Splitter)
    (para : string) : Splitter :=
  let para := py_strip para in
  if negb (nonempty para) then st
  else
    let para_size := py_len para in
    let current_chunk := sp_current_chunk st in
    if (chunk_size <? para_size)%Z then
      fold_left (sentence_step chunk_size chunk_overlap) (split_str ". " para) st
    else if (chunk_size <? sp_current_size st + para_size)%Z && has_items current_chunk
    then
      let chunks := sp_chunks st ++ [ String.concat (nl +:+ nl) current_chunk ] in
      if (0 <? chunk_overlap)%Z && has_items current_chunk then
        {| sp_chunks := chunks;
           sp_current_chunk := [ last_piece current_chunk; para ];
           sp_current_size := (py_len (last_piece current_chunk) + para_size)%Z |}
      else
        {| sp_chunks := chunks;
           sp_current_chunk := [ para ];
           sp_current_size := para_size |}
    else
      {| sp_chunks := sp_chunks st;
         sp_current_chunk := current_chunk ++ [ para ];
         sp_current_size := (sp_current_size st + para_size)%Z |}.

(** The defaults of the source are [chunk_size = 500] and
    [chunk_overlap = 50]. *)
Definition split_text_for_rag `{PyStr} (text : string) (chunk_size chunk_overlap : Z)
  : list string :=
  let paragraphs := split_str (nl +:+ nl) text in
  let st :=
    fold_left (paragraph_step chunk_size chunk_overlap) paragraphs
      {| sp_chunks := []; sp_current_chunk := []; sp_current_size := 0 |} in
  if has_items (sp_current_chunk st)
  then sp_chunks st ++ [ String.concat (nl +:+ nl) (sp_current_chunk st) ]
  else sp_chunks st.

(** ** Loading the three inputs

    [load_and_validate_data] of [src/utils/document_loader.py]. *)

Record LoadedData : Type := mkLoadedData {
  ld_policy : string;
  ld_transactions : DataFrame;
  ld_emails : list Email;
}.

Definition load_and_validate_data `{PyStr} `{Pandas}
    (files : string -> option string) (fs : string -> option RawFrame)
    (compliance_path transactions_path emails_path : string) : result LoadedData :=
  policy ← load_compliance_policy files compliance_path;
  transactions ← load_transactions fs transactions_path;
  emails ← load_emails files emails_path;
  Ok {| ld_policy := policy; ld_transactions := transactions; ld_emails := emails |}.

(** ** A sample runtime, to run the model on concrete ASCII tables

    These instances agree with Python on the ASCII texts, ISO dates and
    plain decimal numbers used in the examples below; the theorems do not
    depend on them. *)

Module Sample.

Definition is_upper (c : ascii) : bool :=
  let n := nat_of_ascii c in (65 <=? n)%nat && (n <=? 90)%nat.

Definition is_lower (c : ascii) : bool :=
  let n := nat_of_ascii c in (97 <=? n)%nat && (n <=? 122)%nat.

Definition is_digit (c : ascii) : bool :=
  let n := nat_of_ascii c in (48 <=? n)%nat && (n <=? 57)%nat.

Definition is_space (c : ascii) : bool :=
  let n := nat_of_ascii c in
  ((9 <=? n)%nat && (n <=? 13)%nat) || ((28 <=? n)%nat && (n <=? 32)%nat).

Definition to_lower (c : ascii) : ascii :=
  if is_upper c then ascii_of_nat (nat_of_ascii c + 32) else c.

Definition to_upper (c : ascii) : ascii :=
  if is_lower c then ascii_of_nat (nat_of_ascii c - 32) else c.

Fixpoint lower (s : string) : string :=
  match s with
  | EmptyString => EmptyString
  | String c s' => String (to_lower c) (lower s')
  end.

(** The word being read at the front of [s], and the words after it. *)
Fixpoint words (s : string) : string * list string :=
  match s with
  | EmptyString => ("", [])
  | String c s' =>
      let r := words s' in
      if is_space c
      then ("", if String.eqb r.1 "" then r.2 else r.1 :: r.2)
      else (String c r.1, r.2)
  end.

Definition split (s : string) : list string :=
  let r := words s in
  if String.eqb r.1 "" then r.2 else r.1 :: r.2.

(** [title]: a cased letter is upper-cased after an uncased character and
    lower-cased after a cased one. *)
Fixpoint title_from (previous_cased : bool) (s : string) : string :=
  match s with
  | EmptyString => EmptyString
  | String c s' =>
      let cased := is_upper c || is_lower c in
      String (if previous_cased then to_lower c else to_upper c) (title_from cased s')
  end.

Definition title (s : string) : string := title_from false s.

Fixpoint lstrip (s : string) : string :=
  match s with
  | EmptyString => EmptyString
  | String c s' => if is_space c then lstrip s' else s
  end.

Definition reverse_string (s : string) : string :=
  string_of_list_ascii (rev (list_ascii_of_string s)).

Definition strip (s : string) : string :=
  reverse_string (lstrip (reverse_string (lstrip s))).

Fixpoint drop_chars (n : nat) (s : string) : string :=
  match n, s with
  | S n', String _ s' => drop_chars n' s'
  | _, _ => s
  end.

(** Replacement of the non-overlapping occurrences of a non-empty [old],
    left to right; [skip] counts the characters of a match still to drop. *)
Fixpoint replace_from (skip : nat) (old new s : string) : string :=
  match s with
  | EmptyString => EmptyString
  | String c s' =>
      match skip with
      | S k => replace_from k old new s'
      | O =>
          if String.prefix old s
          then new +:+ replace_from (String.length old - 1) old new s'
          else String c (replace_from 0 old new s')
      end
  end.

Definition replace (s old new : string) : string :=
  if String.eqb old "" then s else replace_from 0 old new s.

(** Rounding to the nearest integer, ties to even. *)
Definition round_half_even (q : Q) : Z :=
  let d := Zpos (Qden q) in
  let fl := (Qnum q / d)%Z in
  let r := (Qnum q mod d)%Z in
  match (2 * r ?= d)%Z with
  | Lt => fl
  | Gt => (fl + 1)%Z
  | Eq => if Z.even fl then fl else (fl + 1)%Z
  end.

Definition pad_zeros (width : nat) (s : string) : string :=
  str_repeat "0" (width - String.length s) +:+ s.

Definition format_f (digits : nat) (q : Q) : string :=
  let scaled := round_half_even (q * inject_Z (10 ^ Z.of_nat digits)) in
  let body := pad_zeros (S digits) (pretty (Z.abs scaled)) in
  let whole := String.length body - digits in
  (if (scaled <? 0)%Z then "-" else "")
  +:+ String.substring 0 whole body
  +:+ (match digits with
       | O => ""
       | _ => "." +:+ String.substring whole digits body
       end).

Definition py_str : PyStr := {|
  py_lower := lower;
  py_split := split;
  py_title := title;
  py_strip := strip;
  py_replace := replace;
  py_format_f := format_f;
  py_str_int := pretty;
|}.

(** Digits to a number; [None] on any other character or on no digit. *)
Fixpoint digits_value (acc : Z) (s : string) : option Z :=
  match s with
  | EmptyString => Some acc
  | String c s' =>
      if is_digit c
      then digits_value (10 * acc + Z.of_nat (nat_of_ascii c - 48)) s'
      else None
  end.

Definition parse_digits (s : string) : option Z :=
  match s with
  | EmptyString => None
  | _ => digits_value 0 s
  end.

(** An unsigned decimal: [digits] or [digits.digits]. *)
Definition parse_decimal (s : string) : option Q :=
  match split_char "." s with
  | [ whole ] => inject_Z <$> parse_digits whole
  | [ whole; frac ] =>
      w ← parse_digits whole;
      f ← parse_digits frac;
      Some (inject_Z w + inject_Z f / inject_Z (10 ^ Z.of_nat (String.length frac)))%Q
  | _ => None
  end.

Definition numeric_cell (c : Cell) : option Q :=
  match c with
  | CellStr s => parse_decimal (strip s)
  | CellNum q => Some q
  | CellNaN => None
  end.

Definition is_leap (y : Z) : bool :=
  ((y mod 4 =? 0) && negb (y mod 100 =? 0) || (y mod 400 =? 0))%Z.

Definition days_in_month (y m : Z) : Z :=
  if (m =? 2)%Z then (if is_leap y then 29 else 28)
  else if ((m =? 4) || (m =? 6) || (m =? 9) || (m =? 11))%Z then 30 else 31.

(** Days since 1970-01-01 of a date of the proleptic Gregorian calendar. *)
Definition days_from_civil (y m d : Z) : Z :=
  let y' := (if m <=? 2 then y - 1 else y)%Z in
  let era := (y' / 400)%Z in
  let yoe := (y' - era * 400)%Z in
  let mp := ((m + 9) mod 12)%Z in
  let doy := ((153 * mp + 2) / 5 + d - 1)%Z in
  let doe := (yoe * 365 + yoe / 4 - yoe / 100 + doy)%Z in
  (era * 146097 + doe - 719468)%Z.

Definition nanoseconds_per_day : Z := 86400 * 1000000000.

(** [YYYY-MM-DD] to nanoseconds since the epoch. *)
Definition parse_iso_date (s : string) : option Z :=
  match split_char "-" s with
  | [ ys; ms; ds ] =>
      if (String.length ys =? 4)%nat && (String.length ms =? 2)%nat
         && (String.length ds =? 2)%nat
      then
        y ← parse_digits ys;
        m ← parse_digits ms;
        d ← parse_digits ds;
        if ((1 <=? m) && (m <=? 12) && (1 <=? d) && (d <=? days_in_month y m))%Z
        then Some (days_from_civil y m d * nanoseconds_per_day)%Z
        else None
      else None
  | _ => None
  end.

Definition datetime_cell (c : Cell) : option Z :=
  match c with
  | CellStr s => parse_iso_date (strip s)
  | CellNum q => Some (Qfloor q)
  | CellNaN => None
  end.

Definition pandas : Pandas := {|
  to_numeric := fmap numeric_cell;
  to_datetime := fmap datetime_cell;
  to_numeric_length := length_fmap numeric_cell;
  to_datetime_length := length_fmap datetime_cell;
|}.

(** The inverse of [days_from_civil]: year, month and day. *)
Definition civil_from_days (z : Z) : Z * Z * Z :=
  let z := (z + 719468)%Z in
  let era := (z / 146097)%Z in
  let doe := (z - era * 146097)%Z in
  let yoe := ((doe - doe / 1460 + doe / 36524 - doe / 146096) / 365)%Z in
  let doy := (doe - (365 * yoe + yoe / 4 - yoe / 100))%Z in
  let mp := ((5 * doy + 2) / 153)%Z in
  let d := (doy - (153 * mp + 2) / 5 + 1)%Z in
  let m := (if mp <? 10 then mp + 3 else mp - 9)%Z in
  ((yoe + era * 400 + (if m <=? 2 then 1 else 0))%Z, m, d).

Definition two_digits (n : Z) : string := pad_zeros 2 (pretty n).

(** [str(Timestamp)] for a whole number of seconds. *)
Definition timestamp_text (ns : Z) : string :=
  let secs := (ns / 1000000000)%Z in
  let '(y, m, d) := civil_from_days (secs / 86400) in
  let sod := (secs mod 86400)%Z in
  pad_zeros 4 (pretty y) +:+ "-" +:+ two_digits m +:+ "-" +:+ two_digits d +:+ " "
  +:+ two_digits (sod / 3600) +:+ ":" +:+ two_digits (sod mod 3600 / 60) +:+ ":"
  +:+ two_digits (sod mod 60).

(** A judgment that flags the email. *)
Definition flagged_reply : string := "{" +:+ quoted "is_fraud" +:+ ": true}".

(** A judgment of the conspiracy detector with its three required keys. *)
Definition suspicious_reply : string :=
  "{" +:+ quoted "is_suspicious" +:+ ": true, " +:+ quoted "severity" +:+ ": 8, "
  +:+ quoted "reasoning" +:+ ": " +:+ quoted "mocks Toby" +:+ "}".

(** A stand-in for [json.loads] that knows the documents the examples
    use and takes any other text as malformed. *)
Definition loads (s : string) : result json :=
  if String.eqb s flagged_reply then Ok (JDict [ ("is_fraud", JBool true) ])
  else if String.eqb s suspicious_reply
  then Ok (JDict [ ("is_suspicious", JBool true); ("severity", JNum 8);
                   ("reasoning", JStr "mocks Toby") ])
  else if String.eqb s "null" then Ok JNull
  else Raise (JSONDecodeError "Expecting value").

(** [str.contains] for a pattern of literal alternatives [a|b|...]. *)
Definition contains (pattern : string) (col : list string) : result (list bool) :=
  let alternatives := lower <$> split_char "|" pattern in
  Ok ((fun s => existsb (fun a => str_in a (lower s)) alternatives) <$> col).

Definition external : External := {|
  json_loads := loads;
  str_contains := contains;
  str_timestamp := timestamp_text;
|}.

(** A service whose first answer is not JSON and whose later answers
    are the judgment [reply]. *)
Definition flaky_llm (reply : string) : Llm := fun n _ _ =>
  match n with
  | O => Ok (Some "I cannot answer that.")
  | S _ => Ok (Some reply)
  end.

Definition split_email : Email :=
  {| remetente := "jim.halpert@dundermifflin.com";
     destinatario := "dwight.schrute@dundermifflin.com";
     assunto := "Chairs";
     email_data := "2024-01-05";
     mensagem := "Let us split the purchase in two so nobody asks for approval." |}.

(** Sample tables. *)
Definition row (id name : string) (day : Z) (amount : Q) (text : string) : Row :=
  {| id_transacao := id; funcionario := name; data := day; valor := amount;
     descricao := Some text; categoria := None |}.

Definition table (rs : list Row) : DataFrame :=
  {| columns := required_columns; rows := rs |}.

Definition party_table : DataFrame :=
  table [ row "TX1" "Michael" 1 120 "Magic kit and KARAOKE machine";
          row "TX2" "Pam" 1 45 "Printer paper";
          row "TX3" "Dwight" 2 80 "Beet seeds" ].

Definition spending_table : DataFrame :=
  table [ row "TX1" "Michael" 1 900 "Conference room projector";
          row "TX2" "Jim" 1 750 "Laptop - Purchase Order 77";
          row "TX3" "Pam" 2 500 "Art supplies";
          {| id_transacao := "TX4"; funcionario := "Kevin"; data := 2; valor := 20;
             descricao := None; categoria := None |} ].

Definition raw (id name day amount text category : string) : RawRow :=
  {| raw_id_transacao := id; raw_funcionario := name;
     raw_data := CellStr day; raw_valor := CellStr amount;
     raw_descricao := if String.eqb text "" then None else Some text;
     raw_categoria := if String.eqb category "" then None else Some category |}.

Definition transactions_path : string := "data/transacoes_bancarias.csv".

(** A file in which one purchase breaks the prohibited-item and the
    suspicious-category rules, another the unauthorized-amount and the
    suspicious-category rules, and one row has no valid date. *)
Definition audit_file : RawFrame :=
  {| raw_columns := required_columns ++ [ "categoria" ];
     raw_rows :=
       [ raw "TX1" "Dwight" "2024-01-05" "120.00" "Katana for the sales floor" "Segurança";
         raw "TX2" "Dwight" "2024-01-06" "900.00" "Perimeter fence" "Segurança";
         raw "TX3" "Pam" "2024-01-06" "45.00" "Printer paper" "Escritório";
         raw "TX4" "Kevin" "someday" "10.00" "Snacks" "Escritório";
         raw "TX5" "Kevin" "2024-01-07" "ten" "More snacks" "Escritório" ] |}.

Definition disk (file : RawFrame) : string -> option RawFrame :=
  fun path => if String.eqb path transactions_path then Some file else None.

(** Two similar purchases of one employee on one day that together pass
    the limit, a third below the floor, and a fourth by someone else. *)
Definition structuring_table : DataFrame :=
  table [ row "TX1" "Jim" 1 350 "Office chairs ergonomic model";
          row "TX2" "Jim" 1 400 "office chairs ergonomic model blue";
          row "TX3" "Jim" 1 200 "Office chairs ergonomic model";
          row "TX4" "Pam" 1 450 "Office chairs ergonomic model" ].

(** Three similar purchases of one employee on one day: three pairs. *)
Definition triple_file : RawFrame :=
  {| raw_columns := required_columns;
     raw_rows :=
       [ raw "TX1" "Jim" "2024-01-05" "350.00" "Office chairs ergonomic model" "";
         raw "TX2" "Jim" "2024-01-05" "400.00" "Office chairs ergonomic model" "";
         raw "TX3" "Jim" "2024-01-05" "450.00" "Office chairs ergonomic model" "" ] |}.

(** A file whose only row has an empty description cell. *)
Definition blank_description_file : RawFrame :=
  {| raw_columns := required_columns;
     raw_rows := [ raw "TX1" "Jim" "2024-01-05" "100.00" "" "" ] |}.

(** Two purchases of one employee on one day, one without description. *)
Definition blank_description_pair : DataFrame :=
  table [ row "TX1" "Jim" 1 350 "Office chairs";
          {| id_transacao := "TX2"; funcionario := "Jim"; data := 1; valor := 400;
             descricao := None; categoria := None |} ].

(** A file without the amount column. *)
Definition headless_file : RawFrame :=
  {| raw_columns := [ "id_transacao"; "funcionario"; "data"; "descricao" ];
     raw_rows := [ raw "TX1" "Jim" "2024-01-05" "" "Paper" "" ] |}.

(** Categories: the sentinel, its English gloss, an empty cell, another. *)
Definition category_table : DataFrame :=
  {| columns := required_columns ++ [ "categoria" ];
     rows :=
       [ {| id_transacao := "TX1"; funcionario := "Dwight"; data := 1; valor := 60;
            descricao := Some "Padlocks"; categoria := Some "Segurança" |};
         {| id_transacao := "TX2"; funcionario := "Dwight"; data := 1; valor := 60;
            descricao := Some "Padlocks"; categoria := Some "Security" |};
         {| id_transacao := "TX3"; funcionario := "Pam"; data := 1; valor := 15;
            descricao := Some "Paper"; categoria := None |};
         {| id_transacao := "TX4"; funcionario := "Pam"; data := 1; valor := 15;
            descricao := Some "Paper"; categoria := Some "Escritório" |} ] |}.

(** A file with the header row only. *)
Definition empty_file : RawFrame :=
  {| raw_columns := required_columns ++ [ "categoria" ]; raw_rows := [] |}.

Definition lunch_table : DataFrame :=
  table [ row "TX1" "Michael" 1 80 "Client lunch at HOOTERS Scranton";
          row "TX2" "Pam" 1 12 "Sandwich";
          row "TX3" "Michael" 2 35 "Hooter's gift card" ].

(** [str] of a parsed JSON value, with numbers that are not whole shown
    to one decimal place. *)
Fixpoint json_text (value : json) : string :=
  match value with
  | JNull => "None"
  | JBool true => "True"
  | JBool false => "False"
  | JNum q => if (Qden q =? 1)%positive then pretty (Qnum q) else format_f 1 q
  | JStr s => "'" +:+ s +:+ "'"
  | JList items => "[" +:+ String.concat ", " (map json_text items) +:+ "]"
  | JDict entries =>
      "{" +:+ String.concat ", "
                (map (fun entry => "'" +:+ fst entry +:+ "': " +:+ json_text (snd entry))
                   entries) +:+ "}"
  | JNaN => "nan"
  | JInfinity negative => if negative then "-inf" else "inf"
  end.

(** With a NaN among the keys the sample leaves the list as it is. *)
Definition py_json : PyJson := {|
  json_format := json_text;
  sorted_with_nan := fun _ l => l;
  sorted_with_nan_perm := fun _ l => reflexivity l;
|}.

(** Two records of the contextual detector: one whose severity is the
    default of the strategy, one whose judgment gave a ranked list as
    evidence. *)
Definition coordinated_record : ContextualFraud :=
  {| cf_email := split_email;
     cf_analysis := JDict [ ("is_fraud", JBool true) ];
     cf_violation_type := "FRAUDE_COORDENADA";
     cf_severity := JNum 9;
     cf_evidence := JStr "";
     cf_reason := JStr "" |}.

Definition hiding_record : ContextualFraud :=
  {| cf_email := split_email;
     cf_analysis := JDict [ ("is_hiding", JBool true); ("severity", JNum 7) ];
     cf_violation_type := "OCULTACAO_INFORMACAO";
     cf_severity := JNum 7;
     cf_evidence := JList [ JStr "nobody asks" ];
     cf_reason := JStr "asks to keep the purchase quiet" |}.

(** A file of two emails; the second has no [Mensagem:] line. *)
Definition emails_path : string := "data/emails.txt".

Definition email_file : string :=
  join_lines
    [ "De: jim.halpert@dundermifflin.com";
      "Para: dwight.schrute@dundermifflin.com";
      "Assunto: Chairs";
      "Data: 2024-01-05";
      "Mensagem: Let us split the purchase for the client. Keep it secret.";
      "---";
      "De: pam.beesly@dundermifflin.com";
      "Para: jim.halpert@dundermifflin.com";
      "Assunto: Lunch";
      "";
      "See you at noon.";
      "---" ].

Definition mailbox (content : string) : string -> option string :=
  fun path => if String.eqb path emails_path then Some content else None.

(** A judgment that is a JSON list of the three required key names, and a
    parser that knows it besides the documents of [loads]. *)
Definition list_reply : string :=
  "[" +:+ quoted "is_suspicious" +:+ ", " +:+ quoted "severity" +:+ ", "
  +:+ quoted "reasoning" +:+ "]".

Definition loads_lists (s : string) : result json :=
  if String.eqb s list_reply
  then Ok (JList [ JStr "is_suspicious"; JStr "severity"; JStr "reasoning" ])
  else loads s.

Definition list_external : External := {|
  json_loads := loads_lists;
  str_contains := contains;
  str_timestamp := timestamp_text;
|}.

(** Two suspicious emails as the conspiracy scan stores them. *)
Definition mocking_item : SuspiciousEmail :=
  {| se_email := split_email;
     se_analysis := JDict [ ("is_suspicious", JBool true); ("severity", JNum 8);
                            ("reasoning", JStr "mocks Toby");
                            ("evidence_quotes", JList [ JStr "ignore Toby" ]) ] |}.

Definition teasing_item : SuspiciousEmail :=
  {| se_email := split_email;
     se_analysis := JDict [ ("is_suspicious", JBool true); ("severity", JNum 3);
                            ("reasoning", JStr "a joke about HR") ] |}.

(** A file with one email of Michael Scott about Toby and one that
    concerns neither. *)
Definition office_file : string :=
  join_lines
    [ "De: michael.scott@dundermifflin.com";
      "Para: dwight.schrute@dundermifflin.com";
      "Assunto: HR";
      "Data: 2024-02-01";
      "Mensagem: Do not tell Toby about the party.";
      "---";
      "De: pam.beesly@dundermifflin.com";
      "Para: jim.halpert@dundermifflin.com";
      "Assunto: Lunch";
      "Mensagem: See you at noon.";
      "---" ].

(** Two similar purchases of one employee on one day; the first is also
    a prohibited item of the security category. *)
Definition shadowed_file : RawFrame :=
  {| raw_columns := required_columns ++ [ "categoria" ];
     raw_rows :=
       [ raw "TX1" "Dwight" "2024-01-05" "350.00"
           "Airsoft case for the security team" "Segurança";
         raw "TX2" "Dwight" "2024-01-05" "400.00"
           "case for the security team" "Escritório" ] |}.

(** Two similar purchases of one employee on one day, the first of them
    recorded twice. *)
Definition duplicated_table : DataFrame :=
  table [ row "TX1" "Jim" 1 350 "Office chairs ergonomic model";
          row "TX2" "Jim" 1 400 "Office chairs ergonomic model";
          row "TX1" "Jim" 1 350 "Office chairs ergonomic model" ].

(** A suspicious email whose judgment gave [NaN] as its severity. *)
Definition unrated_item : SuspiciousEmail :=
  {| se_email := split_email;
     se_analysis := JDict [ ("is_suspicious", JBool true); ("severity", JNaN);
                            ("reasoning", JStr "hard to say") ] |}.

End Sample.

(** ** The specification's predicates

    These follow the wording of the specification, not the code; the
    theorems below compare the checks with them. *)

(** The description contains a deny-listed keyword, case-insensitively. *)
Definition spec_mentions_prohibited `{PyStr} (row : Row) : bool :=
  match descricao row with
  | Some d => existsb (fun keyword => str_in keyword (py_lower d)) prohibited_keywords
  | None => false
  end.

Definition spec_approval_markers : list string := [ "po"; "purchase order"; "p.o." ].

(** The amount exceeds 500 and the description has no approval marker. *)
Definition spec_unauthorized `{PyStr} (row : Row) : bool :=
  Qgtb (valor row) 500 &&
  match descricao row with
  | Some d => negb (existsb (fun marker => str_in marker (py_lower d)) spec_approval_markers)
  | None => false
  end.

(** The case-folded, whitespace-tokenized word set of a description. *)
Definition spec_words `{PyStr} (row : Row) : gset string :=
  match descricao row with
  | Some d => list_to_set (py_split (py_lower d))
  | None => ∅
  end.

(** The Jaccard index, 0 when either set is empty. *)
Definition spec_jaccard (a b : gset string) : Q :=
  if bool_decide (a = ∅ ∨ b = ∅) then 0
  else inject_Z (Z.of_nat (size (a ∩ b))) / inject_Z (Z.of_nat (size (a ∪ b))).

Definition spec_smurfing (row1 row2 : Row) `{PyStr} : Prop :=
  (0.6 < spec_jaccard (spec_words row1) (spec_words row2))%Q ∧
  (300 <= valor row1)%Q ∧ (valor row1 <= 500)%Q ∧
  (300 <= valor row2)%Q ∧ (valor row2 <= 500)%Q ∧
  (500 < valor row1 + valor row2)%Q.

(** The unordered pair of transaction ids a violation refers to. *)
Definition refers_to_pair (v : Violation) (a b : string) : Prop :=
  match transaction v with
  | TxPair p => (id_1 p = a ∧ id_2 p = b) ∨ (id_1 p = b ∧ id_2 p = a)
  | TxRow _ => False
  end.

(** The key under which the smurfing rule remembers a reported pair. *)
Definition violation_pair_key (v : Violation) : option (string * string) :=
  match transaction v with
  | TxPair p => Some (sorted_pair (id_1 p) (id_2 p))
  | TxRow _ => None
  end.

(** [v] is, among the violations of [frauds] with its key, the first one
    of the highest severity. *)
Definition first_of_highest_severity (frauds : list Violation) (v : Violation) : Prop :=
  ∃ before after,
    frauds = before ++ v :: after ∧
    Forall (fun w => tx_id (transaction w) = tx_id (transaction v) →
                     (severity w < severity v)%Z) before ∧
    Forall (fun w => tx_id (transaction w) = tx_id (transaction v) →
                     (severity w <= severity v)%Z) after.

(** The identity key of the specification: the transaction's own id for
    a single-transaction violation, the sorted pair of ids for a smurfing
    violation. *)
Definition spec_identity_key (v : Violation) : string + string * string :=
  match transaction v with
  | TxRow row => inl (id_transacao row)
  | TxPair p => inr (sorted_pair (id_1 p) (id_2 p))
  end.

(** ** What one iteration contributes

    The loops of the single-transaction rules append, for each row, the
    violations below to their accumulator. *)

Definition prohibited_emit `{PyStr} (row : Row) : list Violation :=
  match descricao row with
  | Some d =>
      match first_match prohibited_keywords (py_lower d) with
      | Some keyword => [ prohibited_violation row keyword ]
      | None => []
      end
  | None => []
  end.

Definition unauthorized_emit `{PyStr} (row : Row) : list Violation :=
  if spec_unauthorized row then [ unauthorized_violation row ] else [].

(** ** The visits of the smurfing loops

    The innermost body runs once for each tuple below, in this order:
    employee, day, and the two indexed rows of the pair. *)

Definition visit : Type := string * Z * (nat * Row) * (nat * Row).

Definition smurfing_visit `{PyStr} (st : smurf_state) (t : visit) : result smurf_state :=
  smurfing_body t.1.1.1 t.1.1.2 st t.1.2 t.2.

Fixpoint ordered_pairs {A : Type} (l : list A) : list (A * A) :=
  match l with
  | [] => []
  | x :: tl => ((fun y => (x, y)) <$> tl) ++ ordered_pairs tl
  end.

Definition day_visits (fname : string) (func_df : list (nat * Row)) (day : Z)
  : list visit :=
  (fun p => (fname, day, p.1, p.2))
    <$> ordered_pairs (filter (fun x => data x.2 = day) func_df).

Definition employee_visits (df_sorted : list (nat * Row)) (fname : string)
  : list visit :=
  let func_df := filter (fun x => funcionario x.2 = fname) df_sorted in
  unique ((fun x => data x.2) <$> func_df) ≫= day_visits fname func_df.

Definition all_visits (df : DataFrame) : list visit :=
  unique (funcionario <$> rows df)
    ≫= employee_visits (sort_values (iterrows (rows df))).

Definition visit_key (t : visit) : string * string :=
  sorted_pair (id_transacao t.1.2.2) (id_transacao t.2.2).

(** The violation a visit appends when its pair was not reported before
    and both descriptions are text. *)
Definition visit_emits `{PyStr} (t : visit) : option Violation :=
  let row1 := t.1.2.2 in
  let row2 := t.2.2 in
  match descricao row1, descricao row2 with
  | Some d1, Some d2 =>
      let desc1_words := word_set (py_lower d1) in
      let desc2_words := word_set (py_lower d2) in
      if bool_decide (desc1_words = ∅) || bool_decide (desc2_words = ∅) then None
      else
        let similarity := similarity_of desc1_words desc2_words in
        if Qgtb similarity 0.6
           && (Qle_bool 300 (valor row1) && Qle_bool (valor row1) 500)
           && (Qle_bool 300 (valor row2) && Qle_bool (valor row2) 500)
        then
          let total := (valor row1 + valor row2)%Q in
          if Qgtb total 500
          then Some (smurfing_violation t.1.1.1 t.1.1.2 row1 row2 similarity total)
          else None
        else None
  | _, _ => None
  end.

(** What the dictionary of the deduplicator holds after it has read the
    violations [seen]. *)
Record dedup_invariant (seen : list Violation) (d : list (string * Violation)) : Prop := {
  dedup_keys_nodup : NoDup d.*1;
  dedup_entries : ∀ k v, (k, v) ∈ d →
    tx_id (transaction v) = k ∧ first_of_highest_severity seen v;
  dedup_keys_cover : ∀ w, w ∈ seen → tx_id (transaction w) ∈ d.*1;
}.

(** The state after a visit that does not raise. *)
Definition smurf_next `{PyStr} (st : smurf_state) (t : visit) : smurf_state :=
  if decide (visit_key t ∈ st.2) then st
  else
    match visit_emits t with
    | Some v => (st.1 ++ [v], {[ visit_key t ]} ∪ st.2)
    | None => st
    end.

(** A parsed judgment flags its email when it is a non-empty dict whose
    [is_fraud] entry is true in Python's sense. *)
Definition flags_email (analysis : json) : bool :=
  match analysis with
  | JDict (entry :: entries) =>
      truthy (default (JBool false) (dict_get (entry :: entries) "is_fraud"))
  | _ => false
  end.

Definition restricted_emit `{PyStr} (row : Row) : list Violation :=
  match descricao row with
  | Some d =>
      match first_match restricted_locations (py_lower d) with
      | Some location => [ restricted_violation row location ]
      | None => []
      end
  | None => []
  end.

(** The description mentions the restricted venue, case-insensitively. *)
Definition mentions_hooter `{PyStr} (row : Row) : bool :=
  match descricao row with
  | Some d => str_in "hooter" (py_lower d)
  | None => false
  end.

(** The judgment the call number [n] gives the conspiracy detector, when
    the answer parses and has the required keys. *)
Definition complete_judgment `{PyStr} `{External} (llm : Llm) (email : Email) (n : nat)
  : option json :=
  match (conspiracy_attempt llm email n).1 with
  | Ok (Some analysis) => Some analysis
  | _ => None
  end.

(** A record of the contextual detector made from a judgment that is a
    non-empty dict whose entry [flag] is true in Python's sense. *)
Definition flagged_record (flag vtype : string) (cf : ContextualFraud) : Prop :=
  cf_violation_type cf = vtype ∧
  ∃ entries,
    cf_analysis cf = JDict entries ∧
    truthy (default (JBool false) (dict_get entries flag)) = true.

(** The severity of the record is a number in Python's sense. *)
Definition numeric_severity (f : ContextualFraud) : Prop :=
  ∃ q, json_number (cf_severity f) = Ok q.

(** The severity of the record is a number other than NaN. *)
Definition ordered_severity (f : ContextualFraud) : Prop :=
  ∃ x, json_number (cf_severity f) = Ok x ∧ is_nan x = false.

(** The evidence of the record can be sliced. *)
Definition sliceable_evidence (f : ContextualFraud) : Prop :=
  ∃ excerpt, json_slice 100 (cf_evidence f) = Ok excerpt.

(** The number that orders the record in the ranking. *)
Definition severity_value (f : ContextualFraud) : pynum :=
  match json_number (cf_severity f) with
  | Ok x => x
  | Raise _ => NotANumber
  end.

(** A line that separates two emails of the file. *)
Definition is_separator `{PyStr} (line : string) : bool :=
  starts_with_any [ "---"; "===" ] (py_strip line).

(** A line that sets the sender, the recipient, the subject or the date. *)
Definition is_header `{PyStr} (line : string) : bool :=
  let line_stripped := py_strip line in
  starts_with_any [ "De:"; "From:" ] line_stripped
  || starts_with_any [ "Para:"; "To:" ] line_stripped
  || starts_with_any [ "Assunto:"; "Subject:" ] line_stripped
  || starts_with_any [ "Data:"; "Date:" ] line_stripped.

(** A line that can enter a message: neither blank, nor a separator, nor
    a header. *)
Definition is_message_line `{PyStr} (line : string) : bool :=
  negb (is_separator line) && negb (is_header line) && nonempty (py_strip line).

(** What a line of the file contributes to a message: the text behind
    [Mensagem:] for the line that opens the message, the line itself for
    any other. *)
Definition message_piece `{PyStr} (line : string) : string :=
  if starts_with_any [ "Mensagem:"; "Message:" ] (py_strip line)
  then py_strip (after_colon (py_strip line))
  else line.

(** The message of the email is made of the lines [body]. *)
Definition message_of `{PyStr} (e : Email) (body : list string) : Prop :=
  mensagem e = py_strip (join_lines (message_piece <$> body)).

(** What holds of the state of the loop of [load_emails] after [k]
    separator lines: the message of the email being read is still empty
    (it is set only when the email is stored), every stored email has a
    sender, and at most [k] emails are stored. *)
Definition parser_invariant `{PyStr} (st : EmailParser) (k : nat) : Prop :=
  mensagem (ep_current st) = "" ∧
  Forall (λ e, remetente e ≠ "") (ep_emails st) ∧
  (length (ep_emails st) ≤ k)%nat.

(** Where the messages come from, after the lines [processed]: the
    stored emails are made of the lines [bodies], the message being read
    of the lines [current]; all of these are message lines of the file,
    taken in order, none of them twice. *)
Definition parser_bodies `{PyStr} (st : EmailParser) (processed : list string)
    (bodies : list (list string)) (current : list string) : Prop :=
  Forall2 message_of (ep_emails st) bodies ∧
  ep_message_lines st = message_piece <$> current ∧
  concat bodies ++ current `sublist_of` processed ∧
  Forall (λ line, is_message_line line = true) (concat bodies ++ current).

(** The records of type [t], in the order of the list. *)
Definition of_type {A : Type} (vtype : A -> string) (t : string) (l : list A) : list A :=
  List.filter (fun f => String.eqb (vtype f) t) l.

(** The number of records a grouping holds. *)
Definition grouped_total {A : Type} (by_type : list (string * list A)) : nat :=
  sum_list (length <$> by_type.*2).

(** An entry of the conspiracy scan: the judgment has the three required
    entries and its [is_suspicious] is true in Python's sense. *)
Definition suspicious_record (item : SuspiciousEmail) : Prop :=
  (∃ flag, json_item (se_analysis item) "is_suspicious" = Ok flag ∧ truthy flag = true) ∧
  (∃ severity, json_item (se_analysis item) "severity" = Ok severity) ∧
  (∃ reasoning, json_item (se_analysis item) "reasoning" = Ok reasoning).

(** The severity of the entry is a number in Python's sense. *)
Definition numeric_band (item : SuspiciousEmail) : Prop :=
  ∃ q, severity_of item = Ok q.

(** The number that decides the band of the entry. *)
Definition band_value (item : SuspiciousEmail) : pynum :=
  match severity_of item with
  | Ok x => x
  | Raise _ => NotANumber
  end.

(** The judgment has a [reasoning], and its [evidence_quotes] are absent,
    empty or a list of strings. *)
Definition printable_item (item : SuspiciousEmail) : Prop :=
  (∃ reasoning, json_item (se_analysis item) "reasoning" = Ok reasoning) ∧
  ∃ quotes,
    json_get (se_analysis item) "evidence_quotes" JNull = Ok quotes ∧
    (truthy quotes = false ∨ ∃ parts : list string, quotes = JList (JStr <$> parts)).

(** The email is from or to Michael Scott, or its subject or message
    names Toby Flenderson. *)
Definition is_relevant `{PyStr} (email : Email) : bool :=
  str_in michael_address (py_lower (remetente email))
  || str_in michael_address (py_lower (destinatario email))
  || str_in "toby" (py_lower (assunto email +:+ " " +:+ mensagem email))
  || str_in "flenderson" (py_lower (assunto email +:+ " " +:+ mensagem email)).

(** The sentence as it enters a chunk: stripped, with a final full stop;
    nothing for a blank one. *)
Definition normal_sentence `{PyStr} (sentence : string) : list string :=
  let sentence := py_strip sentence in
  if nonempty sentence
  then [ if ends_with_dot sentence then sentence else sentence +:+ "." ]
  else [].

(** The pieces of a text: its stripped paragraphs that are not blank, a
    paragraph longer than [chunk_size] giving its sentences instead. *)
Definition text_pieces `{PyStr} (text : string) (chunk_size : Z) : list string :=
  split_str (nl +:+ nl) text ≫= fun para =>
    let para := py_strip para in
    if negb (nonempty para) then []
    else if (chunk_size <? py_len para)%Z then split_str ". " para ≫= normal_sentence
    else [ para ].

(** What holds of the state of [split_text_for_rag] after the pieces
    [pieces]: no chunk and no piece of the current chunk is empty; every
    piece read so far occurs in a chunk or is in the current chunk; and
    there are no more chunks, the current one included, than pieces. *)
Definition splitter_invariant (st : Splitter) (pieces : list string) : Prop :=
  Forall (λ c, c ≠ "") (sp_chunks st) ∧
  Forall (λ x, x ≠ "") (sp_current_chunk st) ∧
  (∀ p, p ∈ pieces →
     (∃ c, c ∈ sp_chunks st ∧ str_in p c = true) ∨ p ∈ sp_current_chunk st) ∧
  (length (sp_chunks st) + (if has_items (sp_current_chunk st) then 1 else 0)
     ≤ length pieces)%nat.

(** The state [st'] is [st] after the piece [x]: appended to the current
    chunk, or opening a new one, alone or behind an overlap text, after
    the current chunk was stored. *)
Definition adds_piece (st : Splitter) (x : string) (st' : Splitter) : Prop :=
  (sp_chunks st' = sp_chunks st ∧ sp_current_chunk st' = sp_current_chunk st ++ [ x ]) ∨
  (has_items (sp_current_chunk st) = true ∧
   (∃ sep, sp_chunks st' = sp_chunks st ++ [ String.concat sep (sp_current_chunk st) ]) ∧
   (sp_current_chunk st' = [ x ] ∨
    ∃ overlap_text, overlap_text ≠ "" ∧ sp_current_chunk st' = [ overlap_text; x ])).

(** The judgments of the emails of a scan, each asked from the call
    count that the judgment before it has reached. *)
Fixpoint scan_judgments `{PyStr} `{External} (llm : Llm) (emails : list Email) (n : nat)
  : list SuspiciousEmail :=
  match emails with
  | [] => []
  | email :: rest =>
      match _analyze_single_email llm email n with
      | (Ok analysis, n') =>
          {| se_email := email; se_analysis := analysis |} :: scan_judgments llm rest n'
      | (Raise _, _) => []
      end
  end.

(** The judgment has an [is_suspicious] entry that is true in Python's
    sense. *)
Definition marked_suspicious (item : SuspiciousEmail) : bool :=
  match json_item (se_analysis item) "is_suspicious" with
  | Ok flag => truthy flag
  | Raise _ => false
  end.

(** ** Properties of the loops *)

Section Loops.
Context {A B : Type}.

Lemma foldM_app (body : A -> B -> result A) (l1 l2 : list B) (acc : A) :
  foldM body acc (l1 ++ l2) = (acc' ← foldM body acc l1; foldM body acc' l2).
Proof.
  revert acc. induction l1 as [|x l1 IH]; intros acc; simpl; [done|].
  destruct (body acc x) as [acc'|e]; simpl; [apply IH|done].
Qed.

(** A loop whose body appends to the accumulator what [emit] says, for
    every element of the list, returns the list of all that is emitted. *)
Lemma foldM_emit (body : list A -> B -> result (list A)) (emit : B -> list A)
    (l : list B) :
  (∀ acc x, x ∈ l → body acc x = Ok (acc ++ emit x)) →
  ∀ acc, foldM body acc l = Ok (acc ++ (l ≫= emit)).
Proof.
  induction l as [|x l IH]; intros Hbody acc; simpl.
  - by rewrite app_nil_r.
  - rewrite Hbody by left. simpl. rewrite IH.
    + by rewrite app_assoc.
    + intros acc' y Hy. apply Hbody. by right.
Qed.
End Loops.

Lemma first_match_Some keywords text keyword :
  first_match keywords text = Some keyword →
  ∃ before after,
    keywords = before ++ keyword :: after ∧
    str_in keyword text = true ∧
    Forall (fun k => str_in k text = false) before.
Proof.
  induction keywords as [|k ks IH]; simpl; [done|].
  destruct (str_in k text) eqn:Hk.
  - intros [= <-]. exists [], ks. by repeat split.
  - intros (before & after & -> & Hin & Hbefore)%IH.
    exists (k :: before), after. repeat split; [done|]. by constructor.
Qed.

Lemma first_match_None keywords text :
  first_match keywords text = None ↔
  existsb (fun k => str_in k text) keywords = false.
Proof.
  induction keywords as [|k ks IH]; simpl; [done|].
  destruct (str_in k text); simpl; [split; discriminate|done].
Qed.

Lemma first_match_is_Some keywords text :
  existsb (fun k => str_in k text) keywords = true →
  is_Some (first_match keywords text).
Proof.
  intros Hex. destruct (first_match keywords text) eqn:Hfm; [by eexists|].
  apply first_match_None in Hfm. congruence.
Qed.

(** ** Rule 1: prohibited items *)

Section ProhibitedItems.
Context `{PyStr}.

Lemma prohibited_step_emit acc row :
  is_Some (descricao row) →
  prohibited_step acc row = Ok (acc ++ prohibited_emit row).
Proof.
  intros [d Hd]. unfold prohibited_step, prohibited_emit, descricao_lower.
  rewrite Hd. cbn [mbind result_bind].
  destruct (first_match prohibited_keywords (py_lower d)); [done|].
  by rewrite app_nil_r.
Qed.

Lemma prohibited_emit_transactions (l : list Row) :
  transaction <$> (l ≫= prohibited_emit) =
  TxRow <$> List.filter spec_mentions_prohibited l.
Proof.
  induction l as [|row l IH]; [done|].
  rewrite bind_cons, fmap_app, IH. simpl.
  unfold prohibited_emit, spec_mentions_prohibited.
  destruct (descricao row) as [d|]; [|done].
  destruct (first_match prohibited_keywords (py_lower d)) as [k|] eqn:Hfm.
  - destruct (existsb _ prohibited_keywords) eqn:Hex; [done|].
    apply first_match_None in Hex. congruence.
  - apply first_match_None in Hfm. by rewrite Hfm.
Qed.
End ProhibitedItems.

(** C4. On a table whose descriptions are all text, the prohibited-item
    check returns normally; the transactions of its violations are, in
    order, exactly the rows whose description contains a deny-listed
    keyword case-insensitively (one violation for each such row, none for
    any other row), and each violation is a PROHIBITED_ITEM
    ([ITEM_PROIBIDO]) record of severity 9 that cites the first keyword of
    the deny-list that occurs in the description. *)
Theorem prohibited_items_one_per_match `{PyStr} (df : DataFrame) :
  Forall (fun row => is_Some (descricao row)) (rows df) →
  ∃ violations,
    _check_prohibited_items df = Ok violations ∧
    transaction <$> violations =
      TxRow <$> List.filter spec_mentions_prohibited (rows df) ∧
    Forall (fun v => ∃ row d keyword before after,
              v = prohibited_violation row keyword ∧
              violation_type v = "ITEM_PROIBIDO" ∧
              severity v = 9%Z ∧
              reason v = "Compra de item proibido detectada: "
                         +:+ dquote +:+ keyword +:+ dquote ∧
              row ∈ rows df ∧
              descricao row = Some d ∧
              prohibited_keywords = before ++ keyword :: after ∧
              str_in keyword (py_lower d) = true ∧
              Forall (fun k => str_in k (py_lower d) = false) before)
      violations.
Proof.
  intros Htext. exists (rows df ≫= prohibited_emit).
  split; [|split].
  - unfold _check_prohibited_items.
    rewrite (foldM_emit prohibited_step prohibited_emit); [done|].
    intros acc row Hrow. apply prohibited_step_emit.
    by eapply Forall_forall in Htext.
  - apply prohibited_emit_transactions.
  - apply Forall_forall. intros v (row & Hv & Hrow)%list_elem_of_bind.
    unfold prohibited_emit in Hv.
    destruct (descricao row) as [d|] eqn:Hd; [|by apply elem_of_nil in Hv].
    destruct (first_match prohibited_keywords (py_lower d)) as [keyword|] eqn:Hfm;
      [|by apply elem_of_nil in Hv].
    apply list_elem_of_singleton in Hv as ->.
    apply first_match_Some in Hfm as (before & after & Hsplit & Hin & Hbefore).
    exists row, d, keyword, before, after. by repeat split.
Qed.

Lemma prohibited_items_one_per_match_witness :
  Forall (fun row => is_Some (descricao row)) (rows Sample.party_table) ∧
  ∃ violations,
    _check_prohibited_items (H := Sample.py_str) Sample.party_table = Ok violations ∧
    transaction <$> violations =
      [ TxRow (Sample.row "TX1" "Michael" 1 120 "Magic kit and KARAOKE machine");
        TxRow (Sample.row "TX3" "Dwight" 2 80 "Beet seeds") ].
Proof.
  assert (Htext : Forall (fun row => is_Some (descricao row)) (rows Sample.party_table))
    by (repeat constructor; by eexists).
  split; [exact Htext|].
  destruct (prohibited_items_one_per_match (H := Sample.py_str) Sample.party_table Htext)
    as (violations & Hrun & Htx & _).
  exists violations. split; [exact Hrun|]. exact Htx.
Defined.

(** ** Rule 2: amounts above the approval limit *)

Lemma Qgtb_lt x y : Qgtb x y = true ↔ (y < x)%Q.
Proof.
  unfold Qgtb. rewrite negb_true_iff.
  destruct (Qle_bool x y) eqn:Hle.
  - apply Qle_bool_iff in Hle. split; [done|]. intros Hlt.
    exfalso. by eapply Qlt_not_le.
  - split; [|done]. intros _. apply Qnot_le_lt. intros Hle'.
    apply Qle_bool_iff in Hle'. congruence.
Qed.

Section UnauthorizedAmounts.
Context `{PyStr}.

Lemma unauthorized_step_emit acc row :
  ((500 < valor row)%Q → is_Some (descricao row)) →
  unauthorized_step acc row = Ok (acc ++ unauthorized_emit row).
Proof.
  intros Htext. unfold unauthorized_step, unauthorized_emit, spec_unauthorized.
  unfold high_value_threshold.
  destruct (Qgtb (valor row) 500) eqn:Hgt; simpl; [|by rewrite app_nil_r].
  apply Qgtb_lt in Hgt. destruct (Htext Hgt) as [d Hd].
  unfold descricao_lower. rewrite Hd. cbn [mbind result_bind].
  rewrite orb_false_r, !negb_orb, andb_assoc.
  destruct (_ && _); [done|]. by rewrite app_nil_r.
Qed.

Lemma unauthorized_emit_transactions (l : list Row) :
  transaction <$> (l ≫= unauthorized_emit) =
  TxRow <$> List.filter spec_unauthorized l.
Proof.
  induction l as [|row l IH]; [done|].
  rewrite bind_cons, fmap_app, IH. simpl. unfold unauthorized_emit.
  by destruct (spec_unauthorized row).
Qed.

Lemma spec_unauthorized_iff row d :
  descricao row = Some d →
  spec_unauthorized row = true ↔
    (500 < valor row)%Q ∧
    Forall (fun marker => str_in marker (py_lower d) = false) spec_approval_markers.
Proof.
  intros Hd. unfold spec_unauthorized. rewrite Hd, andb_true_iff, Qgtb_lt.
  rewrite negb_true_iff. unfold spec_approval_markers. simpl.
  rewrite orb_false_r, !orb_false_iff, !Forall_cons, Forall_nil. tauto.
Qed.
End UnauthorizedAmounts.

(** C5. When every row above the limit has a text description, the
    unauthorized-amount check returns normally; the transactions of its
    violations are, in order, exactly the rows whose amount is strictly
    above 500 and whose lower-cased description contains none of the
    markers "po", "purchase order", "p.o." (one violation per such row,
    none for a row at or below 500 or with a marker), and each violation
    is an UNAUTHORIZED_AMOUNT ([VALOR_NAO_AUTORIZADO]) record of
    severity 7. *)
Theorem unauthorized_amounts_one_per_match `{PyStr} (df : DataFrame) :
  Forall (fun row => (500 < valor row)%Q → is_Some (descricao row)) (rows df) →
  ∃ violations,
    _check_unauthorized_amounts df = Ok violations ∧
    transaction <$> violations = TxRow <$> List.filter spec_unauthorized (rows df) ∧
    Forall (fun v => violation_type v = "VALOR_NAO_AUTORIZADO" ∧ severity v = 7%Z)
      violations ∧
    (∀ row d, descricao row = Some d →
       spec_unauthorized row = true ↔
         (500 < valor row)%Q ∧
         Forall (fun marker => str_in marker (py_lower d) = false)
           [ "po"; "purchase order"; "p.o." ]) ∧
    (∀ row, (valor row <= 500)%Q → spec_unauthorized row = false).
Proof.
  intros Htext. exists (rows df ≫= unauthorized_emit).
  split; [|split; [|split; [|split]]].
  - unfold _check_unauthorized_amounts.
    rewrite (foldM_emit unauthorized_step unauthorized_emit); [done|].
    intros acc row Hrow. apply unauthorized_step_emit.
    by eapply Forall_forall in Htext.
  - apply unauthorized_emit_transactions.
  - apply Forall_forall. intros v (row & Hv & _)%list_elem_of_bind.
    unfold unauthorized_emit in Hv.
    destruct (spec_unauthorized row); [|by apply elem_of_nil in Hv].
    by apply list_elem_of_singleton in Hv as ->.
  - intros row d Hd. by apply spec_unauthorized_iff.
  - intros row Hle. unfold spec_unauthorized.
    destruct (Qgtb (valor row) 500) eqn:Hgt; [|done].
    apply Qgtb_lt in Hgt. exfalso. by eapply Qlt_not_le.
Qed.

Lemma unauthorized_amounts_one_per_match_witness :
  Forall (fun row => (500 < valor row)%Q → is_Some (descricao row))
    (rows Sample.spending_table) ∧
  ∃ violations,
    _check_unauthorized_amounts (H := Sample.py_str) Sample.spending_table
      = Ok violations ∧
    transaction <$> violations =
      [ TxRow (Sample.row "TX1" "Michael" 1 900 "Conference room projector") ].
Proof.
  assert (Htext : Forall (fun row => (500 < valor row)%Q → is_Some (descricao row))
                    (rows Sample.spending_table)).
  { repeat constructor; try (intros _; by eexists). intros Hlt. by vm_compute in Hlt. }
  split; [exact Htext|].
  destruct (unauthorized_amounts_one_per_match (H := Sample.py_str)
              Sample.spending_table Htext)
    as (violations & Hrun & Htx & _).
  exists violations. split; [exact Hrun|]. exact Htx.
Defined.

(** ** Rule 5: suspicious categories *)

Lemma fold_left_append {A B : Type} (f : B -> A) (l : list B) (acc : list A) :
  fold_left (fun acc x => acc ++ [f x]) l acc = acc ++ (f <$> l).
Proof.
  revert acc. induction l as [|x l IH]; intros acc; simpl.
  - by rewrite app_nil_r.
  - by rewrite IH, <- app_assoc.
Qed.

(** C7. The suspicious-category check never raises.  When the table has
    a [categoria] column, the transactions of its violations are, in
    order, exactly the rows whose category equals the sentinel
    ["Segurança"] (one violation per such row); a row whose category is
    missing, empty or any other text is not among them; every violation is
    a [CATEGORIA_SUSPEITA] record of severity 7; and when the column is
    absent the check emits nothing. *)
Theorem suspicious_categories_exactly_sentinel `{PyStr} (df : DataFrame) :
  ("categoria" ∈ columns df →
     transaction <$> _check_suspicious_categories df =
       TxRow <$> filter (fun row => categoria row = Some "Segurança") (rows df)) ∧
  ("categoria" ∉ columns df → _check_suspicious_categories df = []) ∧
  Forall (fun v => ∃ row,
            row ∈ rows df ∧
            categoria row = Some "Segurança" ∧
            v = suspicious_violation row ∧
            violation_type v = "CATEGORIA_SUSPEITA" ∧
            severity v = 7%Z)
    (_check_suspicious_categories df).
Proof.
  unfold _check_suspicious_categories.
  destruct (decide ("categoria" ∈ columns df)) as [Hcol|Hcol].
  - rewrite fold_left_append. simpl. split; [|split].
    + intros _. rewrite <- list_fmap_compose. done.
    + done.
    + apply Forall_forall. intros v (row & -> & [Hcat Hrow]%list_elem_of_filter)%list_elem_of_fmap.
      by exists row.
  - split; [done|]. split; [done|]. constructor.
Qed.

(** Only the first row of the sample table carries the sentinel. *)
Example suspicious_categories_sample :
  tx_id ∘ transaction <$> _check_suspicious_categories (H := Sample.py_str)
                            Sample.category_table = [ "TX1" ] ∧
  _check_suspicious_categories (H := Sample.py_str) Sample.party_table = [].
Proof. split; reflexivity. Qed.

(** ** Deduplication *)

Section Dict.
Context {V : Type}.
Implicit Types (d : list (string * V)) (k : string) (v : V).

Lemma dict_get_None d k : dict_get d k = None ↔ k ∉ d.*1.
Proof.
  induction d as [|[k' v'] d IH]; csimpl.
  - split; [intros _; apply not_elem_of_nil|done].
  - rewrite not_elem_of_cons. destruct (decide (k' = k)) as [->|Hne].
    + split; [done|]. by intros [? _].
    + rewrite IH. split; [by split|by intros [_ ?]].
Qed.

Lemma dict_get_Some d k v : dict_get d k = Some v → (k, v) ∈ d.
Proof.
  induction d as [|[k' v'] d IH]; csimpl; [done|].
  destruct (decide (k' = k)) as [->|Hne].
  - intros [= ->]. by left.
  - intros Hget. right. by apply IH.
Qed.

Lemma dict_set_keys_fresh d k v : k ∉ d.*1 → (dict_set d k v).*1 = d.*1 ++ [k].
Proof.
  induction d as [|[k' v'] d IH]; csimpl; [done|].
  rewrite not_elem_of_cons. intros [Hne Hnot].
  destruct (decide (k' = k)) as [->|_]; [done|]. csimpl. by rewrite IH.
Qed.

Lemma dict_set_keys_present d k v : k ∈ d.*1 → (dict_set d k v).*1 = d.*1.
Proof.
  induction d as [|[k' v'] d IH]; csimpl; [by intros ?%elem_of_nil|].
  destruct (decide (k' = k)) as [->|Hne]; [done|].
  rewrite elem_of_cons. intros [Heq|Hin]; [congruence|]. csimpl. by rewrite IH.
Qed.

Lemma dict_set_elem_of d k v k' v' :
  NoDup d.*1 →
  (k', v') ∈ dict_set d k v →
  (k' = k ∧ v' = v) ∨ (k' ≠ k ∧ (k', v') ∈ d).
Proof.
  induction d as [|[k0 v0] d IH]; csimpl.
  - intros _ [= -> ->]%list_elem_of_singleton. by left.
  - intros [Hnot Hnd]%NoDup_cons. destruct (decide (k0 = k)) as [->|Hne].
    + intros [[= -> ->]|Hin]%elem_of_cons; [by left|].
      right. split; [|by right]. intros ->. apply Hnot.
      apply list_elem_of_fmap. by exists (k, v').
    + intros [[= -> ->]|Hin]%elem_of_cons.
      * right. split; [done|by left].
      * destruct (IH Hnd Hin) as [?|[? ?]]; [by left|]. right. split; [done|by right].
Qed.

Lemma dict_entry_unique d k v v' :
  NoDup d.*1 → (k, v) ∈ d → (k, v') ∈ d → v = v'.
Proof.
  induction d as [|[k0 v0] d IH]; csimpl; [by intros _ ?%elem_of_nil|].
  intros [Hnot Hnd]%NoDup_cons Hin Hin'.
  apply elem_of_cons in Hin as [Hin|Hin]; apply elem_of_cons in Hin' as [Hin'|Hin'].
  - congruence.
  - injection Hin as -> ->. exfalso. apply Hnot, list_elem_of_fmap. by exists (k0, v').
  - injection Hin' as -> ->. exfalso. apply Hnot, list_elem_of_fmap. by exists (k0, v).
  - by apply IH.
Qed.
End Dict.

Lemma first_of_highest_severity_snoc seen v w :
  first_of_highest_severity seen v →
  (tx_id (transaction w) = tx_id (transaction v) → (severity w <= severity v)%Z) →
  first_of_highest_severity (seen ++ [w]) v.
Proof.
  intros (before & after & -> & Hbefore & Hafter) Hw.
  exists before, (after ++ [w]). split; [by rewrite <- app_assoc|].
  split; [done|]. apply Forall_app. split; [done|]. by constructor.
Qed.

Lemma first_of_highest_severity_last seen w :
  Forall (fun u => tx_id (transaction u) = tx_id (transaction w) →
                   (severity u < severity w)%Z) seen →
  first_of_highest_severity (seen ++ [w]) w.
Proof. intros Hseen. exists seen, []. by repeat split. Qed.

Lemma dedup_step_invariant seen d fraud :
  dedup_invariant seen d → dedup_invariant (seen ++ [fraud]) (dedup_step d fraud).
Proof.
  intros [Hnd Hentries Hcover]. unfold dedup_step.
  set (key := tx_id (transaction fraud)).
  assert (Hothers : ∀ k v, k ≠ key → (k, v) ∈ d →
            tx_id (transaction v) = k ∧ first_of_highest_severity (seen ++ [fraud]) v).
  { intros k v Hne Hin. destruct (Hentries k v Hin) as [Hk Hfirst].
    split; [done|]. apply first_of_highest_severity_snoc; [done|].
    intros Heq. exfalso. apply Hne. by rewrite <- Hk, <- Heq. }
  destruct (dict_get d key) as [kept|] eqn:Hget.
  - pose proof (dict_get_Some _ _ _ Hget) as Hin.
    destruct (Hentries _ _ Hin) as [Hkey Hfirst].
    assert (Hpresent : key ∈ d.*1) by (apply list_elem_of_fmap; by exists (key, kept)).
    destruct (Z.gtb_spec (severity fraud) (severity kept)) as [Hgt|Hle].
    + split.
      * by rewrite dict_set_keys_present.
      * intros k v [[-> ->]|[Hne Hin']]%dict_set_elem_of; [|by apply Hothers|done].
        split; [done|]. apply first_of_highest_severity_last.
        destruct Hfirst as (before & after & -> & Hbefore & Hafter).
        rewrite Hkey in Hbefore, Hafter. fold key.
        apply Forall_app. split; [|apply Forall_cons; split].
        -- eapply Forall_impl; [exact Hbefore|]. simpl. intros u Hu Heq.
           specialize (Hu Heq). lia.
        -- intros _. lia.
        -- eapply Forall_impl; [exact Hafter|]. simpl. intros u Hu Heq.
           specialize (Hu Heq). lia.
      * intros w [Hw|Hw%list_elem_of_singleton]%elem_of_app;
          rewrite dict_set_keys_present by done; [by apply Hcover|by subst].
    + split.
      * done.
      * intros k v Hin'. destruct (decide (k = key)) as [->|Hne]; [|by apply Hothers].
        assert (v = kept) as -> by (by eapply dict_entry_unique).
        split; [done|]. apply first_of_highest_severity_snoc; [done|]. intros _. lia.
      * intros w [Hw|Hw%list_elem_of_singleton]%elem_of_app; [by apply Hcover|by subst].
  - apply dict_get_None in Hget. split.
    + rewrite dict_set_keys_fresh by done. apply NoDup_app. split; [done|].
      split; [|apply NoDup_singleton]. intros k Hk Hk'%list_elem_of_singleton. by subst.
    + intros k v [[-> ->]|[Hne Hin']]%dict_set_elem_of; [|by apply Hothers|done].
      split; [done|]. apply first_of_highest_severity_last.
      apply Forall_forall. intros u Hu Heq. exfalso. apply Hget.
      fold key in Heq. rewrite <- Heq. by apply Hcover.
    + intros w Hw. rewrite dict_set_keys_fresh by done. apply elem_of_app.
      apply elem_of_app in Hw as [Hw|Hw%list_elem_of_singleton];
        [left; by apply Hcover|right; subst; by apply list_elem_of_singleton].
Qed.

Lemma dedup_fold_invariant frauds seen d :
  dedup_invariant seen d →
  dedup_invariant (seen ++ frauds) (fold_left dedup_step frauds d).
Proof.
  revert seen d. induction frauds as [|fraud frauds IH]; intros seen d Hinv; simpl.
  - by rewrite app_nil_r.
  - rewrite (assoc_L (++) seen [fraud] frauds : seen ++ fraud :: frauds = _).
    apply IH. by apply dedup_step_invariant.
Qed.

(** The deduplicator on any list of violations: one survivor per key, for
    every key of the input, and the survivor is the first violation of the
    highest severity among those with its key. *)
Lemma deduplicate_frauds_spec (frauds : list Violation) :
  NoDup (tx_id ∘ transaction <$> _deduplicate_frauds frauds) ∧
  (∀ w, w ∈ frauds →
     ∃ v, v ∈ _deduplicate_frauds frauds ∧
          tx_id (transaction v) = tx_id (transaction w)) ∧
  (∀ v, v ∈ _deduplicate_frauds frauds → first_of_highest_severity frauds v).
Proof.
  assert (Hinv : dedup_invariant frauds (fold_left dedup_step frauds [])).
  { apply (dedup_fold_invariant frauds [] []). split.
    - constructor.
    - by intros k v ?%elem_of_nil.
    - by intros w ?%elem_of_nil. }
  destruct Hinv as [Hnd Hentries Hcover]. unfold _deduplicate_frauds.
  assert (Hkeys : tx_id ∘ transaction <$> (fold_left dedup_step frauds []).*2
                  = (fold_left dedup_step frauds []).*1).
  { rewrite <- list_fmap_compose. apply list_fmap_ext.
    intros i [k v] Hkv%list_elem_of_lookup_2. simpl. by apply Hentries. }
  split; [by rewrite Hkeys|]. split.
  - intros w Hw. apply Hcover in Hw.
    apply list_elem_of_fmap in Hw as ([k v] & Hk & Hin). simpl in Hk.
    exists v. split; [apply list_elem_of_fmap; by exists (k, v)|].
    destruct (Hentries _ _ Hin) as [Hv _]. congruence.
  - intros v ([k v'] & -> & Hin)%list_elem_of_fmap. simpl.
    by destruct (Hentries _ _ Hin) as [_ Hfirst].
Qed.

(** The deduplication under the key the deduplicator computes.  When
    the analysis returns, the violations it deduplicates are the outputs
    of the five checks concatenated in the order prohibited-item,
    unauthorized-amount, smurfing, restricted-location,
    suspicious-category; no two retained violations share a key (the
    transaction id, or the first id of a pair); every key of the input
    keeps exactly one violation; and the one retained is of the highest
    severity among those of its key and is the first such in emission
    order: a later violation of equal severity never replaces it. *)
Theorem deduplication_keeps_first_highest `{PyStr} `{Pandas}
    (fs : string -> option RawFrame) (path : string) (result : Analysis) :
  analyze_transactions fs path = Ok result →
  ∃ df prohibited unauthorized smurfing restricted,
    load_transactions fs path = Ok df ∧
    _check_prohibited_items df = Ok prohibited ∧
    _check_unauthorized_amounts df = Ok unauthorized ∧
    _check_smurfing df = Ok smurfing ∧
    _check_restricted_locations df = Ok restricted ∧
    let frauds := prohibited ++ unauthorized ++ smurfing ++ restricted
                  ++ _check_suspicious_categories df in
    let kept := fraudulent_transactions result in
    kept = _deduplicate_frauds frauds ∧
    NoDup (tx_id ∘ transaction <$> kept) ∧
    (∀ w, w ∈ frauds → ∃ v, v ∈ kept ∧ tx_id (transaction v) = tx_id (transaction w)) ∧
    (∀ v, v ∈ kept → first_of_highest_severity frauds v).
Proof.
  unfold analyze_transactions. intros Hrun.
  destruct (load_transactions fs path) as [df|] eqn:Hload; [|done].
  cbn [mbind result_bind] in Hrun.
  destruct (_check_prohibited_items df) as [prohibited|] eqn:Hp; [|done].
  cbn [mbind result_bind] in Hrun.
  destruct (_check_unauthorized_amounts df) as [unauthorized|] eqn:Hu; [|done].
  cbn [mbind result_bind] in Hrun.
  destruct (_check_smurfing df) as [smurfing|] eqn:Hs; [|done].
  cbn [mbind result_bind] in Hrun.
  destruct (_check_restricted_locations df) as [restricted|] eqn:Hr; [|done].
  cbn [mbind result_bind] in Hrun.
  injection Hrun as <-. cbn [fraudulent_transactions].
  exists df, prohibited, unauthorized, smurfing, restricted.
  do 5 (split; [done|]). cbv zeta. rewrite <- !app_assoc.
  split; [done|]. apply deduplicate_frauds_spec.
Qed.

Lemma deduplication_keeps_first_highest_witness :
  ∃ result,
    analyze_transactions (H := Sample.py_str) (H0 := Sample.pandas)
      (Sample.disk Sample.audit_file) Sample.transactions_path = Ok result ∧
    (fun v => (tx_id (transaction v), violation_type v, severity v))
      <$> fraudulent_transactions result
    = [ ("TX1", "ITEM_PROIBIDO", 9%Z); ("TX2", "VALOR_NAO_AUTORIZADO", 7%Z) ] ∧
    ∀ v, v ∈ fraudulent_transactions result →
      ∃ frauds, first_of_highest_severity frauds v.
Proof.
  destruct (analyze_transactions (H := Sample.py_str) (H0 := Sample.pandas)
              (Sample.disk Sample.audit_file) Sample.transactions_path)
    as [result|e] eqn:Hrun; [|by vm_compute in Hrun].
  exists result. split; [done|]. split.
  - vm_compute in Hrun. injection Hrun as <-. reflexivity.
  - destruct (deduplication_keeps_first_highest (H := Sample.py_str)
                (H0 := Sample.pandas) _ _ _ Hrun)
      as (df & p & u & s & r & _ & _ & _ & _ & _ & _ & _ & _ & Hfirst).
    intros v Hv. eexists. by apply Hfirst.
Defined.

(** C3. The deduplicator does not group by the identity key of the
    specification.  A purchase that is a prohibited item (severity 9) of
    the security category (severity 7) and also one half of a smurfing
    pair has, under its own id, two violations, of which the
    prohibited-item one should be retained; the pair has its own key, the
    sorted pair of ids.  The deduplicator files the pair under its first id,
    the id of that purchase: the smurfing violation (severity 10) replaces
    the prohibited-item one, and the analysis retains no violation at all
    for the identity key of the purchase. *)
Theorem deduplication_drops_violations_under_pair :
  ∃ df prohibited unauthorized smurfing restricted result,
    load_transactions (H := Sample.pandas) (Sample.disk Sample.shadowed_file)
      Sample.transactions_path = Ok df ∧
    _check_prohibited_items (H := Sample.py_str) df = Ok prohibited ∧
    _check_unauthorized_amounts (H := Sample.py_str) df = Ok unauthorized ∧
    _check_smurfing (H := Sample.py_str) df = Ok smurfing ∧
    _check_restricted_locations (H := Sample.py_str) df = Ok restricted ∧
    (fun v => (spec_identity_key v, violation_type v, severity v))
      <$> (prohibited ++ unauthorized ++ smurfing ++ restricted
           ++ _check_suspicious_categories (H := Sample.py_str) df)
    = [ (inl "TX1", "ITEM_PROIBIDO", 9%Z);
        (inr ("TX1", "TX2"), "SMURFING", 10%Z);
        (inl "TX1", "CATEGORIA_SUSPEITA", 7%Z) ] ∧
    analyze_transactions (H := Sample.py_str) (H0 := Sample.pandas)
      (Sample.disk Sample.shadowed_file) Sample.transactions_path = Ok result ∧
    (fun v => (spec_identity_key v, violation_type v, severity v))
      <$> fraudulent_transactions result
    = [ (inr ("TX1", "TX2"), "SMURFING", 10%Z) ].
Proof.
  destruct (load_transactions (H := Sample.pandas) (Sample.disk Sample.shadowed_file)
              Sample.transactions_path) as [df|] eqn:Hload; [|by vm_compute in Hload].
  vm_compute in Hload. injection Hload as <-.
  destruct (analyze_transactions (H := Sample.py_str) (H0 := Sample.pandas)
              (Sample.disk Sample.shadowed_file) Sample.transactions_path)
    as [result|] eqn:Hrun; [|by vm_compute in Hrun].
  vm_compute in Hrun. injection Hrun as <-.
  eexists _, _, _, _, _, _.
  split; [reflexivity|].
  split; [vm_compute; reflexivity|]. split; [vm_compute; reflexivity|].
  split; [vm_compute; reflexivity|]. split; [vm_compute; reflexivity|].
  split; [vm_compute; reflexivity|]. split; reflexivity.
Qed.

(** ** Rule 3: smurfing *)

Section LoopShapes.
Context {A B S : Type}.

Lemma foldM_fmap (f : B -> A) (body : S -> A -> result S) (l : list B) (st : S) :
  foldM body st (f <$> l) = foldM (fun s x => body s (f x)) st l.
Proof.
  revert st. induction l as [|x l IH]; intros st; csimpl; [done|].
  destruct (body st (f x)); csimpl; [apply IH|done].
Qed.

Lemma foldM_bind (g : B -> list A) (body : S -> A -> result S) (l : list B) (st : S) :
  foldM body st (l ≫= g) = foldM (fun s x => foldM body s (g x)) st l.
Proof.
  revert st. induction l as [|x l IH]; intros st; csimpl; [done|].
  rewrite foldM_app. destruct (foldM body st (g x)); csimpl; [apply IH|done].
Qed.

End LoopShapes.

Lemma pair_loop_ordered_pairs {A S : Type} (body : S -> A -> A -> result S)
    (l : list A) (st : S) :
  pair_loop body st l = foldM (fun s p => body s p.1 p.2) st (ordered_pairs l).
Proof.
  revert st. induction l as [|x l IH]; intros st; [done|].
  cbn [pair_loop ordered_pairs]. rewrite foldM_app, foldM_fmap.
  cbn [fst snd].
  destruct (foldM (fun s y => body s x y) st l); csimpl; [apply IH|done].
Qed.

Lemma foldM_ext {A B : Type} (body1 body2 : A -> B -> result A) (l : list B) (st : A) :
  (∀ s x, body1 s x = body2 s x) → foldM body1 st l = foldM body2 st l.
Proof.
  intros Hext. revert st. induction l as [|x l IH]; intros st; csimpl; [done|].
  rewrite Hext. destruct (body2 st x); csimpl; [apply IH|done].
Qed.

(** The nested loops of the smurfing check run the innermost body over
    [all_visits], in order. *)
Lemma check_smurfing_visits `{PyStr} (df : DataFrame) :
  _check_smurfing df =
  (st ← foldM smurfing_visit ([], ∅) (all_visits df); Ok st.1).
Proof.
  unfold _check_smurfing, all_visits. f_equal.
  rewrite foldM_bind. apply foldM_ext. intros st fname.
  unfold smurfing_employee, employee_visits. rewrite foldM_bind.
  apply foldM_ext. intros st' day.
  unfold smurfing_day, day_visits. rewrite pair_loop_ordered_pairs, foldM_fmap.
  done.
Qed.

Section ListFacts.
Context {A : Type}.

Lemma stable_insert_perm (leb : A -> A -> bool) x l :
  stable_insert leb x l ≡ₚ x :: l.
Proof.
  induction l as [|y l IH]; csimpl; [done|].
  destruct (leb x y); [done|]. rewrite IH. apply Permutation_swap.
Qed.

Lemma stable_sort_perm (leb : A -> A -> bool) l : stable_sort leb l ≡ₚ l.
Proof.
  induction l as [|x l IH]; csimpl; [done|].
  by rewrite stable_insert_perm, IH.
Qed.

Lemma elem_of_unique_from `{EqDecision A} (l seen : list A) x :
  x ∈ fold_left (fun seen x => if decide (x ∈ seen) then seen else seen ++ [x]) l seen
  ↔ x ∈ seen ∨ x ∈ l.
Proof.
  revert seen. induction l as [|y l IH]; intros seen; csimpl.
  - rewrite elem_of_nil. tauto.
  - rewrite IH, elem_of_cons. destruct (decide (y ∈ seen)) as [Hy|Hy].
    + split; [tauto|]. intros [?|[->|?]]; tauto.
    + rewrite elem_of_app, list_elem_of_singleton. tauto.
Qed.

Lemma elem_of_unique `{EqDecision A} (l : list A) x : x ∈ unique l ↔ x ∈ l.
Proof. unfold unique. rewrite elem_of_unique_from, elem_of_nil. tauto. Qed.

Lemma elem_of_ordered_pairs (l : list A) x y :
  (x, y) ∈ ordered_pairs l →
  ∃ l1 l2 l3, l = l1 ++ x :: l2 ++ y :: l3.
Proof.
  induction l as [|z l IH]; csimpl; [by intros ?%elem_of_nil|].
  intros [Hin|Hin]%elem_of_app.
  - apply list_elem_of_fmap in Hin as (y' & [= <- <-] & Hy).
    apply list_elem_of_split in Hy as (l2 & l3 & ->). by exists [], l2, l3.
  - destruct (IH Hin) as (l1 & l2 & l3 & ->). by exists (z :: l1), l2, l3.
Qed.

Lemma ordered_pairs_total (l : list A) x y :
  x ∈ l → y ∈ l → x ≠ y → (x, y) ∈ ordered_pairs l ∨ (y, x) ∈ ordered_pairs l.
Proof.
  induction l as [|z l IH]; [by intros ?%elem_of_nil|].
  intros Hx Hy Hne. csimpl. rewrite !elem_of_app, !list_elem_of_fmap.
  apply elem_of_cons in Hx as [->|Hx]; apply elem_of_cons in Hy as [->|Hy].
  - done.
  - left. left. by exists y.
  - right. left. by exists x.
  - destruct (IH Hx Hy Hne); tauto.
Qed.
End ListFacts.

Lemma NoDup_fst_filter {A B : Type} (P : A * B -> Prop) `{∀ x, Decision (P x)}
    (l : list (A * B)) :
  NoDup l.*1 → NoDup (filter P l).*1.
Proof.
  induction l as [|x l IH]; [done|]. csimpl.
  intros [Hnot Hnd]%NoDup_cons. rewrite filter_cons.
  destruct (decide (P x)); [|by apply IH]. csimpl. apply NoDup_cons.
  split; [|by apply IH]. intros Hin. apply Hnot.
  apply list_elem_of_fmap in Hin as (y & -> & [_ Hy]%list_elem_of_filter).
  apply list_elem_of_fmap. by exists y.
Qed.

Lemma NoDup_fst_split {A B : Type} (l1 l2 l3 : list (A * B)) x y :
  NoDup (l1 ++ x :: l2 ++ y :: l3).*1 → x.1 ≠ y.1.
Proof.
  rewrite fmap_app, fmap_cons, fmap_app, fmap_cons.
  intros (_ & _ & [Hnot _]%NoDup_cons)%NoDup_app Heq. apply Hnot.
  rewrite Heq. apply elem_of_app. right. by left.
Qed.

Lemma elem_of_iterrows (rs : list Row) (x : nat * Row) :
  x ∈ iterrows rs ↔ rs !! x.1 = Some x.2.
Proof.
  unfold iterrows. rewrite elem_of_lookup_imap. split.
  - by intros (i & row & -> & Hrow).
  - intros Hrow. exists x.1, x.2. by destruct x.
Qed.

Lemma NoDup_iterrows (rs : list Row) : NoDup (iterrows rs).*1.
Proof.
  unfold iterrows. rewrite fmap_imap.
  rewrite (imap_ext _ (fun i _ => i) rs) by done.
  rewrite (imap_seq_0 rs (fun i => i)), list_fmap_id. apply NoDup_seq.
Qed.

Lemma NoDup_sort_values (rs : list Row) : NoDup (sort_values (iterrows rs)).*1.
Proof.
  unfold sort_values. rewrite stable_sort_perm. apply NoDup_iterrows.
Qed.

Lemma elem_of_sort_values (rs : list Row) x :
  x ∈ sort_values (iterrows rs) ↔ x ∈ iterrows rs.
Proof. unfold sort_values. by rewrite stable_sort_perm. Qed.

(** Every visit is a pair of rows of the table with different index
    labels, both of the employee and the day of the visit. *)
Lemma all_visits_sound (df : DataFrame) (t : visit) :
  t ∈ all_visits df →
  t.1.2 ∈ iterrows (rows df) ∧ t.2 ∈ iterrows (rows df) ∧
  t.1.2.1 ≠ t.2.1 ∧
  funcionario t.1.2.2 = t.1.1.1 ∧ funcionario t.2.2 = t.1.1.1 ∧
  data t.1.2.2 = t.1.1.2 ∧ data t.2.2 = t.1.1.2.
Proof.
  unfold all_visits. intros (fname & Ht & _)%list_elem_of_bind.
  unfold employee_visits in Ht. apply list_elem_of_bind in Ht as (day & Ht & _).
  unfold day_visits in Ht. apply list_elem_of_fmap in Ht as ([x y] & -> & Hxy).
  cbn [fst snd].
  pose proof (elem_of_ordered_pairs _ _ _ Hxy) as (l1 & l2 & l3 & Hsplit).
  assert (Hnd : NoDup (l1 ++ x :: l2 ++ y :: l3).*1).
  { rewrite <- Hsplit. do 2 apply NoDup_fst_filter. apply NoDup_sort_values. }
  assert (Hx : x ∈ l1 ++ x :: l2 ++ y :: l3) by (apply elem_of_app; right; by left).
  assert (Hy : y ∈ l1 ++ x :: l2 ++ y :: l3).
  { apply elem_of_app. right. right. apply elem_of_app. right. by left. }
  rewrite <- Hsplit in Hx, Hy.
  apply list_elem_of_filter in Hx as [Hxd [Hxf Hx%elem_of_sort_values]%list_elem_of_filter].
  apply list_elem_of_filter in Hy as [Hyd [Hyf Hy%elem_of_sort_values]%list_elem_of_filter].
  repeat split; try done. by eapply NoDup_fst_split.
Qed.

(** Two rows of one employee and one day with different index labels are
    visited, in one order or the other. *)
Lemma all_visits_complete (df : DataFrame) (x y : nat * Row) :
  x ∈ iterrows (rows df) → y ∈ iterrows (rows df) → x.1 ≠ y.1 →
  funcionario x.2 = funcionario y.2 → data x.2 = data y.2 →
  (funcionario x.2, data x.2, x, y) ∈ all_visits df ∨
  (funcionario x.2, data x.2, y, x) ∈ all_visits df.
Proof.
  intros Hx Hy Hne Hf Hd.
  set (fname := funcionario x.2). set (day := data x.2).
  set (func_df := filter (fun z => funcionario z.2 = fname)
                    (sort_values (iterrows (rows df)))).
  set (day_df := filter (fun z : nat * Row => data z.2 = day) func_df).
  assert (Hxf : x ∈ func_df).
  { apply list_elem_of_filter. split; [done|]. by apply elem_of_sort_values. }
  assert (Hyf : y ∈ func_df).
  { apply list_elem_of_filter. split; [by rewrite <- Hf|]. by apply elem_of_sort_values. }
  assert (Hxd : x ∈ day_df) by (by apply list_elem_of_filter).
  assert (Hyd : y ∈ day_df) by (apply list_elem_of_filter; by rewrite <- Hd).
  assert (Hfname : fname ∈ unique (funcionario <$> rows df)).
  { apply elem_of_unique, list_elem_of_fmap. exists x.2. split; [done|].
    apply elem_of_iterrows in Hx. by eapply list_elem_of_lookup_2. }
  assert (Hday : day ∈ unique ((fun z : nat * Row => data z.2) <$> func_df)).
  { apply elem_of_unique, list_elem_of_fmap. by exists x. }
  assert (Hxy : x ≠ y) by (by intros ->).
  destruct (ordered_pairs_total day_df x y Hxd Hyd Hxy) as [Hp|Hp]; [left|right].
  all: unfold all_visits; apply list_elem_of_bind; exists fname; split; [|done].
  all: unfold employee_visits; apply list_elem_of_bind; exists day; split; [|done].
  all: unfold day_visits; apply list_elem_of_fmap.
  - by exists (x, y).
  - by exists (y, x).
Qed.

#[local] Set Warnings "-clear-no-such-hyp".

Section SmurfingRun.
Context `{PyStr}.

Lemma smurfing_visit_described st t :
  is_Some (descricao t.1.2.2) → is_Some (descricao t.2.2) →
  smurfing_visit st t = Ok (smurf_next st t).
Proof.
  intros [d1 Hd1] [d2 Hd2].
  unfold smurfing_visit, smurfing_body, smurf_next, visit_emits, visit_key.
  cbv zeta. destruct (decide (_ ∈ st.2)); [done|].
  unfold descricao_lower. rewrite Hd1, Hd2. cbn [mbind result_bind].
  destruct (bool_decide _ || bool_decide _); [done|].
  destruct (Qgtb _ 0.6 && _ && _); [|done].
  by destruct (Qgtb _ 500).
Qed.

Lemma smurfing_visit_Ok st t st' :
  smurfing_visit st t = Ok st' → st' = smurf_next st t.
Proof.
  destruct (decide (visit_key t ∈ st.2)) as [Hkey|Hkey].
  - unfold smurfing_visit, smurfing_body, smurf_next. cbv zeta.
    fold (visit_key t). rewrite !decide_True by done. congruence.
  - destruct (descricao t.1.2.2) as [d1|] eqn:Hd1.
    + destruct (descricao t.2.2) as [d2|] eqn:Hd2.
      * rewrite smurfing_visit_described by (by eexists). congruence.
      * unfold smurfing_visit, smurfing_body. cbv zeta. fold (visit_key t).
        rewrite decide_False by done. unfold descricao_lower.
        rewrite Hd1, Hd2. done.
    + unfold smurfing_visit, smurfing_body. cbv zeta. fold (visit_key t).
      rewrite decide_False by done. unfold descricao_lower. rewrite Hd1. done.
Qed.

Lemma smurfing_run_Ok ts st st' :
  foldM smurfing_visit st ts = Ok st' → st' = fold_left smurf_next ts st.
Proof.
  revert st. induction ts as [|t ts IH]; intros st; csimpl; [congruence|].
  destruct (smurfing_visit st t) as [st1|] eqn:Hstep; csimpl; [|done].
  apply smurfing_visit_Ok in Hstep as ->. apply IH.
Qed.

Lemma smurfing_run_described ts st :
  Forall (fun t : visit => is_Some (descricao t.1.2.2) ∧ is_Some (descricao t.2.2)) ts →
  foldM smurfing_visit st ts = Ok (fold_left smurf_next ts st).
Proof.
  intros Hts. revert st. induction Hts as [|t ts [Hd1 Hd2] _ IH]; intros st; [done|].
  csimpl. rewrite smurfing_visit_described by done. csimpl. apply IH.
Qed.

Lemma visit_emits_key t v :
  visit_emits t = Some v → violation_pair_key v = Some (visit_key t).
Proof.
  unfold visit_emits. cbv zeta.
  destruct (descricao t.1.2.2); [|done]. destruct (descricao t.2.2); [|done].
  destruct (bool_decide _ || bool_decide _); [done|].
  destruct (Qgtb _ 0.6 && _ && _); [|done].
  destruct (Qgtb _ 500); [|done]. by intros [= <-].
Qed.

Lemma smurf_next_cases st t :
  (visit_key t ∈ st.2 ∧ smurf_next st t = st) ∨
  ((visit_key t ∉ st.2) ∧
   (∃ v, visit_emits t = Some v ∧
         smurf_next st t = (st.1 ++ [v], {[ visit_key t ]} ∪ st.2))) ∨
  ((visit_key t ∉ st.2) ∧ visit_emits t = None ∧ smurf_next st t = st).
Proof.
  unfold smurf_next. destruct (decide (visit_key t ∈ st.2)); [by left|].
  right. destruct (visit_emits t) as [v|]; [left|right]; [|done].
  split; [done|]. by exists v.
Qed.

(** What the loops have done once they have run over the visits [ts]
    from the state [st]. *)
Lemma smurfing_run_spec ts st :
  ∃ new,
    (fold_left smurf_next ts st).1 = st.1 ++ new ∧
    (fold_left smurf_next ts st).2 =
      list_to_set (omap violation_pair_key new) ∪ st.2 ∧
    NoDup (violation_pair_key <$> new) ∧
    (∀ v, v ∈ new → ∃ t, t ∈ ts ∧ visit_emits t = Some v ∧ visit_key t ∉ st.2) ∧
    (∀ t, t ∈ ts → is_Some (visit_emits t) →
          visit_key t ∈ (fold_left smurf_next ts st).2).
Proof.
  revert st. induction ts as [|t ts IH]; intros st.
  - exists []. csimpl. rewrite app_nil_r.
    split; [done|]. split; [set_solver|]. split; [constructor|].
    split; [by intros v ?%elem_of_nil|by intros t ?%elem_of_nil].
  - cbn [fold_left].
    destruct (IH (smurf_next st t)) as (new & Hvs & Hkeys & Hnd & Hfrom & Hseen).
    destruct (smurf_next_cases st t)
      as [[Hkey Hnext]|[(Hkey & v & Hemit & Hnext)|(Hkey & Hemit & Hnext)]].
    + rewrite Hnext in *. exists new.
      split; [done|]. split; [done|]. split; [done|]. split.
      * intros v Hv. destruct (Hfrom v Hv) as (t' & Ht' & Hv' & Hk').
        exists t'. split; [by right|done].
      * intros t' [->|Ht']%elem_of_cons Hsome; [|by apply Hseen].
        rewrite Hkeys. set_solver.
    + pose proof (visit_emits_key _ _ Hemit) as Hvk.
      rewrite Hnext in *. cbn [fst snd] in *. exists (v :: new).
      split; [by rewrite Hvs, <- app_assoc|]. split; [|split; [|split]].
      * rewrite Hkeys. csimpl. rewrite Hvk. csimpl. set_solver.
      * csimpl. apply NoDup_cons. split; [|done].
        intros (v' & Hv' & Hin)%list_elem_of_fmap.
        destruct (Hfrom v' Hin) as (t' & _ & Hemit' & Hk').
        apply visit_emits_key in Hemit'.
        rewrite Hvk, Hemit' in Hv'. injection Hv' as Hv'.
        apply Hk'. rewrite <- Hv'. set_solver.
      * intros v' [->|Hv']%elem_of_cons.
        -- exists t. split; [by left|done].
        -- destruct (Hfrom v' Hv') as (t' & Ht' & Hemit' & Hk').
           exists t'. split; [by right|]. split; [done|]. set_solver.
      * intros t' [->|Ht']%elem_of_cons Hsome; [|by apply Hseen].
        rewrite Hkeys. set_solver.
    + rewrite Hnext in *. exists new.
      split; [done|]. split; [done|]. split; [done|]. split.
      * intros v Hv. destruct (Hfrom v Hv) as (t' & Ht' & Hv' & Hk').
        exists t'. split; [by right|done].
      * intros t' [->|Ht']%elem_of_cons Hsome; [|by apply Hseen].
        rewrite Hemit in Hsome. by destruct Hsome.
Qed.

Lemma visit_emits_Some t v :
  visit_emits t = Some v →
  ∃ d1 d2,
    descricao t.1.2.2 = Some d1 ∧ descricao t.2.2 = Some d2 ∧
    word_set (py_lower d1) ≠ ∅ ∧ word_set (py_lower d2) ≠ ∅ ∧
    (0.6 < similarity_of (word_set (py_lower d1)) (word_set (py_lower d2)))%Q ∧
    (300 <= valor t.1.2.2)%Q ∧ (valor t.1.2.2 <= 500)%Q ∧
    (300 <= valor t.2.2)%Q ∧ (valor t.2.2 <= 500)%Q ∧
    (500 < valor t.1.2.2 + valor t.2.2)%Q ∧
    v = smurfing_violation t.1.1.1 t.1.1.2 t.1.2.2 t.2.2
          (similarity_of (word_set (py_lower d1)) (word_set (py_lower d2)))
          (valor t.1.2.2 + valor t.2.2).
Proof.
  unfold visit_emits. cbv zeta.
  destruct (descricao t.1.2.2) as [d1|]; [|done].
  destruct (descricao t.2.2) as [d2|]; [|done].
  destruct (bool_decide (word_set (py_lower d1) = ∅)) eqn:Hw1; [done|].
  destruct (bool_decide (word_set (py_lower d2) = ∅)) eqn:Hw2; [done|].
  cbn [orb]. apply bool_decide_eq_false in Hw1, Hw2.
  destruct (Qgtb _ 0.6) eqn:Hsim; [|done].
  destruct (Qle_bool 300 (valor t.1.2.2)) eqn:Hlo1; [|done].
  destruct (Qle_bool (valor t.1.2.2) 500) eqn:Hhi1; [|done].
  destruct (Qle_bool 300 (valor t.2.2)) eqn:Hlo2; [|done].
  destruct (Qle_bool (valor t.2.2) 500) eqn:Hhi2; [|done].
  cbn [andb]. destruct (Qgtb _ 500) eqn:Htotal; [|done].
  intros [= <-]. exists d1, d2.
  apply Qgtb_lt in Hsim, Htotal.
  apply Qle_bool_iff in Hlo1, Hhi1, Hlo2, Hhi2.
  by repeat split.
Qed.

Lemma spec_jaccard_similarity (w1 w2 : gset string) :
  w1 ≠ ∅ → w2 ≠ ∅ → spec_jaccard w1 w2 = similarity_of w1 w2.
Proof.
  intros Hw1 Hw2. unfold spec_jaccard.
  rewrite bool_decide_eq_false_2; [done|]. by intros [?|?].
Qed.

(** The test of the code and the condition of the specification agree
    on two rows whose descriptions are text. *)
Lemma visit_emits_spec t :
  is_Some (descricao t.1.2.2) → is_Some (descricao t.2.2) →
  is_Some (visit_emits t) ↔ spec_smurfing t.1.2.2 t.2.2.
Proof.
  intros [d1 Hd1] [d2 Hd2]. unfold spec_smurfing, spec_words.
  rewrite Hd1, Hd2. fold (word_set (py_lower d1)). fold (word_set (py_lower d2)).
  split.
  - intros [v Hv]. apply visit_emits_Some in Hv
      as (d1' & d2' & Hd1' & Hd2' & Hw1 & Hw2 & Hsim & Hlo1 & Hhi1 & Hlo2 & Hhi2 & Htot & _).
    rewrite Hd1 in Hd1'. rewrite Hd2 in Hd2'.
    injection Hd1' as <-. injection Hd2' as <-.
    rewrite spec_jaccard_similarity by done. by repeat split.
  - intros (Hsim & Hlo1 & Hhi1 & Hlo2 & Hhi2 & Htot).
    unfold visit_emits. cbv zeta. rewrite Hd1, Hd2.
    unfold spec_jaccard in Hsim.
    destruct (bool_decide (word_set (py_lower d1) = ∅)) eqn:Hw1.
    { rewrite bool_decide_eq_true_2 in Hsim; [by vm_compute in Hsim|].
      left. by apply bool_decide_eq_true in Hw1. }
    destruct (bool_decide (word_set (py_lower d2) = ∅)) eqn:Hw2.
    { rewrite bool_decide_eq_true_2 in Hsim; [by vm_compute in Hsim|].
      right. by apply bool_decide_eq_true in Hw2. }
    apply bool_decide_eq_false in Hw1, Hw2.
    rewrite bool_decide_eq_false_2 in Hsim by (by intros [?|?]).
    cbn [orb]. fold (similarity_of (word_set (py_lower d1)) (word_set (py_lower d2))) in Hsim.
    apply Qgtb_lt in Hsim, Htot.
    apply Qle_bool_iff in Hlo1, Hhi1, Hlo2, Hhi2.
    rewrite Hsim, Hlo1, Hhi1, Hlo2, Hhi2. cbn [andb]. rewrite Htot. by eexists.
Qed.

Lemma spec_smurfing_sym (a b : Row) : spec_smurfing a b → spec_smurfing b a.
Proof.
  unfold spec_smurfing, spec_jaccard.
  intros (Hsim & Hlo1 & Hhi1 & Hlo2 & Hhi2 & Htot).
  repeat split; try done.
  - rewrite (comm_L (∩) (spec_words b)), (comm_L (∪) (spec_words b)).
    destruct (bool_decide (spec_words a = ∅ ∨ spec_words b = ∅)) eqn:Hempty.
    + by vm_compute in Hsim.
    + rewrite bool_decide_eq_false_2; [done|].
      apply bool_decide_eq_false in Hempty. tauto.
  - by rewrite Qplus_comm.
Qed.
End SmurfingRun.

Lemma sorted_pair_inv (a b c d : string) :
  sorted_pair a b = sorted_pair c d → (a = c ∧ b = d) ∨ (a = d ∧ b = c).
Proof.
  unfold sorted_pair. destruct (String.ltb b a), (String.ltb d c);
    intros [= -> ->]; tauto.
Qed.

(** The key of a pair does not depend on the order of its two ids. *)
Lemma sorted_pair_comm (a b : string) : sorted_pair a b = sorted_pair b a.
Proof.
  unfold sorted_pair, String.ltb. rewrite (String.compare_antisym a b).
  destruct (String.compare b a) eqn:Hcmp; cbn [CompOpp]; try done.
  by apply String.compare_eq_iff in Hcmp as ->.
Qed.

Lemma NoDup_fmap_eq {A B : Type} (f : A -> B) (l : list A) x y :
  NoDup (f <$> l) → x ∈ l → y ∈ l → f x = f y → x = y.
Proof.
  induction l as [|z l IH]; [by intros _ ?%elem_of_nil|]. csimpl.
  intros [Hnot Hnd]%NoDup_cons [->|Hx]%elem_of_cons [->|Hy]%elem_of_cons Heq.
  - done.
  - exfalso. apply Hnot. rewrite Heq. by apply list_elem_of_fmap_2.
  - exfalso. apply Hnot. rewrite <- Heq. by apply list_elem_of_fmap_2.
  - by apply IH.
Qed.

(** The smurfing check on a run that does not raise. *)
Lemma check_smurfing_Ok `{PyStr} (df : DataFrame) (violations : list Violation) :
  _check_smurfing df = Ok violations →
  NoDup (violation_pair_key <$> violations) ∧
  (∀ v, v ∈ violations → ∃ t, t ∈ all_visits df ∧ visit_emits t = Some v) ∧
  (∀ t, t ∈ all_visits df → is_Some (visit_emits t) →
        ∃ v, v ∈ violations ∧ violation_pair_key v = Some (visit_key t)).
Proof.
  rewrite check_smurfing_visits.
  destruct (foldM smurfing_visit ([], ∅) (all_visits df)) as [st|] eqn:Hrun; [|done].
  csimpl. intros [= <-]. apply smurfing_run_Ok in Hrun as ->.
  destruct (smurfing_run_spec (all_visits df) ([], ∅))
    as (new & Hvs & Hkeys & Hnd & Hfrom & Hseen).
  csimpl in Hvs. rewrite Hvs. split; [done|]. split.
  - intros v Hv. destruct (Hfrom v Hv) as (t & Ht & Hemit & _). by exists t.
  - intros t Ht Hsome. specialize (Hseen t Ht Hsome). rewrite Hkeys in Hseen.
    apply elem_of_union in Hseen as [Hseen|Hseen]; [|by apply elem_of_empty in Hseen].
    apply elem_of_list_to_set, list_elem_of_omap in Hseen as (v & Hv & Hvk).
    by exists v.
Qed.


Lemma sorted_pair_swap (a b : string) : sorted_pair a b = sorted_pair b a.
Proof.
  unfold sorted_pair. unfold String.ltb.
  rewrite (String.compare_antisym a b).
  destruct (String.compare b a) eqn:Hc; cbn; try done.
  apply String.compare_eq_iff in Hc. by subst.
Qed.

Lemma refers_to_pair_key (v : Violation) (a b : string) :
  refers_to_pair v a b → violation_pair_key v = Some (sorted_pair a b).
Proof.
  unfold refers_to_pair, violation_pair_key.
  destruct (transaction v) as [row|p]; [done|].
  intros [[-> ->]|[-> ->]]; [done|]. by rewrite sorted_pair_swap.
Qed.

(** C2. On a table whose descriptions are all text the smurfing check
    returns normally, and every violation it returns is a SMURFING record
    of severity 10 about a pair of ids.  No unordered pair of ids is
    reported twice: two violations that refer to the same two ids, in
    either order, are one and the same entry of the list.  A pair of ids is
    reported if and only if the table has two distinct rows of the same
    employee and the same date that bear these ids and whose descriptions
    have a Jaccard similarity (of the case-folded whitespace-tokenized word
    sets, 0 when either set is empty) strictly above 0.6, whose amounts
    both lie in [300, 500] and sum to strictly more than 500.  Where the id
    identifies the transaction (rows with the same id are the same record,
    which may be repeated in the table), this reads: for every two
    distinct rows of the same employee and the same date, a SMURFING
    violation of severity 10 for their unordered pair of ids has been
    emitted if and only if the two rows meet these conditions. *)
Theorem smurfing_flags_exactly_structured_pairs `{PyStr} (df : DataFrame) :
  Forall (fun row => is_Some (descricao row)) (rows df) →
  ∃ violations,
    _check_smurfing df = Ok violations ∧
    Forall (fun v => violation_type v = "SMURFING" ∧ severity v = 10%Z ∧
                     is_Some (violation_pair_key v)) violations ∧
    (∀ m n v w a b,
       violations !! m = Some v → violations !! n = Some w →
       refers_to_pair v a b → refers_to_pair w a b → m = n) ∧
    (∀ a b,
       (∃ v, v ∈ violations ∧ refers_to_pair v a b)
       ↔ ∃ i j row1 row2,
           rows df !! i = Some row1 ∧ rows df !! j = Some row2 ∧ i ≠ j ∧
           funcionario row1 = funcionario row2 ∧ data row1 = data row2 ∧
           id_transacao row1 = a ∧ id_transacao row2 = b ∧
           spec_smurfing row1 row2) ∧
    ((∀ i j row1 row2,
        rows df !! i = Some row1 → rows df !! j = Some row2 →
        id_transacao row1 = id_transacao row2 → row1 = row2) →
     ∀ i j row1 row2,
       rows df !! i = Some row1 → rows df !! j = Some row2 → i ≠ j →
       funcionario row1 = funcionario row2 → data row1 = data row2 →
       (∃ v, v ∈ violations ∧ violation_type v = "SMURFING" ∧ severity v = 10%Z ∧
             refers_to_pair v (id_transacao row1) (id_transacao row2))
       ↔ spec_smurfing row1 row2).
Proof.
  intros Htext.
  assert (Hrow_text : ∀ x, x ∈ iterrows (rows df) → is_Some (descricao x.2)).
  { intros x Hx%elem_of_iterrows. eapply Forall_forall in Htext; [done|].
    by eapply list_elem_of_lookup_2. }
  assert (Hvisits : Forall (fun t : visit =>
            is_Some (descricao t.1.2.2) ∧ is_Some (descricao t.2.2)) (all_visits df)).
  { apply Forall_forall. intros t (Hx & Hy & _)%all_visits_sound. by split; apply Hrow_text. }
  pose proof (smurfing_run_described (all_visits df) ([], ∅) Hvisits) as Hrun.
  set (st := fold_left smurf_next (all_visits df) ([], ∅)) in Hrun.
  assert (Hcheck : _check_smurfing df = Ok st.1)
    by (by rewrite check_smurfing_visits, Hrun).
  destruct (check_smurfing_Ok df st.1 Hcheck) as (Hnd & Hfrom & Hseen).
  assert (Hrecord : ∀ v, v ∈ st.1 →
            violation_type v = "SMURFING" ∧ severity v = 10%Z ∧
            is_Some (violation_pair_key v)).
  { intros v Hv. destruct (Hfrom v Hv) as (t & _ & Hemit).
    pose proof (visit_emits_key t v Hemit) as Hkey.
    apply visit_emits_Some in Hemit
      as (d1 & d2 & _ & _ & _ & _ & _ & _ & _ & _ & _ & _ & ->).
    split; [done|]. split; [done|]. by eexists. }
  assert (Hpairs : ∀ a b,
    (∃ v, v ∈ st.1 ∧ refers_to_pair v a b)
    ↔ ∃ i j row1 row2,
        rows df !! i = Some row1 ∧ rows df !! j = Some row2 ∧ i ≠ j ∧
        funcionario row1 = funcionario row2 ∧ data row1 = data row2 ∧
        id_transacao row1 = a ∧ id_transacao row2 = b ∧
        spec_smurfing row1 row2).
  { intros a b. split.
    - intros (v & Hv & Hrefers).
      destruct (Hfrom v Hv) as (t & Ht & Hemit).
      destruct (all_visits_sound df t Ht) as (Hx & Hy & Hne & Hf1 & Hf2 & Hd1 & Hd2).
      assert (Hspec : spec_smurfing t.1.2.2 t.2.2).
      { apply visit_emits_spec; [by apply Hrow_text..|by eexists]. }
      apply visit_emits_Some in Hemit
        as (d1 & d2 & _ & _ & _ & _ & _ & _ & _ & _ & _ & _ & ->).
      apply elem_of_iterrows in Hx, Hy.
      cbn in Hrefers. destruct Hrefers as [[H1 H2]|[H1 H2]].
      + exists t.1.2.1, t.2.1, t.1.2.2, t.2.2.
        split; [done|]. split; [done|]. split; [done|].
        split; [congruence|]. split; [congruence|].
        split; [exact H1|]. split; [exact H2|exact Hspec].
      + exists t.2.1, t.1.2.1, t.2.2, t.1.2.2.
        split; [done|]. split; [done|]. split; [done|].
        split; [congruence|]. split; [congruence|].
        split; [exact H2|]. split; [exact H1|]. by apply spec_smurfing_sym.
    - intros (i & j & row1 & row2 & H1 & H2 & Hij & Hf & Hd & <- & <- & Hspec).
      assert (Hx : (i, row1) ∈ iterrows (rows df)) by (by apply elem_of_iterrows).
      assert (Hy : (j, row2) ∈ iterrows (rows df)) by (by apply elem_of_iterrows).
      destruct (all_visits_complete df (i, row1) (j, row2) Hx Hy Hij Hf Hd) as [Ht|Ht];
        cbn [fst snd] in Ht.
      + destruct (Hseen _ Ht) as (v & Hv & Hvk).
        { apply visit_emits_spec; cbn [fst snd]; [by apply (Hrow_text (i, row1))|
            by apply (Hrow_text (j, row2))|done]. }
        destruct (Hfrom v Hv) as (t' & _ & Hemit).
        apply visit_emits_Some in Hemit
          as (d1 & d2 & _ & _ & _ & _ & _ & _ & _ & _ & _ & _ & ->).
        eexists. split; [exact Hv|].
        cbn in Hvk |- *. injection Hvk as Hvk. apply sorted_pair_inv in Hvk. tauto.
      + destruct (Hseen _ Ht) as (v & Hv & Hvk).
        { apply visit_emits_spec; cbn [fst snd]; [by apply (Hrow_text (j, row2))|
            by apply (Hrow_text (i, row1))|by apply spec_smurfing_sym]. }
        destruct (Hfrom v Hv) as (t' & _ & Hemit).
        apply visit_emits_Some in Hemit
          as (d1 & d2 & _ & _ & _ & _ & _ & _ & _ & _ & _ & _ & ->).
        eexists. split; [exact Hv|].
        cbn in Hvk |- *. injection Hvk as Hvk. apply sorted_pair_inv in Hvk. tauto. }
  exists st.1. split; [done|]. split; [by apply Forall_forall|]. split; [|split; [done|]].
  - intros m n v w a b Hm Hn Hv Hw.
    apply refers_to_pair_key in Hv, Hw.
    apply (NoDup_lookup _ m n (violation_pair_key v) Hnd);
      rewrite list_lookup_fmap; [by rewrite Hm|rewrite Hn; cbn; congruence].
  - intros Hident i j row1 row2 H1 H2 Hij Hf Hd. split.
    + intros (v & Hv & _ & _ & Hrefers).
      destruct (proj1 (Hpairs _ _) (ex_intro _ v (conj Hv Hrefers)))
        as (i' & j' & r1 & r2 & Hr1 & Hr2 & _ & _ & _ & Hid1 & Hid2 & Hspec).
      by rewrite <- (Hident _ _ _ _ Hr1 H1 Hid1), <- (Hident _ _ _ _ Hr2 H2 Hid2).
    + intros Hspec.
      destruct (proj2 (Hpairs (id_transacao row1) (id_transacao row2))) as (v & Hv & Hrefers).
      { exists i, j, row1, row2. do 7 (split; [done|]). exact Hspec. }
      exists v. destruct (Hrecord v Hv) as (Htype & Hsev & _).
      split; [exact Hv|]. split; [exact Htype|]. split; [exact Hsev|exact Hrefers].
Qed.

Lemma smurfing_flags_exactly_structured_pairs_witness :
  Forall (fun row => is_Some (descricao row)) (rows Sample.duplicated_table) ∧
  ∃ violations,
    _check_smurfing (H := Sample.py_str) Sample.duplicated_table = Ok violations ∧
    violation_pair_key <$> violations = [ Some ("TX1", "TX2"); Some ("TX1", "TX1") ] ∧
    (∀ m n v w a b,
       violations !! m = Some v → violations !! n = Some w →
       refers_to_pair v a b → refers_to_pair w a b → m = n) ∧
    (∀ i j row1 row2,
       rows Sample.duplicated_table !! i = Some row1 →
       rows Sample.duplicated_table !! j = Some row2 → i ≠ j →
       funcionario row1 = funcionario row2 → data row1 = data row2 →
       (∃ v, v ∈ violations ∧ violation_type v = "SMURFING" ∧ severity v = 10%Z ∧
             refers_to_pair v (id_transacao row1) (id_transacao row2))
       ↔ spec_smurfing (H := Sample.py_str) row1 row2).
Proof.
  assert (Htext : Forall (fun row => is_Some (descricao row)) (rows Sample.duplicated_table))
    by (repeat constructor; by eexists).
  split; [exact Htext|].
  destruct (smurfing_flags_exactly_structured_pairs (H := Sample.py_str)
              Sample.duplicated_table Htext)
    as (violations & Hrun & _ & Honce & _ & Hrows).
  exists violations. split; [exact Hrun|]. split; [|split; [exact Honce|]].
  - vm_compute in Hrun. injection Hrun as <-. reflexivity.
  - apply Hrows. intros i j row1 row2 H1 H2 Hid.
    destruct i as [|[|[|i]]]; cbn in H1; [injection H1 as <-..|done];
      (destruct j as [|[|[|j]]]; cbn in H2; [injection H2 as <-..|done]);
      first [reflexivity|discriminate Hid].
Defined.

(** C10. Every violation the smurfing check returns is a SMURFING
    record of severity 10 about two rows of the table with different index
    labels; the employee and the date of the record are those of both
    rows, its two ids and two amounts are the rows' ids and amounts, its
    total is the sum of the two recorded amounts, and the total is
    strictly above 500. *)
Theorem smurfing_records_consistent `{PyStr} (df : DataFrame)
    (violations : list Violation) :
  _check_smurfing df = Ok violations →
  Forall (fun v => ∃ p i j row1 row2,
            transaction v = TxPair p ∧
            violation_type v = "SMURFING" ∧ severity v = 10%Z ∧
            rows df !! i = Some row1 ∧ rows df !! j = Some row2 ∧ i ≠ j ∧
            id_1 p = id_transacao row1 ∧ id_2 p = id_transacao row2 ∧
            funcionario row1 = pair_funcionario p ∧
            funcionario row2 = pair_funcionario p ∧
            data row1 = pair_data p ∧ data row2 = pair_data p ∧
            valor_1 p = valor row1 ∧ valor_2 p = valor row2 ∧
            valor_total p = (valor_1 p + valor_2 p)%Q ∧
            (500 < valor_total p)%Q)
    violations.
Proof.
  intros Hcheck. destruct (check_smurfing_Ok df violations Hcheck) as (_ & Hfrom & _).
  apply Forall_forall. intros v Hv. destruct (Hfrom v Hv) as (t & Ht & Hemit).
  destruct (all_visits_sound df t Ht) as (Hx & Hy & Hne & Hf1 & Hf2 & Hd1 & Hd2).
  apply elem_of_iterrows in Hx, Hy.
  apply visit_emits_Some in Hemit
    as (d1 & d2 & _ & _ & _ & _ & _ & _ & _ & _ & _ & Htotal & ->).
  eexists _, t.1.2.1, t.2.1, t.1.2.2, t.2.2.
  split; [reflexivity|]. cbn. by repeat split.
Qed.

Lemma smurfing_records_consistent_witness :
  ∃ violations,
    _check_smurfing (H := Sample.py_str) Sample.structuring_table = Ok violations ∧
    length violations = 1 ∧
    Forall (fun v => ∃ p, transaction v = TxPair p ∧
                          valor_total p = (valor_1 p + valor_2 p)%Q ∧
                          (500 < valor_total p)%Q) violations.
Proof.
  destruct (_check_smurfing (H := Sample.py_str) Sample.structuring_table)
    as [violations|e] eqn:Hrun; [|by vm_compute in Hrun].
  exists violations. split; [done|]. split.
  - vm_compute in Hrun. by injection Hrun as <-.
  - eapply Forall_impl;
      [exact (smurfing_records_consistent (H := Sample.py_str) _ _ Hrun)|].
    intros v (p & i & j & row1 & row2 & Hp & _ & _ & _ & _ & _ & _ & _ & _ & _ & _
                & _ & _ & _ & Hsum & Htotal).
    exists p. split; [exact Hp|]. split; [exact Hsum|exact Htotal].
Defined.

(** ** The identity key of a pair *)

(** C1. Three similar purchases of one employee on one day make three
    smurfing violations, one for each unordered pair of ids, and the
    smurfing rule itself tells them apart by their sorted id pairs.  The
    deduplicator files a pair under its first id alone: the pairs
    (TX1, TX2) and (TX1, TX3) share the key TX1, so the second is discarded
    and the analysis reports two violations where the identity key of the
    specification, the sorted pair, keeps three.  The key also depends on
    the order of the two ids. *)
Theorem deduplication_merges_pairs_sharing_first_id :
  ∃ df smurfing result,
    load_transactions (H := Sample.pandas) (Sample.disk Sample.triple_file)
      Sample.transactions_path = Ok df ∧
    _check_smurfing (H := Sample.py_str) df = Ok smurfing ∧
    violation_pair_key <$> smurfing =
      [ Some ("TX1", "TX2"); Some ("TX1", "TX3"); Some ("TX2", "TX3") ] ∧
    analyze_transactions (H := Sample.py_str) (H0 := Sample.pandas)
      (Sample.disk Sample.triple_file) Sample.transactions_path = Ok result ∧
    violation_pair_key <$> fraudulent_transactions result =
      [ Some ("TX1", "TX2"); Some ("TX2", "TX3") ] ∧
    tx_id ∘ transaction <$> smurfing = [ "TX1"; "TX1"; "TX2" ] ∧
    (∀ p q : SmurfPair,
       id_1 p = "TX1" → id_2 p = "TX2" → id_1 q = "TX2" → id_2 q = "TX1" →
       sorted_pair (id_1 p) (id_2 p) = sorted_pair (id_1 q) (id_2 q) ∧
       tx_id (TxPair p) ≠ tx_id (TxPair q)).
Proof.
  destruct (load_transactions (H := Sample.pandas) (Sample.disk Sample.triple_file)
              Sample.transactions_path) as [df|] eqn:Hload; [|by vm_compute in Hload].
  destruct (_check_smurfing (H := Sample.py_str) df) as [smurfing|] eqn:Hsmurf;
    [|vm_compute in Hload; injection Hload as <-; by vm_compute in Hsmurf].
  destruct (analyze_transactions (H := Sample.py_str) (H0 := Sample.pandas)
              (Sample.disk Sample.triple_file) Sample.transactions_path)
    as [result|] eqn:Hrun; [|by vm_compute in Hrun].
  exists df, smurfing, result.
  vm_compute in Hload. injection Hload as <-.
  vm_compute in Hsmurf. injection Hsmurf as <-.
  vm_compute in Hrun. injection Hrun as <-.
  do 2 (split; [reflexivity|]). split; [reflexivity|].
  do 3 (split; [reflexivity|]).
  intros p q Hp1 Hp2 Hq1 Hq2. cbn. rewrite Hp1, Hp2, Hq1, Hq2. split; [reflexivity|done].
Qed.

(** ** Missing descriptions *)

(** C9. A file whose only row has an empty description cell loads: the
    loader drops rows only for an amount or a date that does not parse.
    On the loaded table the prohibited-item check raises [AttributeError],
    and so does the whole analysis; the smurfing check raises on a table
    with a pair of which one description is missing. *)
Theorem analysis_raises_on_missing_description :
  ∃ df msg,
    load_transactions (H := Sample.pandas) (Sample.disk Sample.blank_description_file)
      Sample.transactions_path = Ok df ∧
    length (rows df) = 1 ∧
    _check_prohibited_items (H := Sample.py_str) df = Raise (AttributeError msg) ∧
    _check_restricted_locations (H := Sample.py_str) df = Raise (AttributeError msg) ∧
    analyze_transactions (H := Sample.py_str) (H0 := Sample.pandas)
      (Sample.disk Sample.blank_description_file) Sample.transactions_path
      = Raise (AttributeError msg) ∧
    _check_smurfing (H := Sample.py_str) Sample.blank_description_pair
      = Raise (AttributeError msg).
Proof.
  eexists _, _. split; [vm_compute; reflexivity|].
  split; [reflexivity|]. split; [vm_compute; reflexivity|].
  split; [vm_compute; reflexivity|]. split; vm_compute; reflexivity.
Qed.

(** ** The transaction loader *)

(** The positions of the elements that [omap] keeps: increasing, exactly
    the positions where [f] gives a value, and in correspondence with the
    values kept. *)
Lemma omap_positions {A B : Type} (f : A -> option B) (l : list A) :
  ∃ kept : list nat,
    StronglySorted lt kept ∧
    (∀ k, k ∈ kept ↔ is_Some (l !! k ≫= f)) ∧
    Forall2 (fun k y => l !! k ≫= f = Some y) kept (omap f l).
Proof.
  induction l as [|x l (kept & Hsorted & Hmem & Hvals)].
  - exists []. split; [constructor|]. split; [|constructor].
    intros k. rewrite elem_of_nil. csimpl. split; [done|]. by intros [? ?].
  - assert (Hshift : StronglySorted lt (S <$> kept)).
    { clear -Hsorted. induction Hsorted as [|k kept _ IH Hall]; csimpl; constructor; [done|].
      apply Forall_fmap. eapply Forall_impl; [exact Hall|]. simpl. lia. }
    assert (Hshift_mem : ∀ k, k ∈ S <$> kept ↔ ∃ k', k = S k' ∧ is_Some (l !! k' ≫= f)).
    { intros k. rewrite list_elem_of_fmap. by setoid_rewrite Hmem. }
    assert (Hshift_vals : Forall2 (fun k y => (x :: l) !! k ≫= f = Some y)
                            (S <$> kept) (omap f l)).
    { apply Forall2_fmap_l. eapply Forall2_impl; [exact Hvals|]. done. }
    csimpl. destruct (f x) as [y|] eqn:Hfx.
    + exists (0 :: (S <$> kept)). split; [|split].
      * constructor; [done|]. apply Forall_fmap, Forall_forall. simpl. lia.
      * intros [|k]; rewrite elem_of_cons, Hshift_mem; csimpl.
        -- rewrite Hfx. split; [by eexists|by left].
        -- split; [intros [?|(k' & [= <-] & ?)]; done|]. intros ?. right. by exists k.
      * constructor; [csimpl; by rewrite Hfx|done].
    + exists (S <$> kept). split; [done|]. split; [|done].
      intros [|k]; rewrite Hshift_mem; csimpl.
      * rewrite Hfx. split; [by intros (? & ? & ?)|by intros [? ?]].
      * split; [by intros (k' & [= <-] & ?)|]. intros ?. by exists k.
Qed.

Lemma lookup_coerce_columns `{Pandas} (rs : list RawRow) k x :
  coerce_columns rs !! k = Some x ↔
  rs !! k = Some x.1 ∧
  to_numeric (raw_valor <$> rs) !! k = Some x.2.1 ∧
  to_datetime (raw_data <$> rs) !! k = Some x.2.2.
Proof.
  unfold coerce_columns. destruct x as [r [amount day]]. cbn [fst snd].
  rewrite lookup_zip_with_Some. split.
  - intros (r' & [a d] & [= <- <- <-] & Hr & Hcols).
    apply lookup_zip_with_Some in Hcols as (a' & d' & [= <- <-] & Ha & Hd). done.
  - intros (Hr & Ha & Hd). exists r, (amount, day). split; [done|]. split; [done|].
    apply lookup_zip_with_Some. by exists amount, day.
Qed.

(** C6. For a file that exists: when a required column is absent, the
    loader raises the schema error ([ValueError]) and so does the
    analysis, which does not proceed; when all five are present, it returns
    a table whose rows are the rows of the file at the positions [kept],
    listed in increasing order, where a position is kept exactly when both
    its amount and its date parse, and each row carries its parsed amount
    and date (never a default) and its other fields unchanged. *)
Theorem load_transactions_contract `{PyStr} `{Pandas}
    (fs : string -> option RawFrame) (path : string) (raw : RawFrame) :
  fs path = Some raw →
  ((∃ col, col ∈ required_columns ∧ col ∉ raw_columns raw) →
     ∃ msg, load_transactions fs path = Raise (ValueError msg) ∧
            analyze_transactions fs path = Raise (ValueError msg)) ∧
  ((∀ col, col ∈ required_columns → col ∈ raw_columns raw) →
     ∃ df kept,
       load_transactions fs path = Ok df ∧
       columns df = raw_columns raw ∧
       StronglySorted lt kept ∧
       (∀ k, k ∈ kept ↔
          ∃ amount day,
            to_numeric (raw_valor <$> raw_rows raw) !! k = Some (Some amount) ∧
            to_datetime (raw_data <$> raw_rows raw) !! k = Some (Some day)) ∧
       Forall2 (fun k row => ∃ r,
                  raw_rows raw !! k = Some r ∧
                  to_numeric (raw_valor <$> raw_rows raw) !! k = Some (Some (valor row)) ∧
                  to_datetime (raw_data <$> raw_rows raw) !! k = Some (Some (data row)) ∧
                  id_transacao row = raw_id_transacao r ∧
                  funcionario row = raw_funcionario r ∧
                  descricao row = raw_descricao r ∧
                  categoria row = raw_categoria r)
         kept (rows df)).
Proof.
  intros Hfile. split.
  - intros (col & Hreq & Hmissing).
    assert (Hload : ∃ msg, load_transactions fs path = Raise (ValueError msg)).
    { unfold load_transactions. rewrite Hfile.
      destruct (filter (fun c => c ∉ raw_columns raw) required_columns) as [|c cs] eqn:Hf.
      - exfalso. assert (Hin : col ∈ filter (fun c => c ∉ raw_columns raw) required_columns)
          by (by apply list_elem_of_filter).
        rewrite Hf in Hin. by apply elem_of_nil in Hin.
      - by eexists. }
    destruct Hload as [msg Hload]. exists msg. split; [done|].
    unfold analyze_transactions. by rewrite Hload.
  - intros Hall.
    assert (Hnone : filter (fun c => c ∉ raw_columns raw) required_columns = []).
    { apply elem_of_nil_inv. intros c [Hc Hreq]%list_elem_of_filter. by apply Hc, Hall. }
    destruct (omap_positions dropna_row (coerce_columns (raw_rows raw)))
      as (kept & Hsorted & Hmem & Hvals).
    exists {| columns := raw_columns raw;
              rows := omap dropna_row (coerce_columns (raw_rows raw)) |}, kept.
    split; [unfold load_transactions; by rewrite Hfile, Hnone|].
    split; [done|]. split; [done|]. split.
    + intros k. rewrite Hmem. split.
      * intros [row Hrow].
        destruct (coerce_columns (raw_rows raw) !! k) as [x|] eqn:Hx; [|done].
        apply lookup_coerce_columns in Hx as (_ & Ha & Hd). csimpl in Hrow.
        unfold dropna_row in Hrow.
        destruct x.2.1 as [amount|]; [|done]. destruct x.2.2 as [day|]; [|done].
        by exists amount, day.
      * intros (amount & day & Ha & Hd).
        assert (Hlen : k < length (raw_rows raw)).
        { apply lookup_lt_Some in Ha. by rewrite to_numeric_length, length_fmap in Ha. }
        apply lookup_lt_is_Some in Hlen as [r Hr].
        assert (Hx : coerce_columns (raw_rows raw) !! k = Some (r, (Some amount, Some day)))
          by (by apply lookup_coerce_columns).
        rewrite Hx. csimpl. by eexists.
    + eapply Forall2_impl; [exact Hvals|]. cbn beta. intros k row Hrow.
      destruct (coerce_columns (raw_rows raw) !! k) as [x|] eqn:Hx; [|done].
      apply lookup_coerce_columns in Hx as (Hr & Ha & Hd). csimpl in Hrow.
      unfold dropna_row in Hrow.
      destruct x.2.1 as [amount|]; [|done]. destruct x.2.2 as [day|]; [|done].
      injection Hrow as <-. by exists x.1.
Qed.

Lemma load_transactions_contract_witness :
  (∃ df, load_transactions (H := Sample.pandas) (Sample.disk Sample.audit_file)
           Sample.transactions_path = Ok df ∧
         id_transacao <$> rows df = [ "TX1"; "TX2"; "TX3" ]) ∧
  (∃ msg, analyze_transactions (H := Sample.py_str) (H0 := Sample.pandas)
            (Sample.disk Sample.headless_file) Sample.transactions_path
          = Raise (ValueError msg)).
Proof.
  split.
  - destruct (load_transactions_contract (H := Sample.py_str) (H0 := Sample.pandas)
                (Sample.disk Sample.audit_file) Sample.transactions_path
                Sample.audit_file eq_refl) as [_ Hpresent].
    destruct Hpresent as (df & kept & Hload & _).
    { intros col Hcol. cbn in Hcol |- *. set_solver. }
    exists df. split; [exact Hload|].
    vm_compute in Hload. injection Hload as <-. reflexivity.
  - destruct (load_transactions_contract (H := Sample.py_str) (H0 := Sample.pandas)
                (Sample.disk Sample.headless_file) Sample.transactions_path
                Sample.headless_file eq_refl) as [Habsent _].
    destruct Habsent as (msg & _ & Hrun).
    { exists "valor". cbn. split; set_solver. }
    by exists msg.
Defined.

(** ** The coordinated-fraud path *)

Section CoordinatedFraud.
Context `{PyStr} `{External} (llm : Llm).

(** The judgment of one email: no call when the prompts cannot be
    built, one call otherwise, and [None] for an answer that is missing
    or does not parse. *)
Lemma analyze_email_run (email : Email) (df : DataFrame) (n : nat) :
  _analyze_email_for_fraud_coordination llm email df n =
  match coordination_prompts email df with
  | Raise e => (Raise e, n)
  | Ok prompts =>
      (Ok (match llm n prompts.1 prompts.2 with
           | Ok (Some response) =>
               match json_loads (clean_response response) with
               | Ok analysis => analysis
               | Raise _ => JNull
               end
           | _ => JNull
           end), S n)
  end.
Proof.
  unfold _analyze_email_for_fraud_coordination, mbind, calls_bind, lift, try_except,
    generate, mret, calls_ret.
  destruct (coordination_prompts email df) as [prompts|e]; [|done].
  destruct (llm n prompts.1 prompts.2) as [[response|]|e]; cbn.
  - destruct (json_loads (clean_response response)) as [analysis|[]]; done.
  - done.
  - by destruct e.
Qed.

Lemma coordinated_attempt_run (df : DataFrame) (frauds : list ContextualFraud)
    (email : Email) (n : nat) (analysis : json) (n' : nat) :
  _analyze_email_for_fraud_coordination llm email df n = (Ok analysis, n') →
  ∃ out,
    coordinated_attempt llm df frauds email n = (out, n') ∧
    match out with
    | Ok frauds' =>
        if flags_email analysis
        then ∃ severity evidence reason,
               frauds' = frauds ++ [ {| cf_email := email; cf_analysis := analysis;
                                        cf_violation_type := "FRAUDE_COORDENADA";
                                        cf_severity := severity;
                                        cf_evidence := evidence;
                                        cf_reason := reason |} ]
        else frauds' = frauds
    | Raise _ => flags_email analysis = false
    end.
Proof.
  intros Hrun. unfold coordinated_attempt, mbind, calls_bind. rewrite Hrun.
  destruct analysis as [|b|q|s|items|entries| |negative]; cbn -[dict_get].
  - by eexists.
  - destruct b; by eexists.
  - destruct (Qeq_bool q 0); by eexists.
  - destruct (String.eqb s ""); by eexists.
  - destruct items; by eexists.
  - destruct entries as [|entry entries]; [by eexists|].
    unfold lift, mret, calls_ret.
    destruct (truthy (default (JBool false) (dict_get (entry :: entries) "is_fraud")));
      eexists; (split; [reflexivity|]); [by eexists _, _, _|done].
  - by eexists.
  - by eexists.
Qed.

(** One iteration of the loop never raises, makes at most one call, and
    adds a record only for a judgment that flags the email. *)
Lemma coordinated_step_run (df : DataFrame) (frauds : list ContextualFraud)
    (email : Email) (n : nat) :
  ∃ frauds' n',
    coordinated_step llm df frauds email n = (Ok frauds', n') ∧
    (n ≤ n' ≤ S n)%nat ∧
    (frauds' = frauds ∨
     ∃ cf, frauds' = frauds ++ [cf] ∧ cf_email cf = email ∧
           flags_email (cf_analysis cf) = true).
Proof.
  unfold coordinated_step, try_except.
  destruct (_analyze_email_for_fraud_coordination llm email df n)
    as [[analysis|e] n'] eqn:Hrun.
  - assert (Hn : (n ≤ n' ≤ S n)%nat).
    { rewrite analyze_email_run in Hrun.
      destruct (coordination_prompts email df); simplify_eq; lia. }
    destruct (coordinated_attempt_run df frauds email n analysis n' Hrun)
      as ([frauds'|e] & -> & Hout).
    + exists frauds', n'. split; [done|]. split; [done|].
      destruct (flags_email analysis) eqn:Hflags; [right|by left].
      destruct Hout as (severity & evidence & reason & ->). by eexists.
    + exists frauds, n'. split; [done|]. split; [done|]. by left.
  - assert (n' = n) as ->.
    { rewrite analyze_email_run in Hrun.
      destruct (coordination_prompts email df); by simplify_eq. }
    exists frauds, n. unfold coordinated_attempt, mbind, calls_bind. rewrite Hrun.
    split; [done|]. split; [lia|by left].
Qed.

Lemma coordinated_loop_run (df : DataFrame) (emails : list Email)
    (frauds : list ContextualFraud) (n : nat) :
  ∃ frauds' n',
    foldC (coordinated_step llm df) frauds emails n = (Ok frauds', n') ∧
    (n ≤ n' ≤ n + length emails)%nat.
Proof.
  revert frauds n. induction emails as [|email emails IH]; intros frauds n.
  - exists frauds, n. split; [done|]. cbn. lia.
  - destruct (coordinated_step_run df frauds email n) as (frauds1 & n1 & Hstep & Hn1 & _).
    destruct (IH frauds1 n1) as (frauds' & n' & Hloop & Hn').
    exists frauds', n'. cbn [foldC]. unfold mbind, calls_bind. rewrite Hstep.
    split; [done|]. cbn [length]. lia.
Qed.
End CoordinatedFraud.



(** C8. The service answers the first call with text that is not JSON
    and would answer a second call with a judgment that flags the email.
    The coordinated-fraud detection asks once, does not ask again, and
    reports nothing; asked from the second call on, it reports the email.
    The conspiracy detector, on the same kind of service, asks a second
    time and returns the second answer. *)
Theorem coordinated_fraud_does_not_retry :
  _detect_coordinated_fraud (H := Sample.py_str) (H0 := Sample.external)
    (Sample.flaky_llm Sample.flagged_reply) [ Sample.split_email ] (Sample.table []) 0
  = (Ok [], 1) ∧
  (∃ cf, _detect_coordinated_fraud (H := Sample.py_str) (H0 := Sample.external)
           (Sample.flaky_llm Sample.flagged_reply) [ Sample.split_email ]
           (Sample.table []) 1
         = (Ok [ cf ], 2) ∧ cf_email cf = Sample.split_email) ∧
  _analyze_single_email (H := Sample.py_str) (H0 := Sample.external)
    (Sample.flaky_llm Sample.suspicious_reply) Sample.split_email 0
  = (Ok (JDict [ ("is_suspicious", JBool true); ("severity", JNum 8);
                 ("reasoning", JStr "mocks Toby") ]), 2).
Proof.
  split; [vm_compute; reflexivity|]. split; [|vm_compute; reflexivity].
  eexists. split; [vm_compute; reflexivity|reflexivity].
Qed.

(** ** Tables whose descriptions are all text *)

Lemma restricted_step_emit `{PyStr} acc row :
  is_Some (descricao row) →
  restricted_step acc row = Ok (acc ++ restricted_emit row).
Proof.
  intros [d Hd]. unfold restricted_step, restricted_emit, descricao_lower.
  rewrite Hd. cbn [mbind result_bind].
  destruct (first_match restricted_locations (py_lower d)); [done|].
  by rewrite app_nil_r.
Qed.

(** The counterpart of C9, for the tables of this model, whose id and
    employee cells are all text: when every description of the loaded
    table is text as well, the five checks, the deduplication and the
    report all return, and the analysis counts what it returns. *)
Theorem analysis_returns_on_text_descriptions `{PyStr} `{Pandas}
    (fs : string -> option RawFrame) (path : string) (df : DataFrame) :
  load_transactions fs path = Ok df →
  Forall (fun row => is_Some (descricao row)) (rows df) →
  ∃ result,
    analyze_transactions fs path = Ok result ∧
    total_transactions result = length (rows df) ∧
    total_frauds result = length (fraudulent_transactions result) ∧
    report result = _generate_report (fraudulent_transactions result) (length (rows df)).
Proof.
  intros Hload Htext.
  assert (Hp : ∃ prohibited, _check_prohibited_items df = Ok prohibited).
  { eexists. unfold _check_prohibited_items.
    apply (foldM_emit prohibited_step prohibited_emit).
    intros acc row Hrow. apply prohibited_step_emit.
    by eapply Forall_forall in Htext. }
  destruct Hp as [prohibited Hp].
  assert (Hu : ∃ unauthorized, _check_unauthorized_amounts df = Ok unauthorized).
  { eexists. unfold _check_unauthorized_amounts.
    apply (foldM_emit unauthorized_step unauthorized_emit).
    intros acc row Hrow. apply unauthorized_step_emit. intros _.
    by eapply Forall_forall in Htext. }
  destruct Hu as [unauthorized Hu].
  assert (Hs : ∃ smurfing, _check_smurfing df = Ok smurfing).
  { eexists. rewrite check_smurfing_visits, smurfing_run_described; [done|].
    apply Forall_forall. intros t (Hx & Hy & _)%all_visits_sound.
    apply elem_of_iterrows, list_elem_of_lookup_2 in Hx, Hy.
    split; by eapply Forall_forall in Htext. }
  destruct Hs as [smurfing Hs].
  assert (Hr : ∃ restricted, _check_restricted_locations df = Ok restricted).
  { eexists. unfold _check_restricted_locations.
    apply (foldM_emit restricted_step restricted_emit).
    intros acc row Hrow. apply restricted_step_emit.
    by eapply Forall_forall in Htext. }
  destruct Hr as [restricted Hr].
  eexists. unfold analyze_transactions.
  rewrite Hload. cbn [mbind result_bind]. rewrite Hp. cbn [mbind result_bind].
  rewrite Hu. cbn [mbind result_bind]. rewrite Hs. cbn [mbind result_bind].
  rewrite Hr. cbn [mbind result_bind]. done.
Qed.

Lemma analysis_returns_on_text_descriptions_witness :
  ∃ result,
    analyze_transactions (H := Sample.py_str) (H0 := Sample.pandas)
      (Sample.disk Sample.triple_file) Sample.transactions_path = Ok result ∧
    total_transactions result = 3 ∧ total_frauds result = 2.
Proof.
  destruct (load_transactions (H := Sample.pandas) (Sample.disk Sample.triple_file)
              Sample.transactions_path) as [df|] eqn:Hload; [|by vm_compute in Hload].
  assert (Htext : Forall (fun row => is_Some (descricao row)) (rows df)).
  { vm_compute in Hload. injection Hload as <-. repeat constructor; by eexists. }
  destruct (analysis_returns_on_text_descriptions (H := Sample.py_str)
              (H0 := Sample.pandas) _ _ df Hload Htext) as (result & Hrun & _).
  exists result. split; [exact Hrun|].
  vm_compute in Hrun. injection Hrun as <-. by split.
Defined.

(** ** The empty table *)

(** On a table without rows the analysis returns no violation, and its
    report is the one that states so. *)
Theorem empty_table_reports_no_violation `{PyStr} `{Pandas}
    (fs : string -> option RawFrame) (path : string) (df : DataFrame) :
  load_transactions fs path = Ok df →
  rows df = [] →
  ∃ result,
    analyze_transactions fs path = Ok result ∧
    total_transactions result = 0 ∧
    fraudulent_transactions result = [] ∧
    total_frauds result = 0 ∧
    report result =
      join_lines
        ([ "" ] ++ report_banner ++
         [ ""; "STATUS: ✓ NENHUMA VIOLAÇÃO DETECTADA"; "";
           "Todas as transações estão em conformidade com a política de compliance.";
           ""; "Recomendação: Nenhuma ação necessária."; "" ]).
Proof.
  intros Hload Hrows. eexists. unfold analyze_transactions.
  rewrite Hload. cbn [mbind result_bind].
  unfold _check_prohibited_items, _check_unauthorized_amounts, _check_smurfing,
    _check_restricted_locations, _check_suspicious_categories.
  rewrite Hrows. cbn [foldM mbind result_bind fmap list_fmap].
  split; [reflexivity|]. cbn.
  destruct (decide ("categoria" ∈ columns df)); by repeat split.
Qed.

Lemma empty_table_reports_no_violation_witness :
  ∃ result,
    analyze_transactions (H := Sample.py_str) (H0 := Sample.pandas)
      (Sample.disk Sample.empty_file) Sample.transactions_path = Ok result ∧
    fraudulent_transactions result = [].
Proof.
  destruct (empty_table_reports_no_violation (H := Sample.py_str) (H0 := Sample.pandas)
              (Sample.disk Sample.empty_file) Sample.transactions_path
              {| columns := required_columns ++ [ "categoria" ]; rows := [] |}
              eq_refl eq_refl) as (result & Hrun & _ & Hnone & _).
  by exists result.
Defined.

(** ** Rule 4: restricted locations *)

Lemma prefix_trans (a b s : string) :
  String.prefix a b = true → String.prefix b s = true → String.prefix a s = true.
Proof.
  revert b s. induction a as [|c a IH]; intros b s; [by destruct s|].
  destruct b as [|c' b]; [done|]. destruct s as [|c'' s]; [done|]. cbn.
  destruct (ascii_dec c c') as [->|]; [|done].
  destruct (ascii_dec c' c'') as [->|]; [|done].
  destruct (ascii_dec c'' c''); [apply IH|done].
Qed.

Lemma str_in_prefix (a b s : string) :
  String.prefix a b = true → str_in b s = true → str_in a s = true.
Proof.
  intros Hab. induction s as [|c s IH]; cbn [str_in].
  - rewrite !orb_false_r. by apply prefix_trans.
  - rewrite !orb_true_iff. intros [Hb|Hin]; [left; by eapply prefix_trans|right; by apply IH].
Qed.

(** On a table whose descriptions are all text, the restricted-location
    check returns one [LOCAL_RESTRITO] violation of severity 6 for each
    row whose lower-cased description contains "hooter", in order, and none
    for any other row: the first entry of the list, "hooters", never
    decides whether a row is flagged, only which name the reason cites. *)
Theorem restricted_locations_one_per_match `{PyStr} (df : DataFrame) :
  Forall (fun row => is_Some (descricao row)) (rows df) →
  ∃ violations,
    _check_restricted_locations df = Ok violations ∧
    transaction <$> violations = TxRow <$> List.filter mentions_hooter (rows df) ∧
    Forall (fun v => ∃ row d,
              transaction v = TxRow row ∧ descricao row = Some d ∧
              violation_type v = "LOCAL_RESTRITO" ∧ severity v = 6%Z ∧
              reason v = "Refeição em local restrito: "
                         +:+ py_title (if str_in "hooters" (py_lower d)
                                       then "hooters" else "hooter")
                         +:+ " (banido da lista de reembolso)")
      violations.
Proof.
  intros Htext. exists (rows df ≫= restricted_emit). split; [|split].
  - unfold _check_restricted_locations.
    rewrite (foldM_emit restricted_step restricted_emit); [done|].
    intros acc row Hrow. apply restricted_step_emit. by eapply Forall_forall in Htext.
  - clear Htext. induction (rows df) as [|row l IH]; [done|].
    rewrite bind_cons, fmap_app, IH. cbn [List.filter].
    unfold restricted_emit, mentions_hooter, restricted_locations.
    destruct (descricao row) as [d|]; [|done]. cbn [first_match].
    destruct (str_in "hooters" (py_lower d)) eqn:Hs.
    + by rewrite (str_in_prefix "hooter" "hooters").
    + by destruct (str_in "hooter" (py_lower d)).
  - apply Forall_forall. intros v (row & Hv & Hrow)%list_elem_of_bind.
    unfold restricted_emit, restricted_locations in Hv.
    destruct (descricao row) as [d|] eqn:Hd; [|by apply elem_of_nil in Hv].
    cbn [first_match] in Hv. exists row, d.
    destruct (str_in "hooters" (py_lower d)).
    + apply list_elem_of_singleton in Hv as ->. by repeat split.
    + destruct (str_in "hooter" (py_lower d)); [|by apply elem_of_nil in Hv].
      apply list_elem_of_singleton in Hv as ->. by repeat split.
Qed.

Lemma restricted_locations_one_per_match_witness :
  ∃ violations,
    _check_restricted_locations (H := Sample.py_str) Sample.lunch_table = Ok violations ∧
    (fun v => (tx_id (transaction v), reason v)) <$> violations =
      [ ("TX1", "Refeição em local restrito: Hooters (banido da lista de reembolso)");
        ("TX3", "Refeição em local restrito: Hooter (banido da lista de reembolso)") ].
Proof.
  destruct (restricted_locations_one_per_match (H := Sample.py_str) Sample.lunch_table)
    as (violations & Hrun & _).
  { repeat constructor; by eexists. }
  exists violations. split; [exact Hrun|].
  vm_compute in Hrun. injection Hrun as <-. reflexivity.
Defined.

(** ** The conspiracy detector's bounded retry *)

Section ConspiracyRetry.
Context `{PyStr} `{External} (llm : Llm) (email : Email).

(** One attempt makes one call; when it returns a judgment, the judgment
    has passed the test of the required keys. *)
Lemma conspiracy_attempt_run (n : nat) :
  ∃ outcome,
    conspiracy_attempt llm email n = (outcome, S n) ∧
    ∀ analysis, outcome = Ok (Some analysis) →
      has_all_keys analysis conspiracy_required_keys = Ok true.
Proof.
  unfold conspiracy_attempt, mbind, calls_bind, generate, lift, mret, calls_ret.
  destruct (llm n conspiracy_system_prompt (conspiracy_user_prompt email))
    as [[text|]|e]; cbn -[has_all_keys]; [|by eexists..].
  destruct (json_loads (conspiracy_clean text)) as [analysis|e]; [|by eexists].
  destruct (has_all_keys analysis conspiracy_required_keys) as [[]|e] eqn:Hkeys;
    eexists; (split; [reflexivity|]); intros a Ha; by simplify_eq.
Qed.

Lemma complete_judgment_keys (n : nat) (analysis : json) :
  complete_judgment llm email n = Some analysis →
  has_all_keys analysis conspiracy_required_keys = Ok true.
Proof.
  unfold complete_judgment.
  destruct (conspiracy_attempt_run n) as (outcome & Hrun & Hkeys). rewrite Hrun. cbn.
  destruct outcome as [[a|]|]; [|done..]. intros [= <-]. by apply Hkeys.
Qed.

Lemma conspiracy_attempts_step (attempts n : nat) :
  conspiracy_attempts llm email (S attempts) n =
  match complete_judgment llm email n with
  | Some analysis => (Ok analysis, S n)
  | None => conspiracy_attempts llm email attempts (S n)
  end.
Proof.
  cbn [conspiracy_attempts]. unfold complete_judgment, mbind, calls_bind, try_except.
  destruct (conspiracy_attempt_run n) as (outcome & -> & _). cbn.
  by destruct outcome as [[a|]|].
Qed.
End ConspiracyRetry.

(** The judgment of one email by the conspiracy detector never raises
    and takes one or two calls.  It is the judgment of the first call when
    that parses and has the three required keys, else that of the second
    call, else the fallback that marks the email as not suspicious; in
    every case the result passes the test of the required keys. *)
Theorem conspiracy_judgment_bounded_retry `{PyStr} `{External} (llm : Llm)
    (email : Email) (n : nat) :
  ∃ analysis n',
    _analyze_single_email llm email n = (Ok analysis, n') ∧
    (S n ≤ n' ≤ n + 2)%nat ∧
    has_all_keys analysis conspiracy_required_keys = Ok true ∧
    match complete_judgment llm email n, complete_judgment llm email (S n) with
    | Some first, _ => analysis = first ∧ n' = S n
    | None, Some second => analysis = second ∧ n' = n + 2
    | None, None =>
        analysis = conspiracy_fallback ∧ n' = n + 2 ∧
        json_get analysis "is_suspicious" JNull = Ok (JBool false)
    end.
Proof.
  unfold _analyze_single_email, max_retries.
  rewrite conspiracy_attempts_step.
  destruct (complete_judgment llm email n) as [first|] eqn:Hfirst.
  { exists first, (S n). split; [done|]. split; [lia|].
    split; [by eapply complete_judgment_keys|done]. }
  rewrite conspiracy_attempts_step.
  destruct (complete_judgment llm email (S n)) as [second|] eqn:Hsecond.
  { exists second, (S (S n)). split; [done|]. split; [lia|].
    split; [by eapply complete_judgment_keys|]. split; [done|lia]. }
  exists conspiracy_fallback, (S (S n)). split; [done|]. split; [lia|].
  split; [reflexivity|]. split; [done|]. split; [lia|reflexivity].
Qed.

(** ** The false-justification and hidden-information strategies *)

Section Judgments.
Context `{PyStr} `{External} (llm : Llm).

(** The judgment of these two strategies always takes exactly one call
    and never raises. *)
Lemma analyze_with_prompts_run (system_prompt user_prompt : string) (n : nat) :
  ∃ analysis, analyze_with_prompts llm system_prompt user_prompt n = (Ok analysis, S n).
Proof.
  unfold analyze_with_prompts, try_except, mbind, calls_bind, generate, lift, mret,
    calls_ret.
  destruct (llm n system_prompt user_prompt) as [[text|]|e]; cbn; [|by eexists..].
  destruct (json_loads (clean_response text)); by eexists.
Qed.

Lemma judgment_step_run (analyze : Email -> DataFrame -> Calls json)
    (flag vtype : string) (fallback_severity : Q) (df : DataFrame)
    (frauds : list ContextualFraud) (email : Email) (n : nat) :
  (∃ analysis, analyze email df n = (Ok analysis, S n)) →
  ∃ frauds',
    judgment_step analyze flag vtype fallback_severity df frauds email n
      = (Ok frauds', S n) ∧
    (frauds' = frauds ∨
     ∃ cf, frauds' = frauds ++ [cf] ∧ cf_email cf = email ∧
           flagged_record flag vtype cf).
Proof.
  intros [analysis Hrun].
  unfold judgment_step, try_except, judgment_attempt, mbind, calls_bind.
  rewrite Hrun.
  destruct analysis as [|b|q|s|items|entries| |negative]; cbn -[dict_get].
  - eexists. split; [done|by left].
  - destruct b; (eexists; split; [done|by left]).
  - destruct (Qeq_bool q 0); (eexists; split; [done|by left]).
  - destruct (String.eqb s ""); (eexists; split; [done|by left]).
  - destruct items; (eexists; split; [done|by left]).
  - destruct entries as [|entry entries]; [eexists; split; [done|by left]|].
    unfold lift, mret, calls_ret.
    destruct (truthy (default (JBool false) (dict_get (entry :: entries) flag)))
      eqn:Hflag; (eexists; split; [done|]); [right|by left].
    eexists. split; [done|]. split; [done|]. split; [done|]. by eexists.
  - eexists. split; [done|by left].
  - eexists. split; [done|by left].
Qed.

Lemma judgment_loop_run (analyze : Email -> DataFrame -> Calls json)
    (flag vtype : string) (fallback_severity : Q) (df : DataFrame)
    (emails : list Email) (frauds : list ContextualFraud) (n : nat) :
  (∀ email m, ∃ analysis, analyze email df m = (Ok analysis, S m)) →
  ∃ found,
    foldC (judgment_step analyze flag vtype fallback_severity df) frauds emails n
      = (Ok (frauds ++ found), n + length emails) ∧
    Forall (flagged_record flag vtype) found ∧
    cf_email <$> found `sublist_of` emails.
Proof.
  intros Hanalyze. revert frauds n.
  induction emails as [|email emails IH]; intros frauds n.
  - exists []. rewrite app_nil_r, Nat.add_0_r. by repeat split.
  - destruct (judgment_step_run analyze flag vtype fallback_severity df frauds email n
                (Hanalyze email n)) as (frauds1 & Hstep & Hcase).
    destruct (IH frauds1 (S n)) as (found & Hloop & Hflagged & Hsub).
    cbn [foldC]. unfold mbind, calls_bind. rewrite Hstep, Hloop.
    replace (S n + length emails) with (n + length (email :: emails)) by (cbn; lia).
    destruct Hcase as [->|(cf & -> & Hemail & Hcf)].
    + exists found. split; [done|]. split; [done|]. by apply sublist_cons.
    + exists (cf :: found). rewrite <- app_assoc. split; [done|].
      split; [by constructor|]. csimpl. rewrite Hemail. by apply sublist_skip.
Qed.
End Judgments.

(** The false-justification strategy examines the first twenty emails
    that mention a justification keyword, the hidden-information strategy
    every email that mentions a hiding keyword, without a cap.  Each makes
    exactly one call per examined email and never raises; what it returns
    are records of its own violation type, made from judgments that are
    dicts with a true [is_false] (or [is_hiding]) entry, for emails taken
    in order from the examined ones. *)
Theorem judgment_strategies_one_call_per_email `{PyStr} `{External} (llm : Llm)
    (emails : list Email) (df : DataFrame) (n : nat) :
  (∃ found,
     _detect_false_justifications llm emails df n =
       (Ok found,
        n + length (take 20 (List.filter (mentions_any justification_keywords) emails))) ∧
     Forall (flagged_record "is_false" "JUSTIFICATIVA_FALSA") found ∧
     cf_email <$> found `sublist_of`
       take 20 (List.filter (mentions_any justification_keywords) emails)) ∧
  (∃ found,
     _detect_hidden_information llm emails df n =
       (Ok found, n + length (List.filter (mentions_any hiding_keywords) emails)) ∧
     Forall (flagged_record "is_hiding" "OCULTACAO_INFORMACAO") found ∧
     cf_email <$> found `sublist_of` List.filter (mentions_any hiding_keywords) emails).
Proof.
  split.
  - unfold _detect_false_justifications.
    apply judgment_loop_run.
    intros email m. apply analyze_with_prompts_run.
  - unfold _detect_hidden_information.
    apply judgment_loop_run.
    intros email m. apply analyze_with_prompts_run.
Qed.

(** ** The report of the contextual analysis *)

Lemma json_number_cases (value : json) :
  (∃ q, json_number value = Ok q) ∨ (∃ e, json_number value = Raise e).
Proof. destruct value; cbn; eauto. Qed.

Lemma mapM_Ok {A B : Type} (f : A -> result B) (l : list A) :
  Forall (λ x, ∃ y, f x = Ok y) l →
  ∃ ys, mapM f l = Ok ys ∧ length ys = length l ∧
        ∀ i x, l !! i = Some x → ∃ y, ys !! i = Some y ∧ f x = Ok y.
Proof.
  induction 1 as [|x l [y Hy] _ (ys & IH & Hlen & Hnth)]; cbn.
  - exists []. repeat split; [done..|]. intros i x Hx. by rewrite lookup_nil in Hx.
  - rewrite Hy, IH. cbn. exists (y :: ys). split; [done|]. split; [cbn; lia|].
    intros [|i] x' Hx'; cbn in *; [simplify_eq; eauto|by apply Hnth].
Qed.

Lemma mapM_Raise {A B : Type} (f : A -> result B) (l : list A) x e :
  x ∈ l → f x = Raise e → ∃ e', mapM f l = Raise e'.
Proof.
  intros Hx Hfx. induction l as [|y l IH]; [by apply elem_of_nil in Hx|].
  cbn. apply elem_of_cons in Hx as [<-|Hx].
  - rewrite Hfx. by eexists.
  - destruct (f y) as [y'|e1]; cbn; [|by eexists].
    destruct (IH Hx) as [e' ->]. by eexists.
Qed.

Lemma high_severity_step_Ok (kept : list ContextualFraud) f q :
  json_number (cf_severity f) = Ok q →
  high_severity_step kept f = Ok (if num_leb (Finite 8) q then kept ++ [f] else kept).
Proof. intros Hq. unfold high_severity_step. by rewrite Hq. Qed.

Lemma high_severity_step_Raise (kept : list ContextualFraud) f e :
  json_number (cf_severity f) = Raise e → high_severity_step kept f = Raise e.
Proof. intros Hq. unfold high_severity_step. by rewrite Hq. Qed.

Lemma high_severity_Ok (frauds kept : list ContextualFraud) :
  Forall numeric_severity frauds →
  ∃ kept', foldM high_severity_step kept frauds = Ok kept'.
Proof.
  intros Hnum. revert kept.
  induction Hnum as [|f frauds [q Hq] _ IH]; intros kept; cbn [foldM]; [by eexists|].
  rewrite (high_severity_step_Ok kept f q Hq). cbn [mbind result_bind]. apply IH.
Qed.

Lemma high_severity_Raise (frauds kept : list ContextualFraud) f e :
  f ∈ frauds → json_number (cf_severity f) = Raise e →
  ∃ e', foldM high_severity_step kept frauds = Raise e'.
Proof.
  intros Hf Hraise. revert kept.
  induction frauds as [|g frauds IH]; intros kept; [by apply elem_of_nil in Hf|].
  cbn [foldM]. apply elem_of_cons in Hf as [<-|Hf].
  - rewrite (high_severity_step_Raise kept f e Hraise). by eexists.
  - destruct (json_number_cases (cf_severity g)) as [[q Hq]|[e1 He1]].
    + rewrite (high_severity_step_Ok kept g q Hq). cbn [mbind result_bind].
      by apply IH.
    + rewrite (high_severity_step_Raise kept g e1 He1). by eexists.
Qed.

Section SeverityKeys.
Context `{PyJson}.

Lemma sorted_by_severity_Ok (frauds : list ContextualFraud) :
  Forall numeric_severity frauds →
  ∃ keys,
    mapM (fun f => x ← json_number (cf_severity f); Ok (num_neg x)) frauds = Ok keys ∧
    length keys = length frauds ∧
    (∀ i f, frauds !! i = Some f → keys !! i = Some (num_neg (severity_value f))) ∧
    sorted_by_severity frauds
      = Ok (if existsb is_nan keys then sorted_with_nan (zip keys frauds)
            else stable_sort (fun x y => num_leb x.1 y.1) (zip keys frauds)).*2.
Proof.
  intros Hnum.
  destruct (mapM_Ok (fun f => x ← json_number (cf_severity f); Ok (num_neg x)) frauds)
    as (keys & Hkeys & Hlen & Hnth).
  { eapply Forall_impl; [exact Hnum|]. intros f [q Hq]. rewrite Hq. by eexists. }
  exists keys. split; [done|]. split; [done|]. split.
  - intros i f Hf. destruct (Hnth i f Hf) as (k & Hk & Hfk).
    rewrite Hk. f_equal. unfold severity_value.
    destruct (json_number (cf_severity f)); cbn in Hfk; by simplify_eq.
  - unfold sorted_by_severity. by rewrite Hkeys.
Qed.

Lemma sorted_by_severity_perm (frauds ranked : list ContextualFraud) :
  sorted_by_severity frauds = Ok ranked → ranked ≡ₚ frauds.
Proof.
  unfold sorted_by_severity.
  destruct (mapM _ frauds) as [keys|e] eqn:Hkeys; cbn [mbind result_bind]; [|done].
  intros [= <-].
  assert (Hlen : (length frauds ≤ length keys)%nat).
  { revert keys Hkeys.
    induction frauds as [|f frauds IH]; intros keys; cbn; [lia|].
    destruct (json_number (cf_severity f)); cbn; [|done].
    destruct (mapM _ frauds) as [ks|]; cbn; [|done].
    intros [= <-]. cbn. specialize (IH ks eq_refl). lia. }
  destruct (existsb is_nan keys).
  - by rewrite sorted_with_nan_perm, snd_zip.
  - by rewrite stable_sort_perm, snd_zip.
Qed.
End SeverityKeys.

Section ContextualReport.
Context `{PyStr} `{PyJson}.

Lemma contextual_entry_Ok (report : string) (entry : nat * ContextualFraud) :
  sliceable_evidence entry.2 → ∃ text, contextual_entry report entry = Ok text.
Proof. intros [excerpt Hslice]. unfold contextual_entry. rewrite Hslice. by eexists. Qed.

Lemma contextual_entries_Ok (g : nat -> nat) (l : list ContextualFraud)
    (report : string) :
  Forall sliceable_evidence l →
  ∃ text, foldM contextual_entry report (imap (fun i fraud => (g i, fraud)) l) = Ok text.
Proof.
  intros Hl. revert g report.
  induction Hl as [|f l Hf _ IH]; intros g report; cbn [imap foldM]; [by eexists|].
  destruct (contextual_entry_Ok report (g 0, f) Hf) as [text ->].
  cbn [mbind result_bind]. apply (IH (g ∘ S)).
Qed.
End ContextualReport.

(** The contextual report needs every severity to be a number: when the
    evidence of every record can be sliced, the report is produced exactly
    when no record carries a severity that is a string, a list, a dict or
    [None].  The detectors copy the severity of the judgment unchecked, so
    one such judgment makes the report raise.  A severity that is NaN or
    an infinity is a number: the report is produced. *)
Theorem contextual_report_needs_numeric_severity `{PyStr} `{PyJson}
    (frauds : list ContextualFraud) (total_emails total_transactions : nat) :
  Forall sliceable_evidence frauds →
  (∃ text, Contextual._generate_report frauds total_emails total_transactions = Ok text)
  ↔ Forall numeric_severity frauds.
Proof.
  intros Hslice. destruct frauds as [|f frauds]; [split; [done|by eexists]|].
  set (fs := f :: frauds) in *.
  split.
  - intros [text Hreport]. apply Forall_forall. intros g Hg.
    destruct (json_number_cases (cf_severity g)) as [Hq|[e He]]; [done|].
    destruct (high_severity_Raise fs [] g e Hg He) as [e' Hraise].
    unfold Contextual._generate_report, fs in Hreport. fold fs in Hreport.
    rewrite Hraise in Hreport. done.
  - intros Hnum.
    destruct (high_severity_Ok fs [] Hnum) as [kept Hkept].
    destruct (sorted_by_severity_Ok fs Hnum) as (keys & _ & _ & _ & Hsorted).
    pose proof (sorted_by_severity_perm fs _ Hsorted) as Hperm.
    unfold Contextual._generate_report, fs. fold fs.
    rewrite Hkept, Hsorted. cbn [mbind result_bind].
    match goal with
    | |- ∃ text, (r ← foldM contextual_entry ?report (imap ?g ?l); _) = _ =>
        destruct (contextual_entries_Ok S l report) as [text Htext]
    end.
    { apply Forall_take. by rewrite Hperm. }
    rewrite Htext. by eexists.
Qed.

Lemma contextual_report_needs_numeric_severity_witness :
  Forall sliceable_evidence [ Sample.coordinated_record; Sample.hiding_record ] ∧
  ((∃ text,
      Contextual._generate_report (H := Sample.py_str) (H0 := Sample.py_json)
        [ Sample.coordinated_record; Sample.hiding_record ] 3 5 = Ok text)
   ↔ Forall numeric_severity [ Sample.coordinated_record; Sample.hiding_record ]).
Proof.
  assert (Hslice :
    Forall sliceable_evidence [ Sample.coordinated_record; Sample.hiding_record ]).
  { repeat constructor; eexists; reflexivity. }
  split; [exact Hslice|].
  exact (contextual_report_needs_numeric_severity (H := Sample.py_str)
           (H0 := Sample.py_json) _ 3 5 Hslice).
Defined.

(** ** The email loader *)

Lemma nonempty_spec (s : string) : nonempty s = true ↔ s ≠ "".
Proof.
  unfold nonempty. destruct (String.eqb_spec s ""); cbn; split; congruence.
Qed.

Lemma Forall2_filter_l {A B : Type} (R : A -> B -> Prop) (P : A -> bool)
    (l : list A) (k : list B) :
  Forall2 R l k → ∃ k', Forall2 R (List.filter P l) k' ∧ k' `sublist_of` k.
Proof.
  induction 1 as [|x y l k Hxy _ (k' & IH & Hsub)]; cbn [List.filter].
  - exists []. by split.
  - destruct (P x).
    + exists (y :: k'). split; [by constructor|by apply sublist_skip].
    + exists k'. split; [done|by apply sublist_cons].
Qed.

Lemma sublist_concat {A : Type} (k' k : list (list A)) :
  k' `sublist_of` k → concat k' `sublist_of` concat k.
Proof.
  induction 1 as [|x k1 k2 _ IH|x k1 k2 _ IH]; cbn [concat]; [done|..].
  - by apply sublist_app.
  - by apply sublist_inserts_l.
Qed.

Lemma Forall_of_sublist {A : Type} (P : A -> Prop) (l1 l2 : list A) :
  l1 `sublist_of` l2 → Forall P l2 → Forall P l1.
Proof.
  induction 1 as [|x l1 l2 _ IH|x l1 l2 _ IH]; [done|..];
    intros [Hx Hl2]%Forall_cons; [constructor|]; auto.
Qed.

Section EmailLoader.
Context `{PyStr}.

Lemma parse_email_line_invariant (st : EmailParser) (line : string) (k : nat) :
  parser_invariant st k →
  parser_invariant (parse_email_line st line)
    (k + (if is_separator line then 1 else 0)).
Proof.
  intros (Hmsg & Hstored & Hlen).
  unfold parse_email_line, is_separator.
  destruct (starts_with_any [ "---"; "===" ] (py_strip line)).
  - rewrite Hmsg. cbn [nonempty String.eqb negb]. rewrite orb_false_r.
    destruct (nonempty (remetente (ep_current st))) eqn:Hsender.
    + split; [done|]. cbn [ep_emails]. split.
      * apply Forall_app. split; [done|]. constructor; [|done].
        by apply nonempty_spec.
      * rewrite length_app. cbn. lia.
    + split; [done|]. split; [done|]. lia.
  - rewrite Nat.add_0_r.
    repeat match goal with
           | |- context [if ?b then _ else _] => destruct b
           end; (split; [done|]); (split; [done|]); done.
Qed.

Lemma parse_email_lines_invariant (lines : list string) (st : EmailParser) (k : nat) :
  parser_invariant st k →
  parser_invariant (fold_left parse_email_line lines st)
    (k + length (List.filter is_separator lines)).
Proof.
  revert st k. induction lines as [|line lines IH]; intros st k Hinv; cbn [fold_left].
  - cbn. by rewrite Nat.add_0_r.
  - apply (parse_email_line_invariant st line) in Hinv. apply IH in Hinv.
    cbn [List.filter]. destruct (is_separator line); cbn [length] in *.
    + by replace (k + S (length (List.filter is_separator lines)))
        with (k + 1 + length (List.filter is_separator lines)) by lia.
    + by rewrite Nat.add_0_r in Hinv.
Qed.

(** The state keeps its bodies when a line changes neither the stored
    emails nor the message lines. *)
Lemma parser_bodies_skip (st st' : EmailParser) (bodies : list (list string))
    (current : list string) (lines : list string) (line : string) :
  ep_emails st' = ep_emails st → ep_message_lines st' = ep_message_lines st →
  parser_bodies st lines bodies current →
  parser_bodies st' (lines ++ [ line ]) bodies current.
Proof.
  intros Hemails Hlines (Hstored & Hcurrent & Hsub & Hkind).
  unfold parser_bodies. rewrite Hemails, Hlines.
  split; [done|]. split; [done|]. split; [by apply sublist_inserts_r|done].
Qed.

(** A line appended to the message being read. *)
Lemma parser_bodies_append (st st' : EmailParser) (bodies : list (list string))
    (current : list string) (lines : list string) (line : string) :
  ep_emails st' = ep_emails st →
  ep_message_lines st' = ep_message_lines st ++ [ message_piece line ] →
  is_message_line line = true →
  parser_bodies st lines bodies current →
  parser_bodies st' (lines ++ [ line ]) bodies (current ++ [ line ]).
Proof.
  intros Hemails Hlines Hline (Hstored & Hcurrent & Hsub & Hkind).
  unfold parser_bodies. rewrite Hemails, Hlines, Hcurrent, fmap_app, !app_assoc.
  split; [done|]. split; [done|].
  split; [by apply sublist_app|]. apply Forall_app. split; [done|by constructor].
Qed.

Lemma parse_email_line_bodies (st : EmailParser) (line : string)
    (lines : list string) (bodies : list (list string)) (current : list string) :
  parser_bodies st lines bodies current →
  ∃ bodies' current',
    parser_bodies (parse_email_line st line) (lines ++ [ line ]) bodies' current'.
Proof.
  intros Hinv. unfold parse_email_line.
  destruct (starts_with_any [ "---"; "===" ] (py_strip line)) eqn:Hsep.
  { destruct (nonempty (remetente (ep_current st))
              || nonempty (mensagem (ep_current st))).
    - destruct Hinv as (Hstored & Hcurrent & Hsub & Hkind).
      exists (bodies ++ [ current ]), [].
      unfold parser_bodies. cbn [ep_emails ep_message_lines].
      rewrite concat_app, app_nil_r. cbn [concat]. rewrite app_nil_r.
      split; [|split; [done|split; [by apply sublist_inserts_r|done]]].
      apply Forall2_app; [done|]. constructor; [|constructor].
      unfold message_of, finished_email. cbn [mensagem]. by rewrite Hcurrent.
    - exists bodies, current. by apply (parser_bodies_skip st). }
  destruct (starts_with_any [ "De:"; "From:" ] (py_strip line)) eqn:Hfrom;
    [exists bodies, current; by apply (parser_bodies_skip st)|].
  destruct (starts_with_any [ "Para:"; "To:" ] (py_strip line)) eqn:Hto;
    [exists bodies, current; by apply (parser_bodies_skip st)|].
  destruct (starts_with_any [ "Assunto:"; "Subject:" ] (py_strip line)) eqn:Hsubject;
    [exists bodies, current; by apply (parser_bodies_skip st)|].
  destruct (starts_with_any [ "Data:"; "Date:" ] (py_strip line)) eqn:Hdate;
    [exists bodies, current; by apply (parser_bodies_skip st)|].
  assert (Hkind : nonempty (py_strip line) = true → is_message_line line = true).
  { intros Hne. unfold is_message_line, is_separator, is_header. cbn zeta.
    by rewrite Hsep, Hfrom, Hto, Hsubject, Hdate, Hne. }
  destruct (starts_with_any [ "Mensagem:"; "Message:" ] (py_strip line)) eqn:Hmessage.
  { destruct (nonempty (py_strip (after_colon (py_strip line)))).
    - exists bodies, (current ++ [ line ]).
      apply (parser_bodies_append st); [done| |apply Hkind|done].
      + unfold message_piece. by rewrite Hmessage.
      + apply nonempty_spec. intros Hblank. by rewrite Hblank in Hmessage.
    - exists bodies, current. by apply (parser_bodies_skip st). }
  destruct (String.eqb (py_strip line) "") eqn:Hblank.
  { destruct (nonempty (remetente (ep_current st)) && negb (ep_in_message st));
      exists bodies, current; by apply (parser_bodies_skip st). }
  destruct (ep_in_message st
            || nonempty (remetente (ep_current st))
               && negb (nonempty (mensagem (ep_current st)))).
  - exists bodies, (current ++ [ line ]).
    apply (parser_bodies_append st); [done| |apply Hkind|done].
    + unfold message_piece. by rewrite Hmessage.
    + unfold nonempty. by rewrite Hblank.
  - exists bodies, current. by apply (parser_bodies_skip st).
Qed.

Lemma parse_email_lines_bodies (lines : list string) (st : EmailParser)
    (processed : list string) (bodies : list (list string)) (current : list string) :
  parser_bodies st processed bodies current →
  ∃ bodies' current',
    parser_bodies (fold_left parse_email_line lines st) (processed ++ lines)
      bodies' current'.
Proof.
  revert st processed bodies current.
  induction lines as [|line lines IH]; intros st processed bodies current Hinv.
  - exists bodies, current. by rewrite app_nil_r.
  - destruct (parse_email_line_bodies st line processed bodies current Hinv)
      as (bodies1 & current1 & Hstep).
    destruct (IH _ _ _ _ Hstep) as (bodies' & current' & Hrest).
    exists bodies', current'. cbn [fold_left].
    by rewrite <- app_assoc in Hrest.
Qed.
End EmailLoader.

(** Of a file that exists, [load_emails] returns the emails between the
    separator lines: at most one more than there are separators.  The
    message of each is the stripped text of lines of the file: lines that
    are neither blank, nor separators, nor headers, taken in the order of
    the file and none of them for two emails, the line that starts with
    [Mensagem:] giving the text behind the colon.  No returned message is
    blank, and each email but the last has a sender, since a block without
    a [De:] line is stored only at the end of the file. *)
Theorem load_emails_contract `{PyStr} (files : string -> option string)
    (filepath content : string) :
  files filepath = Some content →
  ∃ emails bodies,
    load_emails files filepath = Ok emails ∧
    (length emails
       ≤ S (length (List.filter is_separator (split_char (ascii_of_nat 10) content))))%nat ∧
    Forall2 message_of emails bodies ∧
    concat bodies `sublist_of` split_char (ascii_of_nat 10) content ∧
    Forall (λ line, is_message_line line = true) (concat bodies) ∧
    Forall (λ e, py_strip (mensagem e) ≠ "") emails ∧
    ∀ i e, emails !! i = Some e → (S i < length emails)%nat → remetente e ≠ "".
Proof.
  intros Hfile. unfold load_emails. rewrite Hfile.
  set (lines := split_char (ascii_of_nat 10) content).
  set (start := {| ep_current := empty_email; ep_in_message := false;
                   ep_message_lines := []; ep_emails := [] |}).
  destruct (parse_email_lines_invariant lines start 0) as (_ & Hstored & Hlen).
  { split; [done|]. split; [constructor|]. cbn. lia. }
  destruct (parse_email_lines_bodies lines start [] [] [])
    as (bodies & current & Hmessages & Hcurrent & Hsub & Hkind).
  { split; [constructor|]. split; [done|]. split; [done|constructor]. }
  cbn [app] in Hsub.
  set (st := fold_left parse_email_line lines start) in *.
  set (keep := fun e : Email => nonempty (py_strip (mensagem e))).
  cbn [Nat.add] in Hlen.
  assert (Hshape : ∃ (last : list Email) (last_bodies : list (list string)),
    (if nonempty (remetente (ep_current st))
        || match ep_message_lines st with [] => false | _ => true end
     then ep_emails st ++ [ finished_email st ] else ep_emails st)
    = ep_emails st ++ last ∧ (length last ≤ 1)%nat ∧
    Forall2 message_of last last_bodies ∧
    concat last_bodies `sublist_of` current).
  { destruct (_ || _).
    - exists [ finished_email st ], [ current ]. split; [done|]. split; [cbn; lia|].
      split; [|cbn; by rewrite app_nil_r].
      constructor; [|constructor].
      unfold message_of, finished_email. cbn [mensagem]. by rewrite Hcurrent.
    - exists [], []. rewrite app_nil_r. split; [done|]. split; [cbn; lia|].
      split; [constructor|apply sublist_nil_l]. }
  destruct Hshape as (last & last_bodies & -> & Hlast & Hlast_bodies & Hlast_sub).
  assert (Hall : Forall2 message_of (ep_emails st ++ last) (bodies ++ last_bodies))
    by (by apply Forall2_app).
  destruct (Forall2_filter_l message_of keep _ _ Hall) as (kept & Hkept_bodies & Hkept_sub).
  assert (Hfrom : concat kept `sublist_of` concat bodies ++ current).
  { etrans; [by apply sublist_concat|]. rewrite concat_app. by apply sublist_app. }
  exists (List.filter keep (ep_emails st ++ last)), kept.
  split; [done|].
  rewrite List.filter_app.
  assert (Hkept : (length (List.filter keep (ep_emails st)) ≤ length (ep_emails st))%nat)
    by apply List.filter_length_le.
  assert (Hkept_last : (length (List.filter keep last) ≤ length last)%nat)
    by apply List.filter_length_le.
  split; [rewrite length_app; lia|].
  split; [by rewrite <- List.filter_app|].
  split; [by etrans|].
  split; [by apply (Forall_of_sublist _ _ _ Hfrom)|]. split.
  - apply Forall_forall. intros e He.
    rewrite <- List.filter_app in He.
    apply list_elem_of_In, List.filter_In in He as [_ Hkeep].
    by apply nonempty_spec.
  - intros i e He Hi. rewrite length_app in Hi.
    assert (Hfirst : (i < length (List.filter keep (ep_emails st)))%nat) by lia.
    rewrite lookup_app_l in He by done.
    apply list_elem_of_lookup_2, list_elem_of_In, List.filter_In in He as [He _].
    apply list_elem_of_In in He.
    by apply (proj1 (Forall_forall _ _) Hstored e He).
Qed.

Lemma load_emails_contract_witness :
  ∃ emails bodies,
    load_emails (H := Sample.py_str) (Sample.mailbox Sample.email_file)
      Sample.emails_path = Ok emails ∧
    (length emails
       ≤ S (length (List.filter (is_separator (H := Sample.py_str))
                      (split_char (ascii_of_nat 10) Sample.email_file))))%nat ∧
    Forall2 (message_of (H := Sample.py_str)) emails bodies ∧
    concat bodies `sublist_of` split_char (ascii_of_nat 10) Sample.email_file ∧
    Forall (λ line, is_message_line (H := Sample.py_str) line = true) (concat bodies) ∧
    Forall (λ e, Sample.strip (mensagem e) ≠ "") emails ∧
    ∀ i e, emails !! i = Some e → (S i < length emails)%nat → remetente e ≠ "".
Proof.
  apply (load_emails_contract (H := Sample.py_str) (Sample.mailbox Sample.email_file)
           Sample.emails_path Sample.email_file).
  reflexivity.
Defined.

(** ** The contextual analysis as a whole *)

(** Both files are loaded before the first call: when the email file or
    the transaction file does not exist, the analysis raises
    [FileNotFoundError] and no call has been made. *)
Theorem contextual_analysis_needs_both_files `{PyStr} `{Pandas} `{External} `{PyJson}
    (llm : Llm) (files : string -> option string) (fs : string -> option RawFrame)
    (emails_path transactions_path : string) (n : nat) :
  files emails_path = None ∨ fs transactions_path = None →
  ∃ msg,
    analyze_contextual_frauds llm files fs emails_path transactions_path n
      = (Raise (FileNotFoundError msg), n).
Proof.
  intros Hmissing.
  unfold analyze_contextual_frauds, mbind, calls_bind, lift, load_emails.
  destruct (files emails_path) as [content|]; [|by eexists].
  destruct Hmissing as [|Hmissing]; [done|].
  unfold load_transactions. rewrite Hmissing. by eexists.
Qed.

Lemma contextual_analysis_needs_both_files_witness :
  ∃ msg,
    analyze_contextual_frauds (H := Sample.py_str) (H0 := Sample.pandas)
      (H1 := Sample.external) (H2 := Sample.py_json)
      (Sample.flaky_llm Sample.flagged_reply) (Sample.mailbox Sample.email_file)
      (fun _ => None) Sample.emails_path Sample.transactions_path 0
      = (Raise (FileNotFoundError msg), 0).
Proof.
  apply (contextual_analysis_needs_both_files (H := Sample.py_str) (H0 := Sample.pandas)
           (H1 := Sample.external) (H2 := Sample.py_json)).
  right. reflexivity.
Defined.

(** Once both files are loaded, the three strategies run in order,
    each from the call count the one before it has reached, and none of
    them raises; the coordinated strategy makes at most twenty calls, the
    two others one call for each email they examine.  The analysis holds
    the records of the coordinated strategy, then those of the
    false-justification strategy, then those of the hidden-information
    strategy; the only exception that can still come is one of the report,
    after all the calls. *)
Theorem contextual_analysis_composition `{PyStr} `{Pandas} `{External} `{PyJson}
    (llm : Llm) (files : string -> option string) (fs : string -> option RawFrame)
    (emails_path transactions_path : string) (emails : list Email) (df : DataFrame)
    (n : nat) :
  load_emails files emails_path = Ok emails →
  load_transactions fs transactions_path = Ok df →
  ∃ coordinated false_justifications hidden_info n1 n2 n3,
    _detect_coordinated_fraud llm emails df n = (Ok coordinated, n1) ∧
    _detect_false_justifications llm emails df n1 = (Ok false_justifications, n2) ∧
    _detect_hidden_information llm emails df n2 = (Ok hidden_info, n3) ∧
    (n ≤ n1 ≤ n + 20)%nat ∧
    n2 = n1 + length (take 20 (List.filter (mentions_any justification_keywords) emails)) ∧
    n3 = n2 + length (List.filter (mentions_any hiding_keywords) emails) ∧
    Forall (flagged_record "is_false" "JUSTIFICATIVA_FALSA") false_justifications ∧
    Forall (flagged_record "is_hiding" "OCULTACAO_INFORMACAO") hidden_info ∧
    analyze_contextual_frauds llm files fs emails_path transactions_path n
    = (match Contextual._generate_report
               (coordinated ++ false_justifications ++ hidden_info)
               (length emails) (length (rows df)) with
       | Ok report =>
           Ok {| ca_total_emails := length emails;
                 ca_total_transactions := length (rows df);
                 contextual_frauds := coordinated ++ false_justifications ++ hidden_info;
                 ca_total_frauds :=
                   length (coordinated ++ false_justifications ++ hidden_info);
                 ca_report := report |}
       | Raise e => Raise e
       end, n3).
Proof.
  intros Hemails Hdf.
  destruct (coordinated_loop_run llm df (take 20 (List.filter is_suspicious emails)) [] n)
    as (coordinated & n1 & Hcoordinated & Hn1).
  destruct (judgment_loop_run (_analyze_justification llm) "is_false"
              "JUSTIFICATIVA_FALSA" 6 df
              (take 20 (List.filter (mentions_any justification_keywords) emails)) [] n1)
    as (false_justifications & Hfalse & Hflagged_false & _).
  { intros email m. apply analyze_with_prompts_run. }
  destruct (judgment_loop_run (_analyze_information_hiding llm) "is_hiding"
              "OCULTACAO_INFORMACAO" 8 df
              (List.filter (mentions_any hiding_keywords) emails) []
              (n1 + length (take 20 (List.filter (mentions_any justification_keywords)
                                       emails))))
    as (hidden_info & Hhidden & Hflagged_hidden & _).
  { intros email m. apply analyze_with_prompts_run. }
  cbn [app] in Hfalse, Hhidden.
  eexists coordinated, false_justifications, hidden_info, n1, _, _.
  split; [exact Hcoordinated|]. split; [exact Hfalse|]. split; [exact Hhidden|].
  split; [rewrite length_take in Hn1; lia|].
  split; [reflexivity|]. split; [reflexivity|]. split; [done|]. split; [done|].
  unfold analyze_contextual_frauds, mbind, calls_bind, lift.
  rewrite Hemails, Hdf.
  unfold _detect_coordinated_fraud, _detect_false_justifications,
    _detect_hidden_information in *.
  rewrite Hcoordinated, Hfalse, Hhidden. cbn [app].
  rewrite <- !app_assoc.
  by destruct (Contextual._generate_report _ _ _).
Qed.

Lemma contextual_analysis_composition_witness :
  ∃ emails df coordinated false_justifications hidden_info n1 n2 n3,
    load_emails (H := Sample.py_str) (Sample.mailbox Sample.email_file)
      Sample.emails_path = Ok emails ∧
    load_transactions (H := Sample.pandas) (Sample.disk Sample.audit_file)
      Sample.transactions_path = Ok df ∧
    _detect_coordinated_fraud (H := Sample.py_str) (H0 := Sample.external)
      (Sample.flaky_llm Sample.flagged_reply) emails df 0 = (Ok coordinated, n1) ∧
    _detect_false_justifications (H := Sample.py_str) (H0 := Sample.external)
      (Sample.flaky_llm Sample.flagged_reply) emails df n1
      = (Ok false_justifications, n2) ∧
    _detect_hidden_information (H := Sample.py_str) (H0 := Sample.external)
      (Sample.flaky_llm Sample.flagged_reply) emails df n2 = (Ok hidden_info, n3) ∧
    (n1, n2, n3) = (1, 2, 3) ∧
    analyze_contextual_frauds (H := Sample.py_str) (H0 := Sample.pandas)
      (H1 := Sample.external) (H2 := Sample.py_json)
      (Sample.flaky_llm Sample.flagged_reply) (Sample.mailbox Sample.email_file)
      (Sample.disk Sample.audit_file) Sample.emails_path Sample.transactions_path 0
    = (match Contextual._generate_report (H := Sample.py_str) (H0 := Sample.py_json)
               (coordinated ++ false_justifications ++ hidden_info)
               (length emails) (length (rows df)) with
       | Ok report =>
           Ok {| ca_total_emails := length emails;
                 ca_total_transactions := length (rows df);
                 contextual_frauds := coordinated ++ false_justifications ++ hidden_info;
                 ca_total_frauds :=
                   length (coordinated ++ false_justifications ++ hidden_info);
                 ca_report := report |}
       | Raise e => Raise e
       end, n3).
Proof.
  destruct (load_emails (H := Sample.py_str) (Sample.mailbox Sample.email_file)
              Sample.emails_path) as [emails|] eqn:Hemails;
    [|by vm_compute in Hemails].
  destruct (load_transactions (H := Sample.pandas) (Sample.disk Sample.audit_file)
              Sample.transactions_path) as [df|] eqn:Hdf;
    [|by vm_compute in Hdf].
  destruct (contextual_analysis_composition (H := Sample.py_str) (H0 := Sample.pandas)
              (H1 := Sample.external) (H2 := Sample.py_json)
              (Sample.flaky_llm Sample.flagged_reply) (Sample.mailbox Sample.email_file)
              (Sample.disk Sample.audit_file) Sample.emails_path
              Sample.transactions_path emails df 0 Hemails Hdf)
    as (coordinated & false_justifications & hidden_info & n1 & n2 & n3
        & Hcoordinated & Hfalse & Hhidden & _ & Hn2 & Hn3 & _ & _ & Hrun).
  exists emails, df, coordinated, false_justifications, hidden_info, n1, n2, n3.
  split; [reflexivity|]. split; [reflexivity|].
  split; [exact Hcoordinated|]. split; [exact Hfalse|]. split; [exact Hhidden|].
  split; [|exact Hrun].
  vm_compute in Hemails. injection Hemails as <-.
  vm_compute in Hcoordinated. injection Hcoordinated as _ <-.
  subst n2 n3. reflexivity.
Defined.

(** ** Grouping by violation type *)

Section Grouping.
Context {A : Type} (vtype : A -> string).
Implicit Types (d : list (string * list A)) (l : list A).

Lemma dict_get_set {V : Type} (d : list (string * V)) k v t :
  dict_get (dict_set d k v) t = if decide (k = t) then Some v else dict_get d t.
Proof.
  induction d as [|[k' v'] d IH]; cbn.
  - by destruct (decide (k = t)).
  - destruct (decide (k' = k)) as [->|Hne]; cbn.
    + by destruct (decide (k = t)).
    + rewrite IH. destruct (decide (k' = t)) as [->|]; [|done].
      by destruct (decide (k = t)).
Qed.

Lemma grouped_total_set d k (items : list A) :
  grouped_total (dict_set d k items) + length (default [] (dict_get d k))
  = grouped_total d + length items.
Proof.
  unfold grouped_total. induction d as [|[k' v'] d IH]; csimpl; [lia|].
  destruct (decide (k' = k)) as [->|Hne]; csimpl; lia.
Qed.

Lemma of_type_snoc t l f :
  of_type vtype t (l ++ [f])
  = of_type vtype t l ++ (if decide (vtype f = t) then [f] else []).
Proof.
  unfold of_type. rewrite List.filter_app. cbn.
  destruct (String.eqb_spec (vtype f) t); by destruct (decide (vtype f = t)).
Qed.

Lemma group_fold_spec l :
  let by_type := fold_left (group_step vtype) l [] in
  NoDup by_type.*1 ∧
  (∀ t, dict_get by_type t
        = match of_type vtype t l with [] => None | items => Some items end) ∧
  grouped_total by_type = length l.
Proof.
  induction l as [|f l IH] using rev_ind; cbn zeta.
  - split; [constructor|]. split; [done|done].
  - rewrite fold_left_app. cbn [fold_left].
    set (d := fold_left (group_step vtype) l []) in *.
    destruct IH as (Hnd & Hget & Htotal). unfold group_step.
    pose proof (Hget (vtype f)) as Hmine.
    assert (Hnew : ∀ items, dict_get d (vtype f) = items →
      ∀ t, dict_get (dict_set d (vtype f) (default [] items ++ [f])) t
           = match of_type vtype t (l ++ [f]) with [] => None | its => Some its end).
    { intros items Hitems t. rewrite dict_get_set, of_type_snoc.
      destruct (decide (vtype f = t)) as [<-|Hne].
      - rewrite <- Hitems, Hmine.
        by destruct (of_type vtype (vtype f) l).
      - rewrite app_nil_r. apply Hget. }
    destruct (dict_get d (vtype f)) as [items|] eqn:Hd.
    + split; [|split].
      * rewrite dict_set_keys_present; [done|].
        apply dict_get_Some in Hd. apply list_elem_of_fmap. by exists (vtype f, items).
      * exact (Hnew (Some items) eq_refl).
      * pose proof (grouped_total_set d (vtype f) (items ++ [f])) as Hset.
        rewrite Hd in Hset. cbn in Hset. rewrite !length_app in *. cbn in *. lia.
    + split; [|split].
      * rewrite dict_set_keys_fresh by by apply dict_get_None.
        apply NoDup_app. split; [done|]. split; [|apply NoDup_singleton].
        intros k Hk ->%list_elem_of_singleton. by apply dict_get_None in Hd.
      * exact (Hnew None eq_refl).
      * pose proof (grouped_total_set d (vtype f) [f]) as Hset.
        rewrite Hd in Hset. cbn in Hset. rewrite length_app. cbn. lia.
Qed.
End Grouping.

(** The table [VIOLAÇÕES POR TIPO] of both reports: the loop that fills
    [by_type] makes one entry for each violation type that occurs, holding
    the records of that type in their order, so the counts of the table add
    up to the number of records. *)
Theorem violations_grouped_by_type (frauds : list Violation)
    (contextual : list ContextualFraud) :
  (let by_type := fold_left by_type_step frauds [] in
   NoDup by_type.*1 ∧
   (∀ t, dict_get by_type t
         = match of_type violation_type t frauds with
           | [] => None
           | items => Some items
           end) ∧
   grouped_total by_type = length frauds) ∧
  (let by_type := fold_left (group_step cf_violation_type) contextual [] in
   NoDup by_type.*1 ∧
   (∀ t, dict_get by_type t
         = match of_type cf_violation_type t contextual with
           | [] => None
           | items => Some items
           end) ∧
   grouped_total by_type = length contextual).
Proof.
  split.
  - apply (group_fold_spec violation_type frauds).
  - apply (group_fold_spec cf_violation_type contextual).
Qed.

(** ** The ranking of the contextual report *)

Lemma num_leb_total (x y : pynum) :
  is_nan x = false → is_nan y = false → num_leb x y = false → num_leb y x = true.
Proof.
  destruct x as [a|[]|], y as [b|[]|]; cbn; try done.
  intros _ _ Hab. apply Qle_bool_iff.
  destruct (Qlt_le_dec b a) as [Hlt|Hle]; [by apply Qlt_le_weak|].
  apply Qle_bool_iff in Hle. congruence.
Qed.

Lemma num_leb_trans (x y z : pynum) :
  num_leb x y = true → num_leb y z = true → num_leb x z = true.
Proof.
  destruct x as [a|[]|], y as [b|[]|], z as [c|[]|]; cbn; try done.
  rewrite !Qle_bool_iff. apply Qle_trans.
Qed.

Lemma num_leb_neg (x y : pynum) : num_leb (num_neg x) (num_neg y) = num_leb y x.
Proof.
  destruct x as [a|[]|], y as [b|[]|]; cbn; try done.
  destruct (Qle_bool b a) eqn:Hba.
  - apply Qle_bool_iff. apply Qle_bool_iff in Hba. by apply Qopp_le_compat.
  - destruct (Qle_bool (- a) (- b)) eqn:Hneg; [|done].
    apply Qle_bool_iff, Qopp_le_compat in Hneg. rewrite !Qopp_involutive in Hneg.
    apply Qle_bool_iff in Hneg. congruence.
Qed.

Lemma is_nan_neg (x : pynum) : is_nan (num_neg x) = is_nan x.
Proof. by destruct x. Qed.

Section StableSort.
Context {A : Type} (leb : A -> A -> bool) (comparable : A -> Prop).
Hypothesis leb_total :
  ∀ x y, comparable x → comparable y → leb x y = false → leb y x = true.
Hypothesis leb_trans : ∀ x y z, leb x y = true → leb y z = true → leb x z = true.

Lemma stable_insert_sorted x l :
  comparable x → Forall comparable l →
  StronglySorted (λ a b, leb a b = true) l →
  StronglySorted (λ a b, leb a b = true) (stable_insert leb x l).
Proof.
  intros Hx Hl. induction 1 as [|y l Hsorted IH Hall]; cbn.
  - repeat constructor.
  - apply Forall_cons in Hl as [Hy Hl].
    destruct (leb x y) eqn:Hxy.
    + constructor; [by constructor|]. constructor; [done|].
      eapply Forall_impl; [exact Hall|]. intros z Hz. by eapply leb_trans.
    + constructor; [by apply IH|].
      apply Forall_forall. intros z Hz.
      rewrite stable_insert_perm in Hz.
      apply elem_of_cons in Hz as [->|Hz]; [by apply leb_total|].
      by apply (proj1 (Forall_forall _ _) Hall).
Qed.

Lemma stable_sort_sorted l :
  Forall comparable l → StronglySorted (λ a b, leb a b = true) (stable_sort leb l).
Proof.
  induction 1 as [|x l Hx Hl IH]; [constructor|].
  change (stable_sort leb (x :: l)) with (stable_insert leb x (stable_sort leb l)).
  apply stable_insert_sorted; [done| |done]. by rewrite stable_sort_perm.
Qed.
End StableSort.

(** When every severity is a number the ranking exists and holds the
    same records as the list.  When none of them is NaN it runs from the
    most severe to the least; with a NaN among them nothing is known of
    its order, since no comparison with NaN holds. *)
Theorem severity_ranking_descends `{PyJson} (frauds : list ContextualFraud) :
  Forall numeric_severity frauds →
  ∃ ranked,
    sorted_by_severity frauds = Ok ranked ∧
    ranked ≡ₚ frauds ∧
    (Forall ordered_severity frauds →
     StronglySorted (λ f g, num_leb (severity_value g) (severity_value f) = true)
       ranked).
Proof.
  intros Hnum.
  destruct (sorted_by_severity_Ok frauds Hnum) as (keys & _ & Hlen & Hkeys & Hsorted).
  eexists. split; [exact Hsorted|].
  split; [by apply sorted_by_severity_perm|].
  intros Hordered_all.
  set (leb := fun x y : pynum * ContextualFraud => num_leb x.1 y.1).
  assert (Hkeyed : Forall (λ p : pynum * ContextualFraud,
                             p.1 = num_neg (severity_value p.2) ∧ is_nan p.1 = false)
                     (zip keys frauds)).
  { apply Forall_forall. intros [k f] Hin.
    apply list_elem_of_lookup in Hin as [i Hi].
    apply lookup_zip_with_Some in Hi as (k' & f' & [= -> ->] & Hk & Hf).
    rewrite (Hkeys i f' Hf) in Hk. injection Hk as <-. split; [done|].
    cbn [fst snd]. rewrite is_nan_neg.
    apply list_elem_of_lookup_2 in Hf.
    destruct (proj1 (Forall_forall _ _) Hordered_all f' Hf) as (x & Hx & Hnan).
    unfold severity_value. by rewrite Hx. }
  assert (Hnone : existsb is_nan keys = false).
  { apply not_true_is_false. intros (k & Hk & Hnan)%existsb_exists.
    apply list_elem_of_In, list_elem_of_lookup in Hk as [i Hi].
    assert (Hf : is_Some (frauds !! i)).
    { apply lookup_lt_is_Some. rewrite <- Hlen. by eapply lookup_lt_Some. }
    destruct Hf as [f Hf].
    assert (Hin : (k, f) ∈ zip keys frauds).
    { apply list_elem_of_lookup. exists i. apply lookup_zip_with_Some. by exists k, f. }
    destruct (proj1 (Forall_forall _ _) Hkeyed _ Hin) as [_ Hno]. cbn in Hno. congruence. }
  rewrite Hnone.
  assert (Hordered : StronglySorted (λ a b, leb a b = true)
                       (stable_sort leb (zip keys frauds))).
  { apply (stable_sort_sorted leb (λ p, is_nan p.1 = false)).
    - intros x y Hx Hy. by apply num_leb_total.
    - intros x y z. apply num_leb_trans.
    - eapply Forall_impl; [exact Hkeyed|]. by intros p [_ ?]. }
  assert (Hkeyed' : Forall (λ p : pynum * ContextualFraud,
                              p.1 = num_neg (severity_value p.2))
                      (stable_sort leb (zip keys frauds))).
  { rewrite stable_sort_perm. eapply Forall_impl; [exact Hkeyed|]. by intros p [? _]. }
  induction Hordered as [|p l Hsorted' IH Hall]; csimpl; [constructor|].
  apply Forall_cons in Hkeyed' as [Hp Hrest].
  constructor; [by apply IH|].
  apply Forall_fmap, Forall_forall. intros g Hg. cbn.
  pose proof (proj1 (Forall_forall _ _) Hall g Hg) as Hle.
  pose proof (proj1 (Forall_forall _ _) Hrest g Hg) as Hgk.
  unfold leb in Hle. by rewrite Hp, Hgk, num_leb_neg in Hle.
Qed.

Lemma severity_ranking_descends_witness :
  ∃ ranked,
    sorted_by_severity (H := Sample.py_json)
      [ Sample.hiding_record; Sample.coordinated_record ] = Ok ranked ∧
    ranked ≡ₚ [ Sample.hiding_record; Sample.coordinated_record ] ∧
    StronglySorted (λ f g, num_leb (severity_value g) (severity_value f) = true) ranked.
Proof.
  destruct (severity_ranking_descends (H := Sample.py_json)
              [ Sample.hiding_record; Sample.coordinated_record ])
    as (ranked & Hrun & Hperm & Hsorted).
  { repeat constructor; eexists; reflexivity. }
  exists ranked. split; [exact Hrun|]. split; [exact Hperm|].
  apply Hsorted. repeat constructor; eexists; (split; reflexivity).
Defined.

(** ** The conspiracy scan *)

Lemma has_all_keys_dict (entries : list (string * json)) (keys : list string) :
  has_all_keys (JDict entries) keys = Ok true →
  ∀ key, key ∈ keys → ∃ v, json_item (JDict entries) key = Ok v.
Proof.
  induction keys as [|k keys IH]; cbn; [by intros _ key ?%elem_of_nil|].
  destruct (bool_decide (k ∈ entries.*1)) eqn:Hk; [|done].
  intros Hrest key [->|Hkey]%elem_of_cons; [|by apply IH].
  apply bool_decide_eq_true in Hk.
  destruct (dict_get entries k) as [v|] eqn:Hget; [by exists v|].
  by apply dict_get_None in Hget.
Qed.

Section ConspiracyScan.
Context `{PyStr} `{External} (llm : Llm).

(** The judgment of one email: the fallback, or a judgment of one of the
    attempts that has passed the test of the required keys. *)
Lemma analyze_single_email_run (email : Email) (n : nat) :
  ∃ analysis n',
    _analyze_single_email llm email n = (Ok analysis, n') ∧
    (S n ≤ n' ≤ n + 2)%nat ∧
    (analysis = conspiracy_fallback ∨
     ∃ m, complete_judgment llm email m = Some analysis) ∧
    (∀ first, complete_judgment llm email n = Some first →
       analysis = first ∧ n' = S n).
Proof.
  unfold _analyze_single_email, max_retries.
  rewrite conspiracy_attempts_step.
  destruct (complete_judgment llm email n) as [first|] eqn:Hfirst.
  { exists first, (S n). split; [done|]. split; [lia|]. split; [right; eauto|].
    by intros ? [= <-]. }
  rewrite conspiracy_attempts_step.
  destruct (complete_judgment llm email (S n)) as [second|] eqn:Hsecond.
  { exists second, (S (S n)). split; [done|]. split; [lia|]. split; [right; eauto|done]. }
  exists conspiracy_fallback, (S (S n)). split; [done|]. split; [lia|].
  split; [by left|done].
Qed.

Lemma suspicious_step_run (found : list SuspiciousEmail) (email : Email) (n : nat) :
  (∀ m analysis, complete_judgment llm email m = Some analysis →
     ∃ entries, analysis = JDict entries) →
  ∃ found' n',
    suspicious_step llm found email n = (Ok found', n') ∧
    (S n ≤ n' ≤ n + 2)%nat ∧
    (found' = found ∨
     ∃ item, found' = found ++ [item] ∧ se_email item = email ∧ suspicious_record item).
Proof.
  intros Hdict.
  destruct (analyze_single_email_run email n) as (analysis & n' & Hrun & Hn' & Hfrom & _).
  unfold suspicious_step, mbind, calls_bind, lift, mret, calls_ret. rewrite Hrun.
  assert (Hkeys : ∃ entries, analysis = JDict entries ∧
                    has_all_keys analysis conspiracy_required_keys = Ok true).
  { destruct Hfrom as [->|[m Hm]]; [by eexists|].
    destruct (Hdict m analysis Hm) as [entries ->]. exists entries. split; [done|].
    by apply (complete_judgment_keys llm email m). }
  destruct Hkeys as (entries & -> & Hkeys).
  pose proof (has_all_keys_dict entries conspiracy_required_keys Hkeys) as Hitem.
  assert (Hrequired : ∀ key, key = "is_suspicious" ∨ key = "severity" ∨ key = "reasoning" →
                             key ∈ conspiracy_required_keys).
  { intros key Hkey. unfold conspiracy_required_keys. rewrite !elem_of_cons. tauto. }
  destruct (Hitem "is_suspicious") as [flag Hflag]; [apply Hrequired; tauto|].
  rewrite Hflag. destruct (truthy flag) eqn:Htruthy.
  - eexists _, n'. split; [done|]. split; [done|]. right.
    eexists. split; [done|]. split; [done|].
    split; [by exists flag|]. split; apply Hitem, Hrequired; tauto.
  - exists found, n'. split; [done|]. split; [done|]. by left.
Qed.

Lemma suspicious_loop_run (emails : list Email) (found : list SuspiciousEmail) (n : nat) :
  (∀ email m analysis, complete_judgment llm email m = Some analysis →
     ∃ entries, analysis = JDict entries) →
  ∃ found' n',
    foldC (suspicious_step llm) found emails n = (Ok (found ++ found'), n') ∧
    (n + length emails ≤ n' ≤ n + 2 * length emails)%nat ∧
    Forall suspicious_record found' ∧
    se_email <$> found' `sublist_of` emails.
Proof.
  intros Hdict. revert found n.
  induction emails as [|email emails IH]; intros found n.
  - exists [], n. rewrite app_nil_r. split; [done|]. split; [cbn; lia|]. by split.
  - destruct (suspicious_step_run found email n (Hdict email))
      as (found1 & n1 & Hstep & Hn1 & Hcase).
    destruct (IH found1 n1) as (found' & n' & Hloop & Hn' & Hrecords & Hsub).
    cbn [foldC]. unfold mbind, calls_bind. rewrite Hstep, Hloop.
    destruct Hcase as [->|(item & -> & Hemail & Hitem)].
    + exists found', n'. split; [done|]. split; [cbn [length]; lia|].
      split; [done|]. by apply sublist_cons.
    + exists (item :: found'), n'. rewrite <- app_assoc. split; [done|].
      split; [cbn [length]; lia|]. split; [by constructor|].
      csimpl. rewrite Hemail. by apply sublist_skip.
Qed.
End ConspiracyScan.

Section ConspiracyScanExact.
Context `{PyStr} `{External} (llm : Llm).

Lemma suspicious_loop_exact (emails : list Email) (found : list SuspiciousEmail) (n : nat) :
  (∀ email m analysis, complete_judgment llm email m = Some analysis →
     ∃ entries, analysis = JDict entries) →
  ∃ n',
    foldC (suspicious_step llm) found emails n
      = (Ok (found ++ List.filter marked_suspicious (scan_judgments llm emails n)), n') ∧
    se_email <$> scan_judgments llm emails n = emails.
Proof.
  intros Hdict. revert found n.
  induction emails as [|email emails IH]; intros found n.
  - exists n. cbn. by rewrite app_nil_r.
  - destruct (analyze_single_email_run llm email n)
      as (analysis & n1 & Hrun & _ & Hfrom & _).
    assert (Hkeys : ∃ entries flag, analysis = JDict entries ∧
                      json_item analysis "is_suspicious" = Ok flag).
    { destruct Hfrom as [->|[m Hm]]; [by eexists _, _|].
      destruct (Hdict email m analysis Hm) as [entries ->].
      pose proof (complete_judgment_keys llm email m _ Hm) as Hkeys.
      destruct (has_all_keys_dict entries conspiracy_required_keys Hkeys "is_suspicious")
        as [flag Hflag].
      { unfold conspiracy_required_keys. rewrite !elem_of_cons. tauto. }
      by exists entries, flag. }
    destruct Hkeys as (entries & flag & -> & Hflag).
    cbn [foldC scan_judgments]. unfold mbind, calls_bind.
    unfold suspicious_step at 1. unfold mbind, calls_bind, lift, mret, calls_ret.
    rewrite Hrun, Hflag.
    set (item := {| se_email := email; se_analysis := JDict entries |}).
    destruct (IH (if truthy flag then found ++ [ item ] else found) n1)
      as (n' & Hloop & Hemails).
    exists n'. rewrite Hloop. cbn [List.filter fmap list_fmap se_email].
    split; [|by rewrite Hemails].
    assert (Hmarked : marked_suspicious item = truthy flag)
      by (unfold marked_suspicious, item; cbn [se_analysis]; by rewrite Hflag).
    rewrite Hmarked. destruct (truthy flag); [by rewrite <- app_assoc|done].
Qed.
End ConspiracyScanExact.

(** When every judgment that passes the test of the required keys is a
    JSON object, the scan of the conspiracy detector never raises and
    takes one or two calls for each email.  Every email gets its
    judgment, asked from the call count the judgment before it has
    reached, and the scan stores exactly the emails whose judgment has a
    true [is_suspicious], with that judgment and in the order of the
    emails; a stored judgment has its [severity] and its [reasoning]. *)
Theorem conspiracy_scan_returns_on_objects `{PyStr} `{External} (llm : Llm)
    (emails : list Email) (n : nat) :
  (∀ email m analysis, complete_judgment llm email m = Some analysis →
     ∃ entries, analysis = JDict entries) →
  ∃ found n',
    foldC (suspicious_step llm) [] emails n = (Ok found, n') ∧
    (n + length emails ≤ n' ≤ n + 2 * length emails)%nat ∧
    se_email <$> scan_judgments llm emails n = emails ∧
    found = List.filter marked_suspicious (scan_judgments llm emails n) ∧
    Forall suspicious_record found.
Proof.
  intros Hdict.
  destruct (suspicious_loop_run llm emails [] n Hdict)
    as (found & n' & Hrun & Hn' & Hrecords & _).
  destruct (suspicious_loop_exact llm emails [] n Hdict) as (n'' & Hexact & Hemails).
  exists found, n'. split; [done|]. split; [done|]. split; [done|].
  split; [|done]. rewrite Hrun in Hexact. by injection Hexact as ->.
Qed.

Lemma sample_judgments_are_objects (email : Email) (m : nat) (analysis : json) :
  complete_judgment (H := Sample.py_str) (H0 := Sample.external)
    (Sample.flaky_llm Sample.suspicious_reply) email m = Some analysis →
  ∃ entries, analysis = JDict entries.
Proof.
  destruct m as [|m]; vm_compute; intros Hsome; [discriminate Hsome|].
  injection Hsome as <-. by eexists.
Defined.

Lemma conspiracy_scan_returns_on_objects_witness :
  ∃ found n',
    foldC (suspicious_step (H := Sample.py_str) (H0 := Sample.external)
             (Sample.flaky_llm Sample.suspicious_reply))
      [] [ Sample.split_email ] 0 = (Ok found, n') ∧
    (0 + 1 ≤ n' ≤ 0 + 2 * 1)%nat ∧
    se_email <$> scan_judgments (H := Sample.py_str) (H0 := Sample.external)
                   (Sample.flaky_llm Sample.suspicious_reply) [ Sample.split_email ] 0
      = [ Sample.split_email ] ∧
    found = List.filter marked_suspicious
              (scan_judgments (H := Sample.py_str) (H0 := Sample.external)
                 (Sample.flaky_llm Sample.suspicious_reply) [ Sample.split_email ] 0) ∧
    Forall suspicious_record found.
Proof.
  apply (conspiracy_scan_returns_on_objects (H := Sample.py_str) (H0 := Sample.external)
           (Sample.flaky_llm Sample.suspicious_reply) [ Sample.split_email ] 0).
  exact sample_judgments_are_objects.
Defined.

(** The test of the required keys is [key in analysis], which a JSON list
    or string can pass as well: such a judgment is returned by
    [_analyze_single_email], and the scan, which subscripts it outside any
    [try], raises. *)
Theorem conspiracy_scan_raises_on_other_judgment `{PyStr} `{External} (llm : Llm)
    (email : Email) (found : list SuspiciousEmail) (n : nat) (analysis : json) :
  complete_judgment llm email n = Some analysis →
  (∀ entries, analysis ≠ JDict entries) →
  has_all_keys analysis conspiracy_required_keys = Ok true ∧
  ∃ e, suspicious_step llm found email n = (Raise e, S n).
Proof.
  intros Hfirst Hother.
  split; [by apply (complete_judgment_keys llm email n)|].
  destruct (analyze_single_email_run llm email n) as (a & n' & Hrun & _ & _ & Hsame).
  destruct (Hsame analysis Hfirst) as [-> ->].
  unfold suspicious_step, mbind, calls_bind, lift. rewrite Hrun.
  destruct analysis; cbn; try by eexists.
  by destruct (Hother entries).
Qed.

Lemma conspiracy_scan_raises_on_other_judgment_witness :
  has_all_keys (JList [ JStr "is_suspicious"; JStr "severity"; JStr "reasoning" ])
    conspiracy_required_keys = Ok true ∧
  ∃ e, suspicious_step (H := Sample.py_str) (H0 := Sample.list_external)
         (Sample.flaky_llm Sample.list_reply) [] Sample.split_email 1
       = (Raise e, 2).
Proof.
  apply (conspiracy_scan_raises_on_other_judgment (H := Sample.py_str)
           (H0 := Sample.list_external) (Sample.flaky_llm Sample.list_reply)
           Sample.split_email [] 1).
  - vm_compute. reflexivity.
  - intros entries Heq. discriminate Heq.
Defined.

(** ** The report of the conspiracy detector *)

Lemma filterM_numeric (test : pynum -> bool) (l : list SuspiciousEmail) :
  Forall numeric_band l →
  filterM (fun item => severity ← severity_of item; Ok (test severity)) l
  = Ok (List.filter (fun item => test (band_value item)) l).
Proof.
  induction 1 as [|item l [q Hq] _ IH]; cbn [filterM List.filter]; [done|].
  unfold band_value at 1. rewrite Hq, IH. done.
Qed.

Lemma filterM_Raise {A : Type} (test : A -> result bool) (l : list A) x e :
  x ∈ l → test x = Raise e → ∃ e', filterM test l = Raise e'.
Proof.
  intros Hx Hraise. induction l as [|y l IH]; [by apply elem_of_nil in Hx|].
  cbn [filterM]. apply elem_of_cons in Hx as [<-|Hx].
  - rewrite Hraise. by eexists.
  - destruct (test y) as [keep|e1]; cbn [mbind result_bind]; [|by eexists].
    destruct (IH Hx) as [e' ->]. by eexists.
Qed.

Lemma severity_bands_numeric (l : list SuspiciousEmail) :
  Forall numeric_band l →
  severity_bands l
  = Ok (List.filter (fun item => num_leb (Finite 7) (band_value item)) l,
        List.filter (fun item => num_leb (Finite 4) (band_value item)
                                 && num_ltb (band_value item) (Finite 7)) l,
        List.filter (fun item => num_ltb (band_value item) (Finite 4)) l).
Proof.
  intros Hnum. unfold severity_bands, is_high, is_medium, is_low.
  rewrite (filterM_numeric (fun x => num_leb (Finite 7) x) l Hnum).
  rewrite (filterM_numeric (fun x => num_leb (Finite 4) x && num_ltb x (Finite 7)) l Hnum).
  rewrite (filterM_numeric (fun x => num_ltb x (Finite 4)) l Hnum). done.
Qed.

(** A number that is not NaN passes exactly one of the three tests; NaN
    passes none. *)
Lemma band_cases (x : pynum) :
  let high := num_leb (Finite 7) x in
  let medium := num_leb (Finite 4) x && num_ltb x (Finite 7) in
  let low := num_ltb x (Finite 4) in
  (is_nan x = true ∧ high = false ∧ medium = false ∧ low = false) ∨
  (is_nan x = false ∧
   ((high = true ∧ medium = false ∧ low = false) ∨
    (high = false ∧ medium = true ∧ low = false) ∨
    (high = false ∧ medium = false ∧ low = true))).
Proof.
  destruct x as [q|[]|]; cbn; [|right; tauto..|left; tauto].
  right. split; [done|].
  destruct (Qle_bool 7 q) eqn:H7; destruct (Qle_bool 4 q) eqn:H4; cbn; try tauto.
  exfalso. apply Qle_bool_iff in H7.
  assert (H47 : (4 <= q)%Q) by (eapply Qle_trans; [|exact H7]; discriminate).
  apply Qle_bool_iff in H47. congruence.
Qed.

(** When every severity is a number the three bands of the conspiracy
    report exist: high from 7, medium from 4 to below 7, low below 4.
    Each suspicious email whose severity is not NaN is in exactly one
    band; one whose severity is NaN is in none, since no comparison with
    NaN holds, though the report counts it among the suspicious emails. *)
Theorem severity_bands_partition (suspicious_emails : list SuspiciousEmail) :
  Forall numeric_band suspicious_emails →
  ∃ high medium low,
    severity_bands suspicious_emails = Ok (high, medium, low) ∧
    high ++ medium ++ low
      ≡ₚ List.filter (λ item, negb (is_nan (band_value item))) suspicious_emails ∧
    Forall (λ item, num_leb (Finite 7) (band_value item) = true) high ∧
    Forall (λ item, num_leb (Finite 4) (band_value item) = true ∧
                    num_ltb (band_value item) (Finite 7) = true) medium ∧
    Forall (λ item, num_ltb (band_value item) (Finite 4) = true) low.
Proof.
  intros Hnum. rewrite (severity_bands_numeric _ Hnum).
  eexists _, _, _. split; [reflexivity|]. split; [|split; [|split]].
  - clear Hnum. induction suspicious_emails as [|item l IH]; [done|].
    cbn [List.filter].
    destruct (band_cases (band_value item))
      as [(-> & -> & -> & ->)|(-> & [(-> & -> & ->)|[(-> & -> & ->)|(-> & -> & ->)]])];
      cbn [negb app].
    + exact IH.
    + by constructor.
    + rewrite <- Permutation_middle. by constructor.
    + rewrite app_assoc, <- Permutation_middle, <- app_assoc. by constructor.
  - apply Forall_forall. by intros item [_ Hitem]%list_elem_of_In%List.filter_In.
  - apply Forall_forall. intros item [_ Hitem]%list_elem_of_In%List.filter_In.
    by apply andb_true_iff in Hitem.
  - apply Forall_forall. by intros item [_ Hitem]%list_elem_of_In%List.filter_In.
Qed.

Lemma severity_bands_partition_witness :
  ∃ high medium low,
    severity_bands [ Sample.teasing_item; Sample.unrated_item; Sample.mocking_item ]
      = Ok (high, medium, low) ∧
    (high, medium, low) = ([ Sample.mocking_item ], [], [ Sample.teasing_item ]) ∧
    high ++ medium ++ low
      ≡ₚ List.filter (λ item, negb (is_nan (band_value item)))
           [ Sample.teasing_item; Sample.unrated_item; Sample.mocking_item ].
Proof.
  destruct (severity_bands_partition
              [ Sample.teasing_item; Sample.unrated_item; Sample.mocking_item ])
    as (high & medium & low & Hrun & Hperm & _).
  { repeat constructor; eexists; reflexivity. }
  exists high, medium, low. split; [exact Hrun|]. split; [|exact Hperm].
  vm_compute in Hrun. injection Hrun as <- <- <-. reflexivity.
Defined.

Lemma severity_of_cases (item : SuspiciousEmail) :
  numeric_band item ∨ ∃ e, severity_of item = Raise e.
Proof. destruct (severity_of item) as [q|e] eqn:Hq; [left; by exists q|right; by exists e]. Qed.

Lemma join_quotes_strings (parts : list string) :
  join_quotes (JList (JStr <$> parts)) = Ok (String.concat ", " parts).
Proof.
  unfold join_quotes.
  assert (Hparts : ∀ l : list string,
    mapM (fun item => match item with
                      | JStr s => Ok s
                      | _ => Raise (OtherException
                                      "TypeError: sequence item: expected str instance")
                      end) (JStr <$> l) = Ok l).
  { induction l as [|s l IH]; cbn; [done|]. by rewrite IH. }
  by rewrite Hparts.
Qed.

Section ConspiracyReport.
Context `{PyStr} `{PyJson}.

Lemma conspiracy_entry_Ok (report : string) (item : SuspiciousEmail) :
  numeric_band item → printable_item item →
  ∃ text, conspiracy_entry report item = Ok text.
Proof.
  intros [q Hq] ([reasoning Hreasoning] & quotes & Hquotes & Hshape).
  unfold conspiracy_entry. unfold severity_of in Hq.
  destruct (json_item (se_analysis item) "severity") as [severity|] eqn:Hseverity;
    [|done].
  rewrite Hreasoning, Hquotes. cbn [mbind result_bind].
  destruct Hshape as [->|[parts ->]]; [by eexists|].
  destruct parts as [|part parts]; [by eexists|]. cbn [truthy fmap list_fmap].
  destruct (se_analysis item) as [| | | | |entries| |]; try done.
  cbn in Hquotes. cbn [json_item].
  destruct (dict_get entries "evidence_quotes") as [v|]; [|done].
  cbn in Hquotes. injection Hquotes as ->.
  cbn [mbind result_bind json_slice].
  change (JStr part :: (JStr <$> parts)) with (JStr <$> (part :: parts)).
  rewrite <- fmap_take, join_quotes_strings. by eexists.
Qed.

Lemma conspiracy_entries_Ok (items : list SuspiciousEmail) (report : string) :
  Forall numeric_band items → Forall printable_item items →
  ∃ text, foldM conspiracy_entry report items = Ok text.
Proof.
  intros Hnum. revert report.
  induction Hnum as [|item items Hitem _ IH]; intros report Hprint; [by eexists|].
  apply Forall_cons in Hprint as [Hprintable Hprint].
  cbn [foldM]. destruct (conspiracy_entry_Ok report item Hitem Hprintable) as [text ->].
  cbn [mbind result_bind]. by apply IH.
Qed.
End ConspiracyReport.

(** The report of the conspiracy detector compares every severity with a
    number: when every judgment has its reasoning and quotes that are
    absent, empty or a list of strings, the report is produced exactly
    when no severity is a string, a list, a dict or [None].  A severity
    that is NaN or an infinity is a number: the report is produced. *)
Theorem conspiracy_report_needs_numeric_severity `{PyStr} `{PyJson}
    (suspicious_emails : list SuspiciousEmail) (total_emails : nat) :
  Forall printable_item suspicious_emails →
  (∃ text, _generate_final_report suspicious_emails total_emails = Ok text)
  ↔ Forall numeric_band suspicious_emails.
Proof.
  intros Hprint.
  destruct suspicious_emails as [|item items]; [split; [done|by eexists]|].
  set (l := item :: items) in *.
  split.
  - intros [text Hreport]. apply Forall_forall. intros x Hx.
    destruct (severity_of_cases x) as [Hnum|[e He]]; [done|].
    destruct (filterM_Raise is_high l x e Hx) as [e' Hraise].
    { unfold is_high. by rewrite He. }
    unfold _generate_final_report, l in Hreport. fold l in Hreport.
    unfold severity_bands in Hreport. rewrite Hraise in Hreport. done.
  - intros Hnum.
    unfold _generate_final_report, l. fold l.
    rewrite (severity_bands_numeric l Hnum). cbn [mbind result_bind fst snd].
    remember (List.filter (fun item => num_leb (Finite 7) (band_value item)) l) as high
      eqn:Hdef.
    assert (Hhigh : ∀ P : SuspiciousEmail -> Prop, Forall P l → Forall P (take 5 high)).
    { intros P HP. subst high. apply Forall_take, Forall_forall.
      intros x [Hx _]%list_elem_of_In%List.filter_In.
      apply list_elem_of_In in Hx.
      by apply (proj1 (Forall_forall _ _) HP). }
    clear Hdef. destruct high as [|first rest]; [by eexists|].
    match goal with
    | |- ∃ text, (r ← foldM conspiracy_entry ?report _; _) = _ =>
        destruct (conspiracy_entries_Ok (take 5 (first :: rest)) report
                    (Hhigh _ Hnum) (Hhigh _ Hprint)) as [text ->]
    end.
    by eexists.
Qed.

Lemma conspiracy_report_needs_numeric_severity_witness :
  Forall printable_item [ Sample.teasing_item; Sample.mocking_item ] ∧
  ((∃ text,
      _generate_final_report (H := Sample.py_str) (H0 := Sample.py_json)
        [ Sample.teasing_item; Sample.mocking_item ] 9 = Ok text)
   ↔ Forall numeric_band [ Sample.teasing_item; Sample.mocking_item ]).
Proof.
  assert (Hprint : Forall printable_item [ Sample.teasing_item; Sample.mocking_item ]).
  { constructor; [|constructor; [|constructor]].
    - split; [eexists; reflexivity|]. eexists. split; [reflexivity|]. by left.
    - split; [eexists; reflexivity|]. eexists. split; [reflexivity|].
      right. by exists [ "ignore Toby" ]. }
  split; [exact Hprint|].
  exact (conspiracy_report_needs_numeric_severity (H := Sample.py_str)
           (H0 := Sample.py_json) _ 9 Hprint).
Defined.

(** ** The conspiracy analysis as a whole *)

Lemma filter_relevant_emails_spec `{PyStr} (emails : list Email) :
  _filter_relevant_emails emails = List.filter is_relevant emails.
Proof.
  unfold _filter_relevant_emails.
  assert (Hfold : ∀ acc, fold_left relevant_step emails acc
                         = acc ++ List.filter is_relevant emails).
  { induction emails as [|email emails IH]; intros acc; cbn [fold_left List.filter].
    - by rewrite app_nil_r.
    - rewrite IH. unfold relevant_step, is_relevant.
      destruct (str_in michael_address (py_lower (remetente email)));
        destruct (str_in michael_address (py_lower (destinatario email)));
        destruct (str_in "toby" _); destruct (str_in "flenderson" _);
        cbn [orb]; by rewrite <- ?app_assoc. }
  apply Hfold.
Qed.

(** The conspiracy analysis judges the emails that are from or to Michael
    Scott or that name Toby Flenderson, and no other.  When the email file
    is loaded and every complete judgment is a JSON object, the scan makes
    one or two calls for each of these emails and does not raise; the only
    exception that can still come is one of the report. *)
Theorem conspiracy_analysis_composition `{PyStr} `{External} `{PyJson} (llm : Llm)
    (files : string -> option string) (emails_path : string) (emails : list Email)
    (n : nat) :
  load_emails files emails_path = Ok emails →
  (∀ email m analysis, complete_judgment llm email m = Some analysis →
     ∃ entries, analysis = JDict entries) →
  ∃ found n',
    (n + length (List.filter is_relevant emails) ≤ n'
       ≤ n + 2 * length (List.filter is_relevant emails))%nat ∧
    Forall suspicious_record found ∧
    se_email <$> found `sublist_of` List.filter is_relevant emails ∧
    analyze_emails llm files emails_path n
    = (match _generate_final_report found (length emails) with
       | Ok report =>
           Ok {| cs_total_emails := length emails;
                 cs_relevant_emails := length (List.filter is_relevant emails);
                 cs_suspicious_emails := found;
                 cs_report := report |}
       | Raise e => Raise e
       end, n').
Proof.
  intros Hemails Hdict.
  destruct (suspicious_loop_run llm (List.filter is_relevant emails) [] n Hdict)
    as (found & n' & Hrun & Hn' & Hrecords & Hsub).
  exists found, n'. split; [done|]. split; [done|]. split; [done|].
  unfold analyze_emails, mbind, calls_bind, lift. rewrite Hemails.
  rewrite filter_relevant_emails_spec, Hrun. cbn [app].
  by destruct (_generate_final_report found (length emails)).
Qed.

Lemma conspiracy_analysis_composition_witness :
  ∃ emails found n',
    load_emails (H := Sample.py_str) (Sample.mailbox Sample.office_file)
      Sample.emails_path = Ok emails ∧
    (0 + length (List.filter (is_relevant (H := Sample.py_str)) emails) ≤ n'
       ≤ 0 + 2 * length (List.filter (is_relevant (H := Sample.py_str)) emails))%nat ∧
    Forall suspicious_record found ∧
    se_email <$> found `sublist_of` List.filter (is_relevant (H := Sample.py_str)) emails ∧
    analyze_emails (H := Sample.py_str) (H0 := Sample.external) (H1 := Sample.py_json)
      (Sample.flaky_llm Sample.suspicious_reply) (Sample.mailbox Sample.office_file)
      Sample.emails_path 0
    = (match _generate_final_report (H := Sample.py_str) (H0 := Sample.py_json)
               found (length emails) with
       | Ok report =>
           Ok {| cs_total_emails := length emails;
                 cs_relevant_emails :=
                   length (List.filter (is_relevant (H := Sample.py_str)) emails);
                 cs_suspicious_emails := found;
                 cs_report := report |}
       | Raise e => Raise e
       end, n').
Proof.
  destruct (load_emails (H := Sample.py_str) (Sample.mailbox Sample.office_file)
              Sample.emails_path) as [emails|] eqn:Hemails;
    [|by vm_compute in Hemails].
  destruct (conspiracy_analysis_composition (H := Sample.py_str) (H0 := Sample.external)
              (H1 := Sample.py_json) (Sample.flaky_llm Sample.suspicious_reply)
              (Sample.mailbox Sample.office_file) Sample.emails_path emails 0 Hemails
              sample_judgments_are_objects)
    as (found & n' & Hn' & Hrecords & Hsub & Hrun).
  exists emails, found, n'.
  split; [reflexivity|]. split; [exact Hn'|]. split; [exact Hrecords|].
  split; [exact Hsub|exact Hrun].
Defined.

(** ** Chunks of text *)

Lemma prefix_refl_append (x b : string) : String.prefix x (x +:+ b) = true.
Proof.
  induction x as [|c x IH]; simpl; [by destruct b|].
  destruct (ascii_dec c c); [exact IH|done].
Qed.

Lemma str_in_here (x b : string) : str_in x (x +:+ b) = true.
Proof.
  destruct (x +:+ b) eqn:Hs; cbn [str_in]; rewrite <- Hs, prefix_refl_append; done.
Qed.

Lemma str_in_append_l (x a s : string) : str_in x s = true → str_in x (a +:+ s) = true.
Proof.
  intros Hin. induction a as [|c a IH]; [done|].
  change (String c a +:+ s) with (String c (a +:+ s)).
  cbn [str_in]. rewrite IH. apply orb_true_r.
Qed.

Lemma str_in_self (x : string) : str_in x x = true.
Proof.
  destruct x as [|c x]; [done|]. cbn [str_in].
  assert (Hp : String.prefix (String c x) (String c x) = true).
  { clear. induction (String c x) as [|c' s IH]; [done|]. cbn.
    destruct (ascii_dec c' c'); [exact IH|done]. }
  by rewrite Hp.
Qed.

Lemma str_in_concat (sep x : string) (l : list string) :
  x ∈ l → str_in x (String.concat sep l) = true.
Proof.
  induction l as [|y l IH]; [by intros ?%elem_of_nil|].
  intros [->|Hx]%elem_of_cons.
  - destruct l as [|z l]; cbn [String.concat]; [apply str_in_self|apply str_in_here].
  - destruct l as [|z l]; [by apply elem_of_nil in Hx|].
    cbn [String.concat]. apply str_in_append_l, str_in_append_l, IH, Hx.
Qed.

Lemma append_nonempty (a b : string) : a ≠ "" → a +:+ b ≠ "".
Proof. by destruct a. Qed.

Lemma concat_nonempty (sep : string) (l : list string) :
  has_items l = true → Forall (λ x, x ≠ "") l → String.concat sep l ≠ "".
Proof.
  destruct l as [|x l]; [done|]. intros _ [Hx _]%Forall_cons.
  destruct l; cbn [String.concat]; [done|by apply append_nonempty].
Qed.

Lemma last_piece_nonempty (l : list string) :
  has_items l = true → Forall (λ x, x ≠ "") l → last_piece l ≠ "".
Proof.
  intros Hitems Hall. unfold last_piece.
  destruct (last l) as [x|] eqn:Hlast.
  - apply (proj1 (Forall_forall _ _) Hall). cbn.
    rewrite last_lookup in Hlast. by eapply list_elem_of_lookup_2.
  - apply last_None in Hlast. by subst.
Qed.

Lemma adds_piece_invariant (st st' : Splitter) (x : string) (pieces : list string) :
  splitter_invariant st pieces → x ≠ "" → adds_piece st x st' →
  splitter_invariant st' (pieces ++ [ x ]).
Proof.
  intros (Hchunks & Hcurrent & Hkept & Hcount) Hx Hadds.
  unfold splitter_invariant. rewrite length_app. cbn [length].
  destruct Hadds as [ [Hsame Happend] | (Hitems & [sep Hflushed] & Hnew) ].
  - rewrite Hsame, Happend. split; [done|]. split; [apply Forall_app; split; [done|by constructor]|]. split.
    + intros p [Hp|Hp%list_elem_of_singleton]%elem_of_app.
      * destruct (Hkept p Hp) as [?|?]; [by left|]. right. apply elem_of_app. by left.
      * subst p. right. apply elem_of_app. right. by apply list_elem_of_singleton.
    + destruct (sp_current_chunk st); cbn in *; lia.
  - rewrite Hitems in Hcount. rewrite Hflushed.
    assert (Hstored : ∀ p, p ∈ pieces →
      ∃ c, c ∈ sp_chunks st ++ [ String.concat sep (sp_current_chunk st) ]
           ∧ str_in p c = true).
    { intros p Hp. destruct (Hkept p Hp) as [(c & Hc & Hin)|Hin].
      - exists c. split; [apply elem_of_app; by left|done].
      - eexists. split; [apply elem_of_app; right; by apply list_elem_of_singleton|].
        by apply str_in_concat. }
    split; [apply Forall_app; split; [done|]; constructor; [|done];
            by apply concat_nonempty|].
    rewrite length_app. cbn [length].
    destruct Hnew as [Hnew|(overlap_text & Hoverlap & Hnew)]; rewrite Hnew.
    + split; [by repeat constructor|]. split; [|cbn; lia].
      intros p [Hp|Hp%list_elem_of_singleton]%elem_of_app; [left; by apply Hstored|].
      subst p. right. by apply list_elem_of_singleton.
    + split; [by repeat constructor|]. split; [|cbn; lia].
      intros p [Hp|Hp%list_elem_of_singleton]%elem_of_app; [left; by apply Hstored|].
      subst p. right. apply elem_of_cons. right. by apply list_elem_of_singleton.
Qed.

Section Chunks.
Context `{PyStr} (chunk_size chunk_overlap : Z).

Lemma normal_sentence_nonempty (sentence x : string) :
  x ∈ normal_sentence sentence → x ≠ "".
Proof.
  unfold normal_sentence.
  destruct (nonempty (py_strip sentence)) eqn:Hs; [|by intros ?%elem_of_nil].
  intros Hx%list_elem_of_singleton. subst x. apply nonempty_spec in Hs.
  destruct (ends_with_dot (py_strip sentence)); [done|by apply append_nonempty].
Qed.

Lemma sentence_step_invariant (st : Splitter) (sentence : string) (pieces : list string) :
  Forall (λ x, x ≠ "") (sp_current_chunk st) →
  splitter_invariant st pieces →
  splitter_invariant (sentence_step chunk_size chunk_overlap st sentence)
    (pieces ++ normal_sentence sentence).
Proof.
  intros Hcurrent Hinv.
  pose proof (normal_sentence_nonempty sentence) as Hne.
  unfold sentence_step, normal_sentence in *.
  destruct (nonempty (py_strip sentence)); cbn [negb]; [|by rewrite app_nil_r].
  set (x := if ends_with_dot (py_strip sentence) then py_strip sentence
            else py_strip sentence +:+ ".") in *.
  apply (adds_piece_invariant st); [done|apply Hne; by apply list_elem_of_singleton|].
  destruct ((chunk_size <? sp_current_size st + py_len x)%Z
            && has_items (sp_current_chunk st)) eqn:Hflush; [|by left].
  apply andb_true_iff in Hflush as [_ Hitems]. rewrite Hitems, andb_true_r.
  right. split; [done|].
  destruct (0 <? chunk_overlap)%Z; cbn [sp_chunks sp_current_chunk].
  - split; [by eexists|]. right. eexists. split; [|done].
    destruct (2 <=? length (sp_current_chunk st))%nat eqn:Hlen.
    + apply Nat.leb_le in Hlen. apply concat_nonempty.
      * destruct (drop _ _) eqn:Hdrop; [|done].
        apply (f_equal length) in Hdrop. rewrite length_drop in Hdrop. cbn in Hdrop. lia.
      * by apply Forall_drop.
    + by apply last_piece_nonempty.
  - split; [by eexists|]. by left.
Qed.

Lemma sentences_invariant (sentences : list string) (st : Splitter)
    (pieces : list string) :
  splitter_invariant st pieces →
  splitter_invariant (fold_left (sentence_step chunk_size chunk_overlap) sentences st)
    (pieces ++ (sentences ≫= normal_sentence)).
Proof.
  revert st pieces. induction sentences as [|s sentences IH]; intros st pieces Hinv.
  - cbn. by rewrite app_nil_r.
  - cbn [fold_left]. rewrite bind_cons, app_assoc. apply IH.
    apply sentence_step_invariant; [apply Hinv|done].
Qed.

Lemma paragraph_step_invariant (st : Splitter) (para : string) (pieces : list string) :
  splitter_invariant st pieces →
  splitter_invariant (paragraph_step chunk_size chunk_overlap st para)
    (pieces ++ (let para := py_strip para in
                if negb (nonempty para) then []
                else if (chunk_size <? py_len para)%Z
                     then split_str ". " para ≫= normal_sentence
                     else [ para ])).
Proof.
  intros Hinv. unfold paragraph_step. cbn zeta.
  destruct (nonempty (py_strip para)) eqn:Hpara; cbn [negb]; [|by rewrite app_nil_r].
  apply nonempty_spec in Hpara.
  destruct (chunk_size <? py_len (py_strip para))%Z; [by apply sentences_invariant|].
  apply (adds_piece_invariant st); [done..|].
  destruct ((chunk_size <? sp_current_size st + py_len (py_strip para))%Z
            && has_items (sp_current_chunk st)) eqn:Hflush; [|by left].
  apply andb_true_iff in Hflush as [_ Hitems]. rewrite Hitems, andb_true_r.
  right. split; [done|].
  destruct (0 <? chunk_overlap)%Z; cbn [sp_chunks sp_current_chunk].
  - split; [by eexists|]. right. eexists. split; [|done].
    apply last_piece_nonempty; [done|apply Hinv].
  - split; [by eexists|]. by left.
Qed.

Lemma paragraphs_invariant (paragraphs : list string) (st : Splitter)
    (pieces : list string) :
  splitter_invariant st pieces →
  splitter_invariant (fold_left (paragraph_step chunk_size chunk_overlap) paragraphs st)
    (pieces ++ (paragraphs ≫= fun para =>
                  let para := py_strip para in
                  if negb (nonempty para) then []
                  else if (chunk_size <? py_len para)%Z
                       then split_str ". " para ≫= normal_sentence
                       else [ para ])).
Proof.
  revert st pieces. induction paragraphs as [|para paragraphs IH]; intros st pieces Hinv.
  - cbn. by rewrite app_nil_r.
  - cbn [fold_left]. rewrite bind_cons, app_assoc. apply IH.
    by apply paragraph_step_invariant.
Qed.
End Chunks.

(** The chunks lose no text and hold no empty string: every piece of the
    text, a short paragraph or a sentence of a long one, occurs in some
    chunk; no chunk is empty; there are no more chunks than pieces; and a
    text gives no chunk exactly when it has no piece. *)
Theorem split_text_keeps_every_piece `{PyStr} (text : string)
    (chunk_size chunk_overlap : Z) :
  let chunks := split_text_for_rag text chunk_size chunk_overlap in
  Forall (λ c, c ≠ "") chunks ∧
  (∀ p, p ∈ text_pieces text chunk_size → ∃ c, c ∈ chunks ∧ str_in p c = true) ∧
  (length chunks ≤ length (text_pieces text chunk_size))%nat ∧
  (chunks = [] ↔ text_pieces text chunk_size = []).
Proof.
  cbn zeta.
  assert (Hmain :
    let chunks := split_text_for_rag text chunk_size chunk_overlap in
    Forall (λ c, c ≠ "") chunks ∧
    (∀ p, p ∈ text_pieces text chunk_size → ∃ c, c ∈ chunks ∧ str_in p c = true) ∧
    (length chunks ≤ length (text_pieces text chunk_size))%nat).
  { cbn zeta. unfold split_text_for_rag, text_pieces.
    set (start := {| sp_chunks := []; sp_current_chunk := []; sp_current_size := 0 |}).
    destruct (paragraphs_invariant chunk_size chunk_overlap
                (split_str (nl +:+ nl) text) start [])
      as (Hchunks & Hcurrent & Hkept & Hcount).
    { split; [constructor|]. split; [constructor|]. split; [|cbn; lia].
      by intros p ?%elem_of_nil. }
    cbn [app] in Hkept, Hcount.
    set (st := fold_left (paragraph_step chunk_size chunk_overlap)
                 (split_str (nl +:+ nl) text) start) in *.
    destruct (has_items (sp_current_chunk st)) eqn:Hitems.
    - split; [apply Forall_app; split; [done|]; constructor; [|done];
              by apply concat_nonempty|].
      split; [|rewrite length_app; cbn [length]; lia].
      intros p Hp. destruct (Hkept p Hp) as [(c & Hc & Hin)|Hin].
      + exists c. split; [apply elem_of_app; by left|done].
      + eexists. split; [apply elem_of_app; right; by apply list_elem_of_singleton|].
        by apply str_in_concat.
    - split; [done|]. split; [|lia].
      intros p Hp. destruct (Hkept p Hp) as [?|Hin]; [done|].
      destruct (sp_current_chunk st); [by apply elem_of_nil in Hin|done]. }
  cbn zeta in Hmain. destruct Hmain as (Hnonempty & Hkept & Hcount).
  split; [done|]. split; [done|]. split; [done|]. split.
  - intros Hnone. destruct (text_pieces text chunk_size) as [|p pieces] eqn:Hpieces;
      [done|].
    destruct (Hkept p) as (c & Hc & _); [by left|].
    rewrite Hnone in Hc. by apply elem_of_nil in Hc.
  - intros Hnone. rewrite Hnone in Hcount.
    destruct (split_text_for_rag text chunk_size chunk_overlap); [done|cbn in Hcount; lia].
Qed.

(** ** Loading the three inputs *)

Lemma load_transactions_returns_iff `{Pandas} (fs : string -> option RawFrame)
    (path : string) :
  (∃ df, load_transactions fs path = Ok df)
  ↔ ∃ raw, fs path = Some raw ∧ ∀ col, col ∈ required_columns → col ∈ raw_columns raw.
Proof.
  unfold load_transactions. destruct (fs path) as [raw|]; [|split; [by intros [??]|]].
  - destruct (filter (fun c => c ∉ raw_columns raw) required_columns) as [|c cs] eqn:Hf.
    + split; [|by eexists]. intros _. exists raw. split; [done|]. intros col Hcol.
      destruct (decide (col ∈ raw_columns raw)) as [|Hmissing]; [done|].
      assert (Hin : col ∈ filter (fun c => c ∉ raw_columns raw) required_columns)
        by (by apply list_elem_of_filter).
      rewrite Hf in Hin. by apply elem_of_nil in Hin.
    + split; [by intros [??]|]. intros (raw' & [= <-] & Hall).
      assert (Hin : c ∈ filter (fun c => c ∉ raw_columns raw) required_columns)
        by (rewrite Hf; by left).
      apply list_elem_of_filter in Hin as [Hmissing Hreq]. by destruct (Hmissing (Hall c Hreq)).
  - by intros (raw & [=] & _).
Qed.

(** The three inputs are loaded one after the other, the policy first:
    the loading returns exactly when the policy file and the email file
    exist and the table exists with its five required columns, and the
    policy it returns is the text of the file; a missing policy file
    raises before the table is looked at. *)
Theorem load_and_validate_data_returns_iff `{PyStr} `{Pandas}
    (files : string -> option string) (fs : string -> option RawFrame)
    (compliance_path transactions_path emails_path : string) :
  ((∃ loaded,
      load_and_validate_data files fs compliance_path transactions_path emails_path
        = Ok loaded ∧
      files compliance_path = Some (ld_policy loaded) ∧
      load_transactions fs transactions_path = Ok (ld_transactions loaded) ∧
      load_emails files emails_path = Ok (ld_emails loaded))
   ↔ is_Some (files compliance_path) ∧
     (∃ raw, fs transactions_path = Some raw ∧
             ∀ col, col ∈ required_columns → col ∈ raw_columns raw) ∧
     is_Some (files emails_path)) ∧
  (files compliance_path = None →
   ∃ msg,
     load_and_validate_data files fs compliance_path transactions_path emails_path
       = Raise (FileNotFoundError msg)).
Proof.
  unfold load_and_validate_data, load_compliance_policy. split.
  - rewrite <- load_transactions_returns_iff. split.
    + intros (loaded & Hload & Hpolicy & Htable & Hemails).
      split; [by eexists|]. split; [by eexists|].
      unfold load_emails in Hemails. by destruct (files emails_path).
    + intros ([policy Hpolicy] & [df Hdf] & [content Hcontent]).
      rewrite Hpolicy, Hdf. cbn [mbind result_bind].
      unfold load_emails. rewrite Hcontent. cbn [mbind result_bind].
      eexists. split; [reflexivity|]. cbn [ld_policy ld_transactions ld_emails].
      split; [done|]. split; done.
  - intros ->. by eexists.
Qed.
